(** * The case priority / scheduling engine

    A shallow embedding of [backend/services/aiSchedulerService.js] (the
    scheduler service) and of the scheduling-relevant part of the Case model
    (schema, [pre('save')] hook and [updateDelayInfo]).

    Conventions.
    - A JavaScript number is an IEEE double.  The program only compares
      numbers, takes [Math.max]/[Math.min] of them and tests them for
      truthiness, all of which are exact, so a finite double is kept as the
      rational it denotes ([Num q]); [NaN] and the two infinities are kept
      apart.  Every double is such a value, so a statement over all [number]s
      covers all doubles.
    - A [Date] is a time value in milliseconds since the epoch, or the
      invalid date.
    - [undefined] is [None] in a [jsval]. *)

From Stdlib Require Import ZArith QArith Qabs Qround Qpower List String Ascii Bool Lia Lqa.
From Stdlib Require Import Sorting.Permutation Sorting.Sorted DecimalString.
From Equations Require Import Equations.
Import ListNotations.

Set Implicit Arguments.
Set Warnings "-register-all".

Close Scope Q_scope.
Open Scope Z_scope.

(* ===================================================================== *)
(** * Part I.  The embedding                                              *)
(* ===================================================================== *)

(** ** JavaScript numbers *)

Inductive number : Type :=
| NaN
| Num (q : Q)
| PosInf
| NegInf.

Module JS.

(** [Math.min(a, b)] on numbers: [NaN] if either is [NaN]. *)
Definition Math_min (a b : number) : number :=
  match a, b with
  | NaN, _ => NaN
  | _, NaN => NaN
  | NegInf, _ => NegInf
  | _, NegInf => NegInf
  | PosInf, x => x
  | x, PosInf => x
  | Num p, Num q => if Qle_bool p q then Num p else Num q
  end.

(** [Math.max(a, b)] on numbers. *)
Definition Math_max (a b : number) : number :=
  match a, b with
  | NaN, _ => NaN
  | _, NaN => NaN
  | PosInf, _ => PosInf
  | _, PosInf => PosInf
  | NegInf, x => x
  | x, NegInf => x
  | Num p, Num q => if Qle_bool p q then Num q else Num p
  end.

(** [a <= b]; every comparison with [NaN] is false. *)
Definition le (a b : number) : bool :=
  match a, b with
  | NaN, _ => false
  | _, NaN => false
  | NegInf, _ => true
  | _, PosInf => true
  | Num p, Num q => Qle_bool p q
  | _, _ => false
  end.

(** [a >= b]. *)
Definition ge (a b : number) : bool := le b a.

(** [a < b]. *)
Definition lt (a b : number) : bool :=
  match a, b with
  | NaN, _ => false
  | _, NaN => false
  | Num p, Num q => negb (Qle_bool q p)
  | NegInf, NegInf => false
  | NegInf, _ => true
  | PosInf, _ => false
  | Num _, PosInf => true
  | Num _, NegInf => false
  end.

(** Truthiness of a number: [0] and [NaN] are falsy. *)
Definition number_truthy (n : number) : bool :=
  match n with
  | NaN => false
  | Num q => negb (Qeq_bool q 0%Q)
  | _ => true
  end.

End JS.

(** The literals of the source. *)
Definition n0 : number := Num 0%Q.
Definition n1 : number := Num 1%Q.
Definition n30 : number := Num 30%Q.
Definition n50 : number := Num 50%Q.
Definition n100 : number := Num 100%Q.

(** ** String to number ([StringToNumber] of the language) *)

Module StrNum.

Definition is_space (c : ascii) : bool :=
  let n := nat_of_ascii c in
  ((9 <=? n) && (n <=? 13))%nat || (n =? 32)%nat.

Fixpoint drop_spaces (l : list ascii) : list ascii :=
  match l with
  | c :: r => if is_space c then drop_spaces r else l
  | [] => []
  end.

(** [trim]: white space removed at both ends. *)
Definition trim_list (l : list ascii) : list ascii :=
  rev (drop_spaces (rev (drop_spaces l))).

Definition digit_val (base : Z) (c : ascii) : option Z :=
  let n := Z.of_nat (nat_of_ascii c) in
  let v :=
    (if (48 <=? n) && (n <=? 57) then Some (n - 48)
     else if (97 <=? n) && (n <=? 102) then Some (n - 87)
     else if (65 <=? n) && (n <=? 70) then Some (n - 55)
     else None)%Z in
  match v with
  | Some d => if (d <? base)%Z then Some d else None
  | None => None
  end.

(** Longest prefix of digits in [base]: value so far, number of digits
    read, rest of the input. *)
Fixpoint digits (base : Z) (acc : Z) (cnt : nat) (l : list ascii)
  : Z * nat * list ascii :=
  match l with
  | c :: r =>
      match digit_val base c with
      | Some d => digits base (acc * base + d)%Z (S cnt) r
      | None => (acc, cnt, l)
      end
  | [] => (acc, cnt, [])
  end.

Definition chars (s : string) : list ascii := list_ascii_of_string s.

(** [e] or [E], an optional sign, at least one digit; nothing else may
    follow. *)
Definition exponent (l : list ascii) : option Z :=
  match l with
  | [] => Some 0%Z
  | c :: r =>
      if (nat_of_ascii c =? 101)%nat || (nat_of_ascii c =? 69)%nat then
        let '(sg, r') :=
          match r with
          | s :: t =>
              if (nat_of_ascii s =? 45)%nat then ((-1)%Z, t)
              else if (nat_of_ascii s =? 43)%nat then (1%Z, t)
              else (1%Z, r)
          | [] => (1%Z, r)
          end in
        match digits 10 0 0 r' with
        | (e, S _, []) => Some (sg * e)%Z
        | _ => None
        end
      else None
  end.

(** The largest magnitude that still rounds to a finite double, and the
    largest that rounds to zero. *)
Definition overflow_bound : Q := inject_Z (2 ^ 1024 - 2 ^ 970).
Definition underflow_bound : Q := (1 # (Pos.pow 2 1075))%Q.

Definition finite (q : Q) : number :=
  if Qle_bool overflow_bound (Qabs.Qabs q) then
    (if Qle_bool 0%Q q then PosInf else NegInf)
  else if Qle_bool (Qabs.Qabs q) underflow_bound then Num 0%Q
  else Num q.

(** [DecimalDigits . DecimalDigits? ExponentPart?], [. DecimalDigits
    ExponentPart?] and [DecimalDigits ExponentPart?]. *)
Definition unsigned_decimal (l : list ascii) : option Q :=
  let '(ip, ni, r1) := digits 10 0 0 l in
  let '(m, nf, r2) :=
    match r1 with
    | c :: t =>
        if (nat_of_ascii c =? 46)%nat then
          let '(m, nf, r2) := digits 10 ip 0 t in (m, nf, r2)
        else (ip, 0%nat, r1)
    | [] => (ip, 0%nat, r1)
    end in
  match (ni + nf)%nat with
  | O => None
  | S _ =>
      match exponent r2 with
      | Some e => Some (inject_Z m * Qpower (10 # 1) (e - Z.of_nat nf))%Q
      | None => None
      end
  end.

Definition infinity_word : list ascii := chars "Infinity".

Definition list_ascii_eqb (a b : list ascii) : bool :=
  String.eqb (string_of_list_ascii a) (string_of_list_ascii b).

Definition unsigned_literal (l : list ascii) : number :=
  if list_ascii_eqb l infinity_word then PosInf
  else match unsigned_decimal l with
       | Some q => finite q
       | None => NaN
       end.

Definition negate (n : number) : number :=
  match n with
  | NaN => NaN
  | Num q => Num (- q)%Q
  | PosInf => NegInf
  | NegInf => PosInf
  end.

(** [0x], [0o] and [0b] literals (no sign allowed). *)
Definition non_decimal (l : list ascii) : option number :=
  match l with
  | z :: p :: r =>
      if (nat_of_ascii z =? 48)%nat then
        let n := nat_of_ascii p in
        let base :=
          if (n =? 120)%nat || (n =? 88)%nat then Some 16
          else if (n =? 111)%nat || (n =? 79)%nat then Some 8
          else if (n =? 98)%nat || (n =? 66)%nat then Some 2
          else None in
        match base with
        | Some b =>
            match digits b 0 0 r with
            | (v, S _, []) => Some (finite (inject_Z v))
            | _ => Some NaN
            end
        | None => None
        end
      else None
  | _ => None
  end.

(** [StringToNumber]: the empty (or all-blank) string is [0]; a string
    that is no numeric literal is [NaN]. *)
Definition StringToNumber (s : string) : number :=
  match trim_list (chars s) with
  | [] => Num 0%Q
  | c :: r =>
      match non_decimal (c :: r) with
      | Some n => n
      | None =>
          if (nat_of_ascii c =? 45)%nat then negate (unsigned_literal r)
          else if (nat_of_ascii c =? 43)%nat then unsigned_literal r
          else unsigned_literal (c :: r)
      end
  end.

End StrNum.

(** ** JSON values, as [JSON.parse] returns them *)

Inductive json : Type :=
| JNull
| JBool (b : bool)
| JNum (n : number)
| JStr (s : string)
| JArr (l : list json)
| JObj (props : list (string * json)).

(** A JavaScript value of this program: a JSON value or [undefined]. *)
Definition jsval : Type := option json.

Definition undefined : jsval := None.

Module Coerce.

(** [ToBoolean]. *)
Definition truthy (v : jsval) : bool :=
  match v with
  | None => false
  | Some JNull => false
  | Some (JBool b) => b
  | Some (JNum n) => JS.number_truthy n
  | Some (JStr s) => negb (String.eqb s EmptyString)
  | Some (JArr _) => true
  | Some (JObj _) => true
  end.

(** [a || b]. *)
Definition or_else (a : jsval) (b : json) : json :=
  match a with
  | Some v => if truthy a then v else b
  | None => b
  end.

(** Whether a parsed object has an own property [k]. *)
Fixpoint has_own (k : string) (props : list (string * json)) : bool :=
  match props with
  | [] => false
  | (k', _) :: rest => String.eqb k k' || has_own k rest
  end.

(** Whether turning a value into a primitive throws a TypeError.  An object
    is turned into a primitive by its [valueOf] and [toString] methods; a
    parsed object inherits both, [valueOf] giving the object back and
    [toString] giving [[object Object]], but an own property [toString]
    hides the inherited method and, being no function, leaves no way to a
    primitive.  An array is joined, which turns each element other than
    [null] into a string and throws when one of them does. *)
Fixpoint throwing (v : json) : bool :=
  match v with
  | JObj props => has_own "toString" props
  | JArr l =>
      (fix any (l : list json) : bool :=
         match l with
         | [] => false
         | x :: r => throwing x || any r
         end) l
  | _ => false
  end.

(** The number a JSON value turns into when the conversion does not throw.
    An array is first joined with commas: the empty array gives the empty
    string (hence [0]), a one-element array gives the text of its element
    ([null] gives the empty string, a number prints and reads back as
    itself), and with two or more elements the text holds a comma and is no
    numeric literal.  An object prints as [[object Object]]. *)
Fixpoint numeric (v : json) : number :=
  match v with
  | JNull => Num 0%Q
  | JBool b => if b then Num 1%Q else Num 0%Q
  | JNum n => n
  | JStr s => StrNum.StringToNumber s
  | JArr l =>
      match l with
      | [] => Num 0%Q
      | [x] =>
          match x with
          | JNull => Num 0%Q
          | JBool _ => NaN
          | JNum n => n
          | JStr s => StrNum.StringToNumber s
          | JArr _ => numeric x
          | JObj _ => NaN
          end
      | _ :: _ :: _ => NaN
      end
  | JObj _ => NaN
  end.

(** [ToNumber]; [None] when it throws. *)
Definition ToNumber (v : json) : option number :=
  if throwing v then None else Some (numeric v).

(** Whether the conversion of a property value throws; [undefined] is
    replaced by a default before it is converted. *)
Definition throws_on (v : jsval) : bool :=
  match v with
  | Some x => throwing x
  | None => false
  end.

End Coerce.

(** ** The Scoring Client's parser ([parseAIResponse]) *)

Record AnalysisResult : Type := {
  priorityScore : number;
  complexityScore : number;
  urgencyFactors : list json;
  delayRiskFactors : list json;
  estimatedDuration : number;
  successProbability : number;
  similarCasesCount : number;
  reasoning : json
}.

(** A computation that may throw: [None] is a thrown exception. *)
Definition throws (A : Type) : Type := option A.

Definition bind {A B : Type} (c : throws A) (k : A -> throws B) : throws B :=
  match c with
  | Some x => k x
  | None => None
  end.

Notation "x <- c ;; k" := (bind c (fun x => k))
  (at level 61, c at next level, right associativity).

Module Props.

(** Own property [k] of a parsed object; for a key written twice
    [JSON.parse] keeps the last value. *)
Fixpoint lookup (k : string) (props : list (string * json)) : jsval :=
  match props with
  | [] => undefined
  | (k', v) :: rest =>
      match lookup k rest with
      | Some w => Some w
      | None => if String.eqb k k' then Some v else undefined
      end
  end.

(** [analysis.k]: reading a property of [null] throws a TypeError; a
    number, string, boolean or array has none of the properties read
    here. *)
Definition get (analysis : json) (k : string) : throws jsval :=
  match analysis with
  | JNull => None
  | JObj props => Some (lookup k props)
  | _ => Some undefined
  end.

(** The value read from [analysis.k] when [analysis] is not [null]. *)
Definition read (analysis : json) (k : string) : jsval :=
  match analysis with
  | JObj props => lookup k props
  | _ => undefined
  end.

End Props.

Module Fence.

Definition newline : ascii := ascii_of_nat 10.
Definition backticks : list ascii := StrNum.chars "```".
Definition backticks_json : list ascii := StrNum.chars "```json".

Fixpoint is_prefix (p l : list ascii) : bool :=
  match p, l with
  | [], _ => true
  | a :: p', b :: l' => Ascii.eqb a b && is_prefix p' l'
  | _ :: _, [] => false
  end.

(** [replace(/```json\n?|\n?```/g, '')]: scanning from the left, at each
    position the first alternative is tried before the second, and a match
    is dropped; [skip] counts the characters of the current match still to
    drop. *)
Fixpoint strip (skip : nat) (l : list ascii) : list ascii :=
  match l with
  | [] => []
  | c :: r =>
      match skip with
      | S k => strip k r
      | O =>
          if is_prefix backticks_json l then
            (if is_prefix [newline] (skipn 6 r) then strip 7 r else strip 6 r)
          else if is_prefix (newline :: backticks) l then strip 3 r
          else if is_prefix backticks l then strip 2 r
          else c :: strip 0 r
      end
  end.

(** [aiResponse.replace(...).trim()]. *)
Definition clean (aiResponse : string) : string :=
  string_of_list_ascii
    (StrNum.trim_list (strip 0 (list_ascii_of_string aiResponse))).

End Fence.

(** [Math.max(0, Math.min(100, v))] for a value [v]: both functions turn
    their arguments into numbers first, which may throw. *)
Definition clamp_0_100 (v : json) : throws number :=
  n <- Coerce.ToNumber v ;;
  Some (JS.Math_max n0 (JS.Math_min n100 n)).

(** [Math.max(lo, v)]. *)
Definition at_least_of (lo : number) (v : json) : throws number :=
  n <- Coerce.ToNumber v ;;
  Some (JS.Math_max lo n).

(** [Array.isArray(v) ? v : []]. *)
Definition array_or_empty (v : jsval) : list json :=
  match v with
  | Some (JArr l) => l
  | _ => []
  end.

(** The [try] block after [JSON.parse] has returned [analysis].  Reading a
    property throws on [null] only and has no effect, so the reads come
    first here; the fields of the result are then computed in the order of
    the object literal, and the first conversion that throws ends the
    block. *)
Definition normalize (analysis : json) : throws AnalysisResult :=
  ps <- Props.get analysis "priorityScore" ;;
  cs <- Props.get analysis "complexityScore" ;;
  uf <- Props.get analysis "urgencyFactors" ;;
  df <- Props.get analysis "delayRiskFactors" ;;
  ed <- Props.get analysis "estimatedDuration" ;;
  sp <- Props.get analysis "successProbability" ;;
  sc <- Props.get analysis "similarCasesCount" ;;
  rs <- Props.get analysis "reasoning" ;;
  priority <- clamp_0_100 (Coerce.or_else ps (JNum n50)) ;;
  complexity <- clamp_0_100 (Coerce.or_else cs (JNum n50)) ;;
  duration <- at_least_of n1 (Coerce.or_else ed (JNum n30)) ;;
  success <- clamp_0_100 (Coerce.or_else sp (JNum n50)) ;;
  similar <- at_least_of n0 (Coerce.or_else sc (JNum n0)) ;;
  Some {|
    priorityScore := priority;
    complexityScore := complexity;
    urgencyFactors := array_or_empty uf;
    delayRiskFactors := array_or_empty df;
    estimatedDuration := duration;
    successProbability := success;
    similarCasesCount := similar;
    reasoning := Coerce.or_else rs (JStr "AI analysis completed")
  |}.

(** The result of the [catch] block. *)
Definition default_analysis : AnalysisResult := {|
  priorityScore := n50;
  complexityScore := n50;
  urgencyFactors := [JStr "Analysis parsing failed"];
  delayRiskFactors := [JStr "Unable to determine"];
  estimatedDuration := n30;
  successProbability := n50;
  similarCasesCount := n0;
  reasoning := JStr "Default analysis due to parsing error"
|}.

(** [parseAIResponse] once [JSON.parse] has been run on the cleaned text:
    [parsed] is [None] when it threw a SyntaxError. *)
Definition parseAIResponse_parsed (parsed : throws json) : AnalysisResult :=
  match (analysis <- parsed ;; normalize analysis) with
  | Some result => result
  | None => default_analysis
  end.

(** [parseAIResponse]; [JSON_parse] is the built-in parser. *)
Definition parseAIResponse (JSON_parse : string -> throws json)
  (aiResponse : string) : AnalysisResult :=
  parseAIResponse_parsed (JSON_parse (Fence.clean aiResponse)).

(** ** The Case model (schema of [models/Case.js]) *)

(** A [Date] object: a time value in milliseconds, or the invalid date. *)
Inductive Date : Type :=
| InvalidDate
| DateAt (ms : Z).

Definition msPerDay : Z := 1000 * 60 * 60 * 24.

Inductive Status : Type :=
| pending_assignment | assigned | in_progress | under_review
| awaiting_hearing | in_court | completed | dismissed | settled | appealed.

Inductive Priority : Type := low | medium | high | urgent | critical.

(** The [delayImpact] enumeration: ['low', 'medium', 'high', 'critical']. *)
Inductive DelayImpact : Type :=
| impact_low | impact_medium | impact_high | impact_critical.

Inductive MilestoneStatus : Type :=
| ms_pending | ms_in_progress | ms_completed | ms_overdue.

Definition ObjectId : Type := nat.

Definition status_name (s : Status) : string :=
  match s with
  | pending_assignment => "pending_assignment"
  | assigned => "assigned"
  | in_progress => "in_progress"
  | under_review => "under_review"
  | awaiting_hearing => "awaiting_hearing"
  | in_court => "in_court"
  | completed => "completed"
  | dismissed => "dismissed"
  | settled => "settled"
  | appealed => "appealed"
  end.

Definition Status_eqb (a b : Status) : bool :=
  String.eqb (status_name a) (status_name b).

(** An element of [notes]. *)
Record Note : Type := {
  content : string;
  createdBy : option ObjectId;
  category : string;
  isPrivate : bool;
  createdAt : option Date
}.

Record Milestone : Type := {
  milestone_title : string;
  milestone_status : MilestoneStatus
}.

(** The [aiAnalysis] sub-document; [lastAnalyzed] may be absent. *)
Record AiAnalysis : Type := {
  ai_complexityScore : number;
  ai_urgencyFactors : list json;
  ai_delayRiskFactors : list json;
  ai_estimatedDuration : number;
  ai_similarCasesCount : number;
  ai_successProbability : number;
  lastAnalyzed : option Date
}.

Record DelayInfo : Type := {
  isDelayed : bool;
  delayDays : Z;
  delayReasons : list string;
  delayImpact : DelayImpact
}.

(** The lawyer sub-document that [populate('assignedLawyer', ...)] puts in
    place of the reference. *)
Record Lawyer : Type := {
  lawyer_id : ObjectId;
  lawyer_name : string;
  experience : option number;
  specialization : list string
}.

(** A case document.  The fields the scheduler and the model's own code read
    or write; [assignedLawyer] is kept populated. *)
Record Case : Type := {
  case_id : ObjectId;
  caseNumber : option string;
  title : string;
  description : string;
  caseType : string;
  subCategory : option string;
  status : Status;
  priority : Priority;
  case_priorityScore : number;
  filingDate : Date;
  hearingDate : option Date;
  deadlineDate : option Date;
  expectedCompletionDate : option Date;
  courtLevel : string;
  estimatedValue : number;
  assignedLawyer : option Lawyer;
  documents : nat;
  aiAnalysis : AiAnalysis;
  delayInfo : DelayInfo;
  milestones : list Milestone;
  notes : list Note;
  createdAtStamp : option Z;
  updatedAt : option Z
}.

(** *** Functional updates of a case document *)

Definition set_delayInfo (c : Case) (d : DelayInfo) : Case :=
  {| case_id := case_id c; caseNumber := caseNumber c; title := title c;
     description := description c; caseType := caseType c;
     subCategory := subCategory c; status := status c;
     priority := priority c; case_priorityScore := case_priorityScore c;
     filingDate := filingDate c; hearingDate := hearingDate c;
     deadlineDate := deadlineDate c;
     expectedCompletionDate := expectedCompletionDate c;
     courtLevel := courtLevel c; estimatedValue := estimatedValue c;
     assignedLawyer := assignedLawyer c; documents := documents c;
     aiAnalysis := aiAnalysis c; delayInfo := d;
     milestones := milestones c; notes := notes c;
     createdAtStamp := createdAtStamp c; updatedAt := updatedAt c |}.

Definition set_priority (c : Case) (score : number) (p : Priority) : Case :=
  {| case_id := case_id c; caseNumber := caseNumber c; title := title c;
     description := description c; caseType := caseType c;
     subCategory := subCategory c; status := status c;
     priority := p; case_priorityScore := score;
     filingDate := filingDate c; hearingDate := hearingDate c;
     deadlineDate := deadlineDate c;
     expectedCompletionDate := expectedCompletionDate c;
     courtLevel := courtLevel c; estimatedValue := estimatedValue c;
     assignedLawyer := assignedLawyer c; documents := documents c;
     aiAnalysis := aiAnalysis c; delayInfo := delayInfo c;
     milestones := milestones c; notes := notes c;
     createdAtStamp := createdAtStamp c; updatedAt := updatedAt c |}.

Definition set_aiAnalysis (c : Case) (a : AiAnalysis) : Case :=
  {| case_id := case_id c; caseNumber := caseNumber c; title := title c;
     description := description c; caseType := caseType c;
     subCategory := subCategory c; status := status c;
     priority := priority c; case_priorityScore := case_priorityScore c;
     filingDate := filingDate c; hearingDate := hearingDate c;
     deadlineDate := deadlineDate c;
     expectedCompletionDate := expectedCompletionDate c;
     courtLevel := courtLevel c; estimatedValue := estimatedValue c;
     assignedLawyer := assignedLawyer c; documents := documents c;
     aiAnalysis := a; delayInfo := delayInfo c;
     milestones := milestones c; notes := notes c;
     createdAtStamp := createdAtStamp c; updatedAt := updatedAt c |}.

Definition set_expectedCompletionDate (c : Case) (d : option Date) : Case :=
  {| case_id := case_id c; caseNumber := caseNumber c; title := title c;
     description := description c; caseType := caseType c;
     subCategory := subCategory c; status := status c;
     priority := priority c; case_priorityScore := case_priorityScore c;
     filingDate := filingDate c; hearingDate := hearingDate c;
     deadlineDate := deadlineDate c;
     expectedCompletionDate := d;
     courtLevel := courtLevel c; estimatedValue := estimatedValue c;
     assignedLawyer := assignedLawyer c; documents := documents c;
     aiAnalysis := aiAnalysis c; delayInfo := delayInfo c;
     milestones := milestones c; notes := notes c;
     createdAtStamp := createdAtStamp c; updatedAt := updatedAt c |}.

Definition set_notes (c : Case) (n : list Note) : Case :=
  {| case_id := case_id c; caseNumber := caseNumber c; title := title c;
     description := description c; caseType := caseType c;
     subCategory := subCategory c; status := status c;
     priority := priority c; case_priorityScore := case_priorityScore c;
     filingDate := filingDate c; hearingDate := hearingDate c;
     deadlineDate := deadlineDate c;
     expectedCompletionDate := expectedCompletionDate c;
     courtLevel := courtLevel c; estimatedValue := estimatedValue c;
     assignedLawyer := assignedLawyer c; documents := documents c;
     aiAnalysis := aiAnalysis c; delayInfo := delayInfo c;
     milestones := milestones c; notes := n;
     createdAtStamp := createdAtStamp c; updatedAt := updatedAt c |}.

Definition set_status (c : Case) (s : Status) : Case :=
  {| case_id := case_id c; caseNumber := caseNumber c; title := title c;
     description := description c; caseType := caseType c;
     subCategory := subCategory c; status := s;
     priority := priority c; case_priorityScore := case_priorityScore c;
     filingDate := filingDate c; hearingDate := hearingDate c;
     deadlineDate := deadlineDate c;
     expectedCompletionDate := expectedCompletionDate c;
     courtLevel := courtLevel c; estimatedValue := estimatedValue c;
     assignedLawyer := assignedLawyer c; documents := documents c;
     aiAnalysis := aiAnalysis c; delayInfo := delayInfo c;
     milestones := milestones c; notes := notes c;
     createdAtStamp := createdAtStamp c; updatedAt := updatedAt c |}.

Definition set_caseNumber (c : Case) (n : option string) : Case :=
  {| case_id := case_id c; caseNumber := n; title := title c;
     description := description c; caseType := caseType c;
     subCategory := subCategory c; status := status c;
     priority := priority c; case_priorityScore := case_priorityScore c;
     filingDate := filingDate c; hearingDate := hearingDate c;
     deadlineDate := deadlineDate c;
     expectedCompletionDate := expectedCompletionDate c;
     courtLevel := courtLevel c; estimatedValue := estimatedValue c;
     assignedLawyer := assignedLawyer c; documents := documents c;
     aiAnalysis := aiAnalysis c; delayInfo := delayInfo c;
     milestones := milestones c; notes := notes c;
     createdAtStamp := createdAtStamp c; updatedAt := updatedAt c |}.

Definition set_stamps (c : Case) (created updated : option Z) : Case :=
  {| case_id := case_id c; caseNumber := caseNumber c; title := title c;
     description := description c; caseType := caseType c;
     subCategory := subCategory c; status := status c;
     priority := priority c; case_priorityScore := case_priorityScore c;
     filingDate := filingDate c; hearingDate := hearingDate c;
     deadlineDate := deadlineDate c;
     expectedCompletionDate := expectedCompletionDate c;
     courtLevel := courtLevel c; estimatedValue := estimatedValue c;
     assignedLawyer := assignedLawyer c; documents := documents c;
     aiAnalysis := aiAnalysis c; delayInfo := delayInfo c;
     milestones := milestones c; notes := notes c;
     createdAtStamp := created; updatedAt := updated |}.

(** *** [updateDelayInfo] *)

(** [now > d] for the current time and a date field; false for the invalid
    date. *)
Definition passed (now : Z) (d : Date) : bool :=
  match d with
  | DateAt t => t <? now
  | InvalidDate => false
  end.

(** [Math.floor((now - d) / (1000 * 60 * 60 * 24))], used where [passed now
    d] holds. *)
Definition days_since (now : Z) (d : Date) : Z :=
  match d with
  | DateAt t => (now - t) / msPerDay
  | InvalidDate => 0
  end.

Definition impact_of_days (delayDays : Z) : DelayImpact :=
  if 180 <? delayDays then impact_critical
  else if 90 <? delayDays then impact_high
  else if 30 <? delayDays then impact_medium
  else impact_low.

Definition updateDelayInfo (now : Z) (this : Case) : Case :=
  let isDelayed0 := false in
  let delayDays0 := 0 in
  let '(isDelayed1, delayDays1) :=
    match expectedCompletionDate this with
    | Some d =>
        if passed now d then (true, days_since now d)
        else (isDelayed0, delayDays0)
    | None => (isDelayed0, delayDays0)
    end in
  let '(isDelayed2, delayDays2) :=
    match hearingDate this with
    | Some h =>
        if passed now h && Status_eqb (status this) awaiting_hearing then
          (true, Z.max delayDays1 (days_since now h))
        else (isDelayed1, delayDays1)
    | None => (isDelayed1, delayDays1)
    end in
  set_delayInfo this
    {| isDelayed := isDelayed2;
       delayDays := delayDays2;
       delayReasons := delayReasons (delayInfo this);
       delayImpact := impact_of_days delayDays2 |}.

(** *** The priority label *)

(** The [if]/[else if] chain of [updateCaseWithAIAnalysis]. *)
Definition priority_of_score (score : number) : Priority :=
  if JS.ge score (Num 90%Q) then critical
  else if JS.ge score (Num 75%Q) then urgent
  else if JS.ge score (Num 60%Q) then high
  else if JS.ge score (Num 40%Q) then medium
  else low.

(** The [urgencyLevel] virtual of the model. *)
Definition urgencyLevel (this : Case) : Priority :=
  if JS.ge (case_priorityScore this) (Num 90%Q) then critical
  else if JS.ge (case_priorityScore this) (Num 75%Q) then urgent
  else if JS.ge (case_priorityScore this) (Num 60%Q) then high
  else if JS.ge (case_priorityScore this) (Num 40%Q) then medium
  else low.

(** The virtuals [caseAge] and [daysUntilHearing] ([Math.floor] of a
    difference of time values over a day; [NaN] when a date is invalid). *)
Definition days_between (later earlier : Date) : number :=
  match later, earlier with
  | DateAt a, DateAt b => Num (inject_Z ((a - b) / msPerDay))
  | _, _ => NaN
  end.

Definition caseAge (now : Z) (this : Case) : number :=
  days_between (DateAt now) (filingDate this).

Definition daysUntilHearing (now : Z) (this : Case) : option number :=
  match hearingDate this with
  | None => None
  | Some h => Some (days_between h (DateAt now))
  end.

(** ** The store layer: filters of [find] and how they are evaluated *)

Inductive error : Type :=
| CastError
| ValidationError
| StoreError
| DocumentNotFoundError
| CaseNotFound.

Inductive Result (A : Type) : Type :=
| Ok (a : A)
| Err (e : error).
Arguments Ok {A} a.
Arguments Err {A} e.

Module Mongo.

(** Values of document fields and of filter operands. *)
Inductive bson : Type :=
| BNull
| BBool (b : bool)
| BNum (n : number)
| BStr (s : string)
| BDate (t : Z)
| BId (i : ObjectId).

(** The operators the program uses; [Eq v] is the plain [{path: v}]. *)
Inductive cond : Type :=
| Eq (v : bson)
| Exists (b : bool)
| Lt (v : bson)
| Lte (v : bson)
| Gte (v : bson)
| In (vs : list bson)
| Nin (vs : list bson).

(** A filter object: its entries hold together; [$or] holds when one of
    its members does. *)
Inductive filter : Type :=
| Field (path : string) (c : cond)
| Or (fs : list filter)
| All (fs : list filter).

Inductive ftype : Type := TString | TNumber | TDate | TBool | TObjectId.

(** The schema type of the paths the program queries. *)
Definition schema_type (path : string) : option ftype :=
  if String.eqb path "status" then Some TString
  else if String.eqb path "priorityScore" then Some TNumber
  else if String.eqb path "aiAnalysis.lastAnalyzed" then Some TDate
  else if String.eqb path "delayInfo.isDelayed" then Some TBool
  else if String.eqb path "delayInfo.delayDays" then Some TNumber
  else if String.eqb path "hearingDate" then Some TDate
  else if String.eqb path "createdAt" then Some TDate
  else if String.eqb path "assignedLawyer" then Some TObjectId
  else None.

(** A stored document holds no invalid date (the schema's cast rejects
    it); it reads as [null]. *)
Definition of_date (d : Date) : bson :=
  match d with
  | DateAt t => BDate t
  | InvalidDate => BNull
  end.

Definition of_opt_date (d : option Date) : bson :=
  match d with
  | Some d' => of_date d'
  | None => BNull
  end.

(** The value of a document at a path; [None] when the field is missing. *)
Definition field (doc : Case) (path : string) : option bson :=
  if String.eqb path "status" then Some (BStr (status_name (status doc)))
  else if String.eqb path "priorityScore" then
    Some (BNum (case_priorityScore doc))
  else if String.eqb path "aiAnalysis.lastAnalyzed" then
    match lastAnalyzed (aiAnalysis doc) with
    | Some d => Some (of_date d)
    | None => None
    end
  else if String.eqb path "delayInfo.isDelayed" then
    Some (BBool (isDelayed (delayInfo doc)))
  else if String.eqb path "delayInfo.delayDays" then
    Some (BNum (Num (inject_Z (delayDays (delayInfo doc)))))
  else if String.eqb path "hearingDate" then
    Some (of_opt_date (hearingDate doc))
  else if String.eqb path "createdAt" then
    match createdAtStamp doc with
    | Some t => Some (BDate t)
    | None => None
    end
  else if String.eqb path "assignedLawyer" then
    match assignedLawyer doc with
    | Some l => Some (BId (lawyer_id l))
    | None => Some BNull
    end
  else None.

(** The order of numbers in the store: [NaN] below every number. *)
Definition num_leb (a b : number) : bool :=
  match a, b with
  | NaN, _ => true
  | _, NaN => false
  | _, _ => JS.le a b
  end.

Definition bson_eqb (a b : bson) : bool :=
  match a, b with
  | BNull, BNull => true
  | BBool x, BBool y => Bool.eqb x y
  | BNum x, BNum y => num_leb x y && num_leb y x
  | BStr x, BStr y => String.eqb x y
  | BDate x, BDate y => x =? y
  | BId x, BId y => (x =? y)%nat
  | _, _ => false
  end.

(** [a <= b] and [a < b]: values of different types are never ordered by a
    comparison operator. *)
Definition bson_leb (a b : bson) : bool :=
  match a, b with
  | BNum x, BNum y => num_leb x y
  | BStr x, BStr y => String.leb x y
  | BDate x, BDate y => x <=? y
  | BBool x, BBool y => implb x y
  | BId x, BId y => (x <=? y)%nat
  | _, _ => false
  end.

Definition bson_ltb (a b : bson) : bool :=
  bson_leb a b && negb (bson_eqb a b).

(** A missing field is matched like [null] by equality and [$in]. *)
Definition value_or_null (v : option bson) : bson :=
  match v with
  | Some x => x
  | None => BNull
  end.

Definition holds (c : cond) (v : option bson) : bool :=
  match c with
  | Eq x => bson_eqb (value_or_null v) x
  | Exists b =>
      Bool.eqb b (match v with Some _ => true | None => false end)
  | Lt x => match v with Some y => bson_ltb y x | None => false end
  | Lte x => match v with Some y => bson_leb y x | None => false end
  | Gte x => match v with Some y => bson_leb x y | None => false end
  | In xs => existsb (bson_eqb (value_or_null v)) xs
  | Nin xs => negb (existsb (bson_eqb (value_or_null v)) xs)
  end.

Fixpoint matches (f : filter) (doc : Case) : bool :=
  match f with
  | Field path c => holds c (field doc path)
  | Or fs =>
      (fix any (l : list filter) : bool :=
         match l with
         | [] => false
         | g :: r => matches g doc || any r
         end) fs
  | All fs =>
      (fix every (l : list filter) : bool :=
         match l with
         | [] => true
         | g :: r => matches g doc && every r
         end) fs
  end.

(** Whether an operand has the type of its path.  The one operand of this
    program that has not is a string at a Date path that is no date. *)
Definition operand_typed (t : option ftype) (v : bson) : bool :=
  match t, v with
  | _, BNull => true
  | Some TString, BStr _ => true
  | Some TNumber, BNum _ => true
  | Some TDate, BDate _ => true
  | Some TBool, BBool _ => true
  | Some TObjectId, BId _ => true
  | None, _ => true
  | _, _ => false
  end.

Definition cond_typed (t : option ftype) (c : cond) : bool :=
  match c with
  | Eq v | Lt v | Lte v | Gte v => operand_typed t v
  | Exists _ => true
  | In vs | Nin vs => forallb (operand_typed t) vs
  end.

Fixpoint well_typed (f : filter) : bool :=
  match f with
  | Field path c => cond_typed (schema_type path) c
  | Or fs | All fs =>
      (fix every (l : list filter) : bool :=
         match l with
         | [] => true
         | g :: r => well_typed g && every r
         end) fs
  end.

(** What the layer between the program and the database does with an
    operand that has not the type of its path: the model layer of the
    program casts every operand to the schema type and rejects the query
    with a CastError when it cannot ([Casting]); a layer that forwards the
    operand leaves the comparison to the database, where values of
    different types are never ordered ([Forwarding]). *)
Inductive layer : Type := Casting | Forwarding.

(** The database: its documents in natural order, and whether it can be
    reached. *)
Record Db : Type := {
  docs : list Case;
  reachable : bool
}.

(** [Model.find(filter)]. *)
Definition find (ly : layer) (f : filter) (db : Db) : Result (list Case) :=
  match ly, well_typed f with
  | Casting, false => Err CastError
  | _, _ =>
      if reachable db then Ok (List.filter (matches f) (docs db))
      else Err StoreError
  end.

(** [Model.countDocuments(filter)]. *)
Definition countDocuments (ly : layer) (f : filter) (db : Db) : Result nat :=
  match find ly f db with
  | Ok l => Ok (List.length l)
  | Err e => Err e
  end.

(** [.limit(n)]; a limit of [0] is no limit. *)
Definition limit (n : nat) (l : list Case) : list Case :=
  match n with
  | O => l
  | S _ => firstn n l
  end.

(** [.sort(...)]: a stable insertion sort for an order [leb]. *)
Fixpoint insert_by (leb : Case -> Case -> bool) (x : Case) (l : list Case)
  : list Case :=
  match l with
  | [] => [x]
  | y :: r => if leb x y then x :: y :: r else y :: insert_by leb x r
  end.

Fixpoint sort_by (leb : Case -> Case -> bool) (l : list Case) : list Case :=
  match l with
  | [] => []
  | x :: r => insert_by leb x (sort_by leb r)
  end.

End Mongo.

(** ** Validation of a case document against the schema

    [save] validates the document before any [pre('save')] hook of the
    schema runs.  The validators of the paths modelled here; a validator of
    another path can only reject more documents. *)

Module Schema.

(** [required] on a String path: missing and empty strings fail. *)
Definition required_string (s : option string) : bool :=
  match s with
  | Some x => negb (String.eqb x EmptyString)
  | None => false
  end.

(** A Number path holds no [NaN] (its cast fails). *)
Definition number_ok (n : number) : bool :=
  match n with
  | NaN => false
  | _ => true
  end.

Definition min_ok (lo n : number) : bool := number_ok n && JS.le lo n.
Definition max_ok (hi n : number) : bool := number_ok n && JS.le n hi.

(** A Date path holds no invalid date. *)
Definition date_ok (d : Date) : bool :=
  match d with
  | DateAt _ => true
  | InvalidDate => false
  end.

Definition opt_date_ok (d : option Date) : bool :=
  match d with
  | Some x => date_ok x
  | None => true
  end.

Definition one_of (s : string) (l : list string) : bool :=
  existsb (String.eqb s) l.

Definition maxlength (n : nat) (s : string) : bool :=
  (String.length s <=? n)%nat.

(** [match: /^[A-Z0-9-\/]+$/]. *)
Definition caseNumber_char (c : ascii) : bool :=
  let n := nat_of_ascii c in
  ((65 <=? n) && (n <=? 90) || (48 <=? n) && (n <=? 57)
   || (n =? 45) || (n =? 47))%nat.

Definition caseNumber_format (s : string) : bool :=
  negb (String.eqb s EmptyString)
  && forallb caseNumber_char (list_ascii_of_string s).

Definition caseTypes : list string :=
  ["Criminal"; "Civil"; "Corporate"; "Family"; "Property"; "Labor"; "Tax";
   "Constitutional"; "Environmental"; "Intellectual Property";
   "Immigration"; "Banking"; "Insurance"; "Consumer Protection"; "Other"]%string.

Definition courtLevels : list string :=
  ["District"; "High Court"; "Supreme Court"; "Tribunal"; "Other"]%string.

Definition noteCategories : list string :=
  ["general"; "strategy"; "evidence"; "client_communication";
   "court_update"]%string.

(** An element of [notes]: [content] and [createdBy] are required. *)
Definition note_valid (n : Note) : bool :=
  required_string (Some (content n))
  && match createdBy n with Some _ => true | None => false end
  && one_of (category n) noteCategories
  && opt_date_ok (createdAt n).

Definition analysis_valid (a : AiAnalysis) : bool :=
  min_ok n0 (ai_complexityScore a) && max_ok n100 (ai_complexityScore a)
  && number_ok (ai_estimatedDuration a)
  && number_ok (ai_similarCasesCount a)
  && min_ok n0 (ai_successProbability a)
  && max_ok n100 (ai_successProbability a)
  && opt_date_ok (lastAnalyzed a).

Definition validate (doc : Case) : bool :=
  required_string (caseNumber doc)
  && match caseNumber doc with
     | Some s => caseNumber_format s
     | None => false
     end
  && required_string (Some (title doc)) && maxlength 200 (title doc)
  && required_string (Some (description doc))
  && maxlength 2000 (description doc)
  && one_of (caseType doc) caseTypes
  && match subCategory doc with
     | Some s => maxlength 100 s
     | None => true
     end
  && min_ok n0 (case_priorityScore doc)
  && max_ok n100 (case_priorityScore doc)
  && date_ok (filingDate doc)
  && opt_date_ok (hearingDate doc)
  && opt_date_ok (deadlineDate doc)
  && opt_date_ok (expectedCompletionDate doc)
  && one_of (courtLevel doc) courtLevels
  && min_ok n0 (estimatedValue doc)
  && analysis_valid (aiAnalysis doc)
  && number_ok (Num (inject_Z (delayDays (delayInfo doc))))
  && forallb (fun m => required_string (Some (milestone_title m)))
       (milestones doc)
  && forallb note_valid (notes doc).

End Schema.

(** ** The User model, as far as the scheduler touches it *)

Record User : Type := {
  user_id : ObjectId;
  role : string;
  isActive : bool;
  activeCases : number
}.

Definition set_activeCases (u : User) (n : number) : User :=
  {| user_id := user_id u; role := role u; isActive := isActive u;
     activeCases := n |}.

(** ** What lies outside the program *)

Record Env : Type := {
  (** [JSON.parse]; [None] when it throws. *)
  JSON_parse : string -> throws json;
  (** Number to String, as a template literal prints a number. *)
  NumberToString : number -> string;
  (** [Number.prototype.toLocaleString]. *)
  toLocaleString : number -> string;
  (** The chat completion for a prompt: the content of the first choice,
      a text or [null]; [None] when the call throws. *)
  completion : string -> throws (option string);
  (** [getFullYear] and [new Date(year, 0, 1)] in the local time zone. *)
  getFullYear : Z -> Z;
  startOfYear : Z -> Z;
  (** [completionDate = new Date()] at the given time, after
      [completionDate.setDate(completionDate.getDate() + days)]: the
      calendar of the local time zone and the arithmetic of the runtime. *)
  completionDate : Z -> number -> Date;
  (** The layer between the program and the database. *)
  store_layer : Mongo.layer;
  (** Whether [save] of a user document goes through (the validators of its
      other paths and the write). *)
  user_saves : User -> bool
}.

(** ** [save] and the [pre('save')] hook *)

Definition digits_of_nat (n : nat) : string :=
  DecimalString.NilZero.string_of_uint (Nat.to_uint n).

Fixpoint repeat_char (c : ascii) (n : nat) : string :=
  match n with
  | O => EmptyString
  | S k => String c (repeat_char c k)
  end.

(** [s.padStart(n, '0')]. *)
Definition padStart0 (n : nat) (s : string) : string :=
  (repeat_char "0"%char (n - String.length s) ++ s)%string.

Definition digits_of_Z (z : Z) : string :=
  if z <? 0 then ("-" ++ digits_of_nat (Z.to_nat (- z)))%string
  else digits_of_nat (Z.to_nat z).

(** The filter of the hook's [countDocuments]: cases created in [year]. *)
Definition created_in_year (env : Env) (year : Z) : Mongo.filter :=
  Mongo.All
    [Mongo.Field "createdAt" (Mongo.Gte (Mongo.BDate (startOfYear env year)));
     Mongo.Field "createdAt"
       (Mongo.Lt (Mongo.BDate (startOfYear env (year + 1))))].

(** The [pre('save')] hook: a case number is generated when there is none,
    then the delay information is recomputed. *)
Definition pre_save (env : Env) (now : Z) (db : Mongo.Db) (this : Case)
  : Result Case :=
  let numbered :=
    match caseNumber this with
    | Some s =>
        if String.eqb s EmptyString then None else Some this
    | None => None
    end in
  match numbered with
  | Some doc => Ok (updateDelayInfo now doc)
  | None =>
      let year := getFullYear env now in
      match Mongo.countDocuments (store_layer env)
              (created_in_year env year) db with
      | Err e => Err e
      | Ok count =>
          let number :=
            ("CASE/" ++ digits_of_Z year ++ "/"
             ++ padStart0 4 (digits_of_nat (count + 1)))%string in
          Ok (updateDelayInfo now (set_caseNumber this (Some number)))
      end
  end.

(** Replace the stored document with the same [_id]. *)
Fixpoint replace_doc (doc : Case) (l : list Case) : option (list Case) :=
  match l with
  | [] => None
  | d :: r =>
      if (case_id d =? case_id doc)%nat then Some (doc :: r)
      else match replace_doc doc r with
           | Some r' => Some (d :: r')
           | None => None
           end
  end.

(** [doc.save()]: validation, the hook, the time stamps, the write.  [isNew]
    tells a document made by [new Case(...)] from a loaded one. *)
Definition save (env : Env) (now : Z) (isNew : bool) (db : Mongo.Db)
  (doc : Case) : Result (Mongo.Db * Case) :=
  if negb (Schema.validate doc) then Err ValidationError
  else
    match pre_save env now db doc with
    | Err e => Err e
    | Ok hooked =>
        let created :=
          match createdAtStamp hooked with
          | Some t => Some t
          | None => Some now
          end in
        let stamped := set_stamps hooked created (Some now) in
        if negb (Mongo.reachable db) then Err StoreError
        else if isNew then
          Ok ({| Mongo.docs := Mongo.docs db ++ [stamped];
                 Mongo.reachable := true |}, stamped)
        else
          match replace_doc stamped (Mongo.docs db) with
          | Some l =>
              Ok ({| Mongo.docs := l; Mongo.reachable := true |}, stamped)
          | None => Err DocumentNotFoundError
          end
    end.

(** ** The scheduler service ([AISchedulerService]) *)

(** *** [prepareCaseDataForAI] *)

Record CaseData : Type := {
  cd_caseNumber : option string;
  cd_title : string;
  cd_description : string;
  cd_caseType : string;
  cd_subCategory : option string;
  cd_status : Status;
  cd_caseAge : number;
  cd_estimatedValue : number;
  cd_courtLevel : string;
  cd_daysUntilHearing : option number;
  cd_hasDeadline : bool;
  cd_lawyerExperience : number;
  cd_lawyerSpecialization : list string;
  cd_currentDelayDays : Z;
  cd_isDelayed : bool;
  cd_documentCount : nat;
  cd_milestonesCount : nat;
  cd_completedMilestones : nat
}.

Definition is_completed (m : Milestone) : bool :=
  match milestone_status m with
  | ms_completed => true
  | _ => false
  end.

Definition prepareCaseDataForAI (now : Z) (caseDoc : Case) : CaseData :=
  let caseAge := days_between (DateAt now) (filingDate caseDoc) in
  let daysUntilHearing :=
    match hearingDate caseDoc with
    | Some h => Some (days_between h (DateAt now))
    | None => None
    end in
  {| cd_caseNumber := caseNumber caseDoc;
     cd_title := title caseDoc;
     cd_description := description caseDoc;
     cd_caseType := caseType caseDoc;
     cd_subCategory := subCategory caseDoc;
     cd_status := status caseDoc;
     cd_caseAge := caseAge;
     cd_estimatedValue := estimatedValue caseDoc;
     cd_courtLevel := courtLevel caseDoc;
     cd_daysUntilHearing := daysUntilHearing;
     cd_hasDeadline :=
       match deadlineDate caseDoc with Some _ => true | None => false end;
     cd_lawyerExperience :=
       match assignedLawyer caseDoc with
       | Some l =>
           match experience l with
           | Some e => if JS.number_truthy e then e else n0
           | None => n0
           end
       | None => n0
       end;
     cd_lawyerSpecialization :=
       match assignedLawyer caseDoc with
       | Some l => specialization l
       | None => []
       end;
     cd_currentDelayDays := delayDays (delayInfo caseDoc);
     cd_isDelayed := isDelayed (delayInfo caseDoc);
     cd_documentCount := documents caseDoc;
     cd_milestonesCount := List.length (milestones caseDoc);
     cd_completedMilestones :=
       List.length (List.filter is_completed (milestones caseDoc)) |}.

(** *** [buildAnalysisPrompt] *)

Definition nl : string := String (ascii_of_nat 10) EmptyString.
Definition dq : string := String (ascii_of_nat 34) EmptyString.
Definition quoted (s : string) : string := (dq ++ s ++ dq)%string.

(** The lines of a text, joined by line feeds. *)
Fixpoint lines (l : list string) : string :=
  match l with
  | [] => EmptyString
  | [x] => x
  | x :: r => (x ++ nl ++ lines r)%string
  end.

(** [list.join(sep)]. *)
Fixpoint join (sep : string) (l : list string) : string :=
  match l with
  | [] => EmptyString
  | [x] => x
  | x :: r => (x ++ sep ++ join sep r)%string
  end.

Definition print_opt_string (s : option string) : string :=
  match s with
  | Some x => x
  | None => "undefined"
  end.

Definition print_bool (b : bool) : string :=
  if b then "true" else "false".

Definition buildAnalysisPrompt (env : Env) (caseData : CaseData) : string :=
  lines [
    "Analyze this legal case and provide a comprehensive assessment:";
    "";
    "CASE DETAILS:";
    "- Case Number: " ++ print_opt_string (cd_caseNumber caseData);
    "- Title: " ++ cd_title caseData;
    "- Type: " ++ cd_caseType caseData ++ " "
      ++ match cd_subCategory caseData with
         | Some s =>
             if String.eqb s EmptyString then "" else "(" ++ s ++ ")"
         | None => ""
         end;
    "- Description: " ++ cd_description caseData;
    "- Status: " ++ status_name (cd_status caseData);
    "- Case Age: " ++ NumberToString env (cd_caseAge caseData) ++ " days";
    "- Court Level: " ++ cd_courtLevel caseData;
    "- Estimated Value: ₹" ++ toLocaleString env (cd_estimatedValue caseData);
    "- Days Until Hearing: "
      ++ match cd_daysUntilHearing caseData with
         | Some d =>
             if JS.number_truthy d then NumberToString env d
             else "Not scheduled"
         | None => "Not scheduled"
         end;
    "- Current Delay: "
      ++ NumberToString env (Num (inject_Z (cd_currentDelayDays caseData)))
      ++ " days";
    "- Is Delayed: " ++ print_bool (cd_isDelayed caseData);
    "- Documents: " ++ digits_of_nat (cd_documentCount caseData);
    "- Milestones: " ++ digits_of_nat (cd_completedMilestones caseData)
      ++ "/" ++ digits_of_nat (cd_milestonesCount caseData) ++ " completed";
    "- Lawyer Experience: "
      ++ NumberToString env (cd_lawyerExperience caseData) ++ " years";
    "- Lawyer Specialization: "
      ++ (let joined := join ", " (cd_lawyerSpecialization caseData) in
          if String.eqb joined EmptyString then "General" else joined);
    "";
    "ANALYSIS REQUIRED:";
    "1. Priority Score (0-100): Consider urgency, complexity, delays, deadlines";
    "2. Complexity Score (0-100): Based on case type, value, court level";
    "3. Urgency Factors: List specific factors making this case urgent";
    "4. Delay Risk Factors: Identify potential causes of delays";
    "5. Estimated Duration: Days to complete the case";
    "6. Success Probability (0-100): Based on case type and lawyer match";
    "7. Similar Cases Count: Estimate based on case type and characteristics";
    "";
    "PRIORITY SCORING CRITERIA:";
    "- High Priority (80-100): Critical deadlines, high-value cases, significant delays";
    "- Medium-High Priority (60-79): Important cases with moderate urgency";
    "- Medium Priority (40-59): Standard cases with normal timeline";
    "- Low-Medium Priority (20-39): Routine cases, no immediate deadlines";
    "- Low Priority (0-19): Non-urgent, preliminary matters";
    "";
    "Respond ONLY with valid JSON in this exact format:";
    "{";
    "  " ++ quoted "priorityScore" ++ ": number,";
    "  " ++ quoted "complexityScore" ++ ": number,";
    "  " ++ quoted "urgencyFactors" ++ ": [" ++ quoted "factor1" ++ ", "
      ++ quoted "factor2" ++ "],";
    "  " ++ quoted "delayRiskFactors" ++ ": [" ++ quoted "risk1" ++ ", "
      ++ quoted "risk2" ++ "],";
    "  " ++ quoted "estimatedDuration" ++ ": number,";
    "  " ++ quoted "successProbability" ++ ": number,";
    "  " ++ quoted "similarCasesCount" ++ ": number,";
    "  " ++ quoted "reasoning" ++ ": " ++ quoted "Brief explanation of priority score";
    "}"
  ]%string.

(** *** [getAIAnalysis] *)

Definition getAIAnalysis (env : Env) (caseData : CaseData)
  : throws (option string) :=
  completion env (buildAnalysisPrompt env caseData).

(** *** [updateCaseWithAIAnalysis] *)

(** String of a value inside a template literal, for the values whose
    conversion does not throw ([Coerce.throwing]); an object prints as
    [[object Object]]. *)
Fixpoint ToString (env : Env) (v : json) : string :=
  match v with
  | JNull => "null"
  | JBool b => print_bool b
  | JNum n => NumberToString env n
  | JStr s => s
  | JArr l =>
      (fix elements (l : list json) : string :=
         match l with
         | [] => EmptyString
         | x :: r =>
             let here :=
               match x with
               | JNull => EmptyString
               | _ => ToString env x
               end in
             match r with
             | [] => here
             | _ :: _ => (here ++ "," ++ elements r)%string
             end
         end) l
  | JObj _ => "[object Object]"
  end.

(** The note pushed to [notes]; [createdAt] takes the schema's default. *)
Definition analysis_note (env : Env) (now : Z) (analysis : AnalysisResult)
  : Note :=
  {| content :=
       ("AI Analysis: Priority Score "
        ++ NumberToString env (priorityScore analysis) ++ "/100. "
        ++ ToString env (reasoning analysis))%string;
     createdBy := None;
     category := "general";
     isPrivate := false;
     createdAt := Some (DateAt now) |}.

(** The assignments to [caseDoc], before [caseDoc.save()], as the values
    assigned; what Mongoose makes of them shows at [save]. *)
Definition applyAnalysis (env : Env) (now : Z) (caseDoc : Case)
  (analysis : AnalysisResult) : Case :=
  let c1 :=
    set_priority caseDoc (priorityScore analysis)
      (priority_of_score (priorityScore analysis)) in
  let c2 :=
    set_aiAnalysis c1
      {| ai_complexityScore := complexityScore analysis;
         ai_urgencyFactors := urgencyFactors analysis;
         ai_delayRiskFactors := delayRiskFactors analysis;
         ai_estimatedDuration := estimatedDuration analysis;
         ai_similarCasesCount := similarCasesCount analysis;
         ai_successProbability := successProbability analysis;
         lastAnalyzed := Some (DateAt now) |} in
  let c3 :=
    match expectedCompletionDate c2, Status_eqb (status c2) assigned with
    | Some _, false => c2
    | _, _ =>
        set_expectedCompletionDate c2
          (Some (completionDate env now (estimatedDuration analysis)))
    end in
  set_notes c3 (notes c3 ++ [analysis_note env now analysis]).

Definition updateCaseWithAIAnalysis (env : Env) (now : Z) (db : Mongo.Db)
  (caseDoc : Case) (analysis : AnalysisResult) : Result (Mongo.Db * Case) :=
  save env now false db (applyAnalysis env now caseDoc analysis).

(** *** The world the scheduler runs in *)

Inductive failure : Type :=
| ScoringCallFailed
| PersistenceFailed (e : error).

Inductive Event : Type :=
| LogSkipping
| LogRunning
| LogNoCases
| LogAnalyzingCount (n : nat)
| CallProcessCaseBatch (batch : list Case)
| LogAnalyzing (caseNumber : option string)
| LogAnalyzed (caseNumber : option string) (score : number)
| LogCaseError (caseNumber : option string) (f : failure)
| Wait (ms : Z)
| LogCompleted
| LogRunError (e : error)
| LogManualError (e : error).

Record Scheduler : Type := {
  isProcessing : bool;
  lastRunTime : option Z
}.

(** The database, the clock and what has happened so far (latest event
    last).  Only [delay] moves the clock. *)
Record World : Type := {
  db : Mongo.Db;
  clock : Z;
  trace : list Event
}.

Definition emit (e : Event) (w : World) : World :=
  {| db := db w; clock := clock w; trace := trace w ++ [e] |}.

Definition with_db (d : Mongo.Db) (w : World) : World :=
  {| db := d; clock := clock w; trace := trace w |}.

(** [await this.delay(ms)]. *)
Definition delay (ms : Z) (w : World) : World :=
  {| db := db w; clock := clock w + ms; trace := trace w ++ [Wait ms] |}.

(** *** [analyzeSingleCase] *)

(** [this.parseAIResponse(aiResponse)] for the content of a completion: on
    a [null] content [replace] throws inside the [try] block, which gives
    the default result. *)
Definition parseContent (env : Env) (aiResponse : option string)
  : AnalysisResult :=
  match aiResponse with
  | Some text => parseAIResponse (JSON_parse env) text
  | None => default_analysis
  end.

Definition analyzeSingleCase (env : Env) (caseDoc : Case) (w : World) : World :=
  let w1 := emit (LogAnalyzing (caseNumber caseDoc)) w in
  let caseData := prepareCaseDataForAI (clock w1) caseDoc in
  match getAIAnalysis env caseData with
  | None => emit (LogCaseError (caseNumber caseDoc) ScoringCallFailed) w1
  | Some aiResponse =>
      let analysis := parseContent env aiResponse in
      match updateCaseWithAIAnalysis env (clock w1) (db w1) caseDoc analysis with
      | Err e =>
          emit (LogCaseError (caseNumber caseDoc) (PersistenceFailed e)) w1
      | Ok (db', _) =>
          emit (LogAnalyzed (caseNumber caseDoc) (priorityScore analysis))
            (with_db db' w1)
      end
  end.

(** *** [processCaseBatch]

    The calls of a batch are started together and all awaited; they are
    taken here one after the other, in the order of the batch. *)
Definition processCaseBatch (env : Env) (cases : list Case) (w : World) : World :=
  fold_left (fun w' caseDoc => analyzeSingleCase env caseDoc w') cases
    (emit (CallProcessCaseBatch cases) w).

(** *** [getCasesForAnalysis] *)

Definition terminal_statuses : list Mongo.bson :=
  [Mongo.BStr "completed"; Mongo.BStr "dismissed"; Mongo.BStr "settled"].

Definition analysis_filter (oneDayAgo : Z) : Mongo.filter :=
  Mongo.All [
    Mongo.Or [
      Mongo.Field "aiAnalysis.lastAnalyzed" (Mongo.Exists false);
      Mongo.Field "aiAnalysis.lastAnalyzed" (Mongo.Lt (Mongo.BDate oneDayAgo));
      Mongo.All [
        Mongo.Field "status"
          (Mongo.In [Mongo.BStr "assigned"; Mongo.BStr "in_progress";
                     Mongo.BStr "awaiting_hearing"]);
        Mongo.Field "aiAnalysis.lastAnalyzed"
          (Mongo.Lt (Mongo.BStr "$updatedAt"))
      ]
    ];
    Mongo.Field "status" (Mongo.Nin terminal_statuses)
  ].

Definition getCasesForAnalysis (ly : Mongo.layer) (now : Z) (d : Mongo.Db)
  : Result (list Case) :=
  let oneDayAgo := now - 24 * 60 * 60 * 1000 in
  match Mongo.find ly (analysis_filter oneDayAgo) d with
  | Ok l => Ok (Mongo.limit 20 l)
  | Err e => Err e
  end.

(** *** [runSchedulerAnalysis] *)

Definition batchSize : nat := 5.

(** [list.slice(i, j)]. *)
Definition slice (l : list Case) (i j : nat) : list Case :=
  firstn (j - i) (skipn i l).

(** The [for] loop over the batches, from index [i]. *)
Equations? batch_loop (env : Env) (casesToAnalyze : list Case) (i : nat)
  (w : World) : World by wf (List.length casesToAnalyze - i)%nat lt :=
  batch_loop env casesToAnalyze i w
    with lt_dec i (List.length casesToAnalyze) => {
    | left _ =>
        let batch := slice casesToAnalyze i (i + batchSize) in
        let w1 := processCaseBatch env batch w in
        let w2 :=
          if (i + batchSize <? List.length casesToAnalyze)%nat
          then delay 2000 w1 else w1 in
        batch_loop env casesToAnalyze (i + batchSize) w2;
    | right _ => w }.
Proof. unfold batchSize. lia. Qed.

(** The [finally] block. *)
Definition release (s : Scheduler) : Scheduler :=
  {| isProcessing := false; lastRunTime := lastRunTime s |}.

Definition runSchedulerAnalysis (env : Env) (s : Scheduler) (w : World)
  : Scheduler * World :=
  if isProcessing s then (s, emit LogSkipping w)
  else
    let s1 := {| isProcessing := true; lastRunTime := lastRunTime s |} in
    let w1 := emit LogRunning w in
    match getCasesForAnalysis (store_layer env) (clock w1) (db w1) with
    | Err e => (release s1, emit (LogRunError e) w1)
    | Ok casesToAnalyze =>
        if (List.length casesToAnalyze =? 0)%nat then
          (release s1, emit LogNoCases w1)
        else
          let w2 := emit (LogAnalyzingCount (List.length casesToAnalyze)) w1 in
          let w3 := batch_loop env casesToAnalyze 0 w2 in
          let s2 :=
            {| isProcessing := isProcessing s1;
               lastRunTime := Some (clock w3) |} in
          (release s2, emit LogCompleted w3)
    end.

(** *** The hourly run as a machine

    [runSchedulerAnalysis] is an [async] function: a call runs until its
    next [await] and is resumed later, and a timer may call it again in
    between.  A configuration holds the scheduler object and the calls that
    are suspended, each at its [await]. *)

Inductive Suspended : Type :=
| AtSelection
| AtBatch (casesToAnalyze : list Case) (i : nat)
| AtDelay (casesToAnalyze : list Case) (i : nat).

Record Config : Type := {
  scheduler : Scheduler;
  calls : list Suspended
}.

(** What can happen next: the timer fires, or the [await] of the [k]-th
    suspended call settles (for the selection, with its result; the loop
    ends at time [now]). *)
Inductive Input : Type :=
| Trigger
| Settle (k : nat) (selection : Result (list Case)) (now : Z).

Fixpoint remove_nth (k : nat) (l : list Suspended) : list Suspended :=
  match k, l with
  | _, [] => []
  | O, _ :: r => r
  | S k', x :: r => x :: remove_nth k' r
  end.

Fixpoint replace_nth (k : nat) (x : Suspended) (l : list Suspended)
  : list Suspended :=
  match k, l with
  | _, [] => []
  | O, _ :: r => x :: r
  | S k', y :: r => y :: replace_nth k' x r
  end.

(** The loop from its test [i < casesToAnalyze.length] on: the next batch is
    awaited, or the loop is left, the time noted and the flag released. *)
Definition enter_loop (c : Config) (k : nat) (casesToAnalyze : list Case)
  (i : nat) (now : Z) : Config :=
  if (i <? List.length casesToAnalyze)%nat then
    {| scheduler := scheduler c;
       calls := replace_nth k (AtBatch casesToAnalyze i) (calls c) |}
  else
    {| scheduler := {| isProcessing := false; lastRunTime := Some now |};
       calls := remove_nth k (calls c) |}.

Definition step (c : Config) (inp : Input) : Config :=
  match inp with
  | Trigger =>
      if isProcessing (scheduler c) then c
      else
        {| scheduler :=
             {| isProcessing := true;
                lastRunTime := lastRunTime (scheduler c) |};
           calls := calls c ++ [AtSelection] |}
  | Settle k selection now =>
      match nth_error (calls c) k with
      | None => c
      | Some AtSelection =>
          match selection with
          | Err _ =>
              {| scheduler := release (scheduler c);
                 calls := remove_nth k (calls c) |}
          | Ok casesToAnalyze =>
              if (List.length casesToAnalyze =? 0)%nat then
                {| scheduler := release (scheduler c);
                   calls := remove_nth k (calls c) |}
              else enter_loop c k casesToAnalyze 0 now
          end
      | Some (AtBatch casesToAnalyze i) =>
          if (i + batchSize <? List.length casesToAnalyze)%nat then
            {| scheduler := scheduler c;
               calls := replace_nth k (AtDelay casesToAnalyze i) (calls c) |}
          else enter_loop c k casesToAnalyze (i + batchSize) now
      | Some (AtDelay casesToAnalyze i) =>
          enter_loop c k casesToAnalyze (i + batchSize) now
      end
  end.

Definition idle : Config :=
  {| scheduler := {| isProcessing := false; lastRunTime := None |};
     calls := [] |}.

Definition run_inputs (c : Config) (inputs : list Input) : Config :=
  fold_left step inputs c.

(** *** The queries of the service and of the model *)

Definition not_terminal : Mongo.filter :=
  Mongo.Field "status" (Mongo.Nin terminal_statuses).

(** Order of [sort({ priorityScore: -1 })]. *)
Definition by_score_desc (a b : Case) : bool :=
  Mongo.num_leb (case_priorityScore b) (case_priorityScore a).

Definition urgent_filter (now : Z) : Mongo.filter :=
  Mongo.All [
    Mongo.Or [
      Mongo.Field "priorityScore" (Mongo.Gte (Mongo.BNum (Num 80%Q)));
      Mongo.All [
        Mongo.Field "delayInfo.isDelayed" (Mongo.Eq (Mongo.BBool true));
        Mongo.Field "delayInfo.delayDays" (Mongo.Gte (Mongo.BNum (Num 30%Q)))
      ];
      Mongo.Field "hearingDate"
        (Mongo.Lte (Mongo.BDate (now + 7 * 24 * 60 * 60 * 1000)))
    ];
    not_terminal
  ].

(** [getUrgentCases(limit = 10)]. *)
Definition getUrgentCases (ly : Mongo.layer) (now : Z) (limit : nat)
  (d : Mongo.Db) : Result (list Case) :=
  match Mongo.find ly (urgent_filter now) d with
  | Ok l => Ok (Mongo.limit limit (Mongo.sort_by by_score_desc l))
  | Err e => Err e
  end.

(** Order of [sort({ priorityScore: -1, hearingDate: 1 })]: higher score
    first, then earlier hearing first, a case without hearing date before
    those with one. *)
Definition hearing_leb (a b : option Date) : bool :=
  match Mongo.of_opt_date a, Mongo.of_opt_date b with
  | Mongo.BDate x, Mongo.BDate y => x <=? y
  | Mongo.BDate _, _ => false
  | _, _ => true
  end.

Definition by_score_then_hearing (a b : Case) : bool :=
  if negb (by_score_desc a b) then false
  else if negb (by_score_desc b a) then true
  else hearing_leb (hearingDate a) (hearingDate b).

Definition lawyer_filter (lawyerId : ObjectId) : Mongo.filter :=
  Mongo.All [
    Mongo.Field "assignedLawyer" (Mongo.Eq (Mongo.BId lawyerId));
    not_terminal
  ].

(** [getPrioritizedCasesForLawyer(lawyerId, limit = 20)]. *)
Definition getPrioritizedCasesForLawyer (ly : Mongo.layer)
  (lawyerId : ObjectId) (limit : nat) (d : Mongo.Db) : Result (list Case) :=
  match Mongo.find ly (lawyer_filter lawyerId) d with
  | Ok l => Ok (Mongo.limit limit (Mongo.sort_by by_score_then_hearing l))
  | Err e => Err e
  end.

(** The static [getCasesByPriority(minScore = 0)] of the model. *)
Definition getCasesByPriority (ly : Mongo.layer) (minScore : number)
  (d : Mongo.Db) : Result (list Case) :=
  match Mongo.find ly
          (Mongo.All [Mongo.Field "priorityScore"
                        (Mongo.Gte (Mongo.BNum minScore));
                      not_terminal]) d with
  | Ok l => Ok (Mongo.sort_by by_score_desc l)
  | Err e => Err e
  end.

Definition by_delay_desc (a b : Case) : bool :=
  delayDays (delayInfo b) <=? delayDays (delayInfo a).

(** The static [getDelayedCases] of the model. *)
Definition getDelayedCases (ly : Mongo.layer) (d : Mongo.Db)
  : Result (list Case) :=
  match Mongo.find ly
          (Mongo.All [Mongo.Field "delayInfo.isDelayed"
                        (Mongo.Eq (Mongo.BBool true));
                      not_terminal]) d with
  | Ok l => Ok (Mongo.sort_by by_delay_desc l)
  | Err e => Err e
  end.

(** *** [rebalanceLawyerWorkloads] *)

Fixpoint replace_user (u : User) (l : list User) : list User :=
  match l with
  | [] => []
  | v :: r =>
      if (user_id v =? user_id u)%nat then u :: r
      else v :: replace_user u r
  end.

(** The [for] loop over the lawyers: the first count or save that fails
    ends it, with the users saved so far. *)
Fixpoint rebalance_loop (env : Env) (d : Mongo.Db) (lawyers : list User)
  (users : list User) : list User * option error :=
  match lawyers with
  | [] => (users, None)
  | lawyer :: rest =>
      match Mongo.countDocuments (store_layer env)
              (lawyer_filter (user_id lawyer)) d with
      | Err e => (users, Some e)
      | Ok n =>
          let lawyer' :=
            set_activeCases lawyer (Num (inject_Z (Z.of_nat n))) in
          if user_saves env lawyer' then
            rebalance_loop env d rest (replace_user lawyer' users)
          else (users, Some ValidationError)
      end
  end.

Definition is_active_lawyer (u : User) : bool :=
  String.eqb (role u) "lawyer" && isActive u.

Definition rebalanceLawyerWorkloads (env : Env) (d : Mongo.Db)
  (users : list User) : list User * option error :=
  if negb (Mongo.reachable d) then (users, Some StoreError)
  else rebalance_loop env d (List.filter is_active_lawyer users) users.

(** *** [analyzeCaseManually] *)

Definition findById (caseId : ObjectId) (d : Mongo.Db) : Result (option Case) :=
  if Mongo.reachable d then
    Ok (List.find (fun c => (case_id c =? caseId)%nat) (Mongo.docs d))
  else Err StoreError.

(** Whatever is thrown inside the [try] block is logged by the [catch]
    block and thrown again. *)
Definition analyzeCaseManually (env : Env) (caseId : ObjectId) (w : World)
  : Result (option Case) * World :=
  match findById caseId (db w) with
  | Err e => (Err e, emit (LogManualError e) w)
  | Ok None => (Err CaseNotFound, emit (LogManualError CaseNotFound) w)
  | Ok (Some caseDoc) =>
      let w' := analyzeSingleCase env caseDoc w in
      match findById caseId (db w') with
      | Err e => (Err e, emit (LogManualError e) w')
      | Ok found => (Ok found, w')
      end
  end.

(** *** The [addNote] method of the model *)

Definition addNote (env : Env) (now : Z) (d : Mongo.Db) (this : Case)
  (text : string) (author : option ObjectId) (private : bool)
  (cat : string) : Result (Mongo.Db * Case) :=
  save env now false d
    (set_notes this
       (notes this ++
        [{| content := text; createdBy := author; category := cat;
            isPrivate := private; createdAt := Some (DateAt now) |}])).

(** *** What a trace shows *)

(** The batches handed to [processCaseBatch], in order. *)
Fixpoint dispatched (t : list Event) : list (list Case) :=
  match t with
  | [] => []
  | CallProcessCaseBatch b :: r => b :: dispatched r
  | _ :: r => dispatched r
  end.

(** The delays waited, in order. *)
Fixpoint waits (t : list Event) : list Z :=
  match t with
  | [] => []
  | Wait ms :: r => ms :: waits r
  | _ :: r => waits r
  end.

(** The case numbers of the cases whose analysis was started, in order. *)
Fixpoint attempted (t : list Event) : list (option string) :=
  match t with
  | [] => []
  | LogAnalyzing n :: r => n :: attempted r
  | _ :: r => attempted r
  end.

(** The case numbers of the cases whose analysis ended, well or not. *)
Fixpoint settled_cases (t : list Event) : list (option string) :=
  match t with
  | [] => []
  | LogAnalyzed n _ :: r => n :: settled_cases r
  | LogCaseError n _ :: r => n :: settled_cases r
  | _ :: r => settled_cases r
  end.

Definition is_wait (e : Event) : bool :=
  match e with
  | Wait _ => true
  | _ => false
  end.

(** A case is among the results of a query. *)
Definition selected (c : Case) (r : Result (list Case)) : Prop :=
  exists l, r = Ok l /\ In c l.

Definition is_terminal (s : Status) : bool :=
  match s with
  | completed | dismissed | settled => true
  | _ => false
  end.

(** The third way to be urgent as the specification words it: a hearing
    date within 7 days of now. *)
Definition hearing_within_7_days_of (now : Z) (c : Case) : Prop :=
  exists h, hearingDate c = Some (DateAt h)
            /\ now - 7 * msPerDay <= h <= now + 7 * msPerDay.

(** *** Ranges of the fields of an analysis result *)

Definition in_0_100 (n : number) : Prop :=
  JS.le n0 n = true /\ JS.le n n100 = true.

Definition at_least (lo n : number) : Prop := JS.le lo n = true.

(** The bounds the specification gives for an analysis result. *)
Definition within_bounds (r : AnalysisResult) : Prop :=
  in_0_100 (priorityScore r)
  /\ in_0_100 (complexityScore r)
  /\ in_0_100 (successProbability r)
  /\ at_least n1 (estimatedDuration r)
  /\ at_least n0 (similarCasesCount r).

(** Two numbers with the same value. *)
Definition same_number (a b : number) : Prop :=
  JS.le a b = true /\ JS.le b a = true.

(** The result of the [try] block when no conversion throws. *)
Definition normalized (analysis : json) : AnalysisResult :=
  let value k d :=
    Coerce.numeric (Coerce.or_else (Props.read analysis k) (JNum d)) in
  {| priorityScore :=
       JS.Math_max n0 (JS.Math_min n100 (value "priorityScore"%string n50));
     complexityScore :=
       JS.Math_max n0 (JS.Math_min n100 (value "complexityScore"%string n50));
     urgencyFactors :=
       array_or_empty (Props.read analysis "urgencyFactors");
     delayRiskFactors :=
       array_or_empty (Props.read analysis "delayRiskFactors");
     estimatedDuration :=
       JS.Math_max n1 (value "estimatedDuration"%string n30);
     successProbability :=
       JS.Math_max n0
         (JS.Math_min n100 (value "successProbability"%string n50));
     similarCasesCount :=
       JS.Math_max n0 (value "similarCasesCount"%string n0);
     reasoning :=
       Coerce.or_else (Props.read analysis "reasoning")
         (JStr "AI analysis completed") |}.

(** A property value that is missing, [null], a boolean or a number. *)
Definition plain (v : jsval) : bool :=
  match v with
  | None => true
  | Some JNull => true
  | Some (JBool _) => true
  | Some (JNum NaN) => false
  | Some (JNum _) => true
  | Some _ => false
  end.

Definition numeric_fields : list string :=
  ["priorityScore"; "complexityScore"; "estimatedDuration";
   "successProbability"; "similarCasesCount"]%string.

(** *** Sample values, to run the definitions on *)

Definition sample_print (n : number) : string :=
  match n with
  | NaN => "NaN"
  | Num q => digits_of_Z (Qfloor q)
  | PosInf => "Infinity"
  | NegInf => "-Infinity"
  end.

Definition sample_env (ly : Mongo.layer) : Env :=
  {| JSON_parse := fun _ => None;
     NumberToString := sample_print;
     toLocaleString := sample_print;
     completion := fun _ => Some (Some EmptyString);
     getFullYear := fun t => 1970 + t / (365 * msPerDay);
     startOfYear := fun y => (y - 1970) * 365 * msPerDay;
     completionDate :=
       fun now days =>
         match days with
         | Num q => DateAt (now + Qfloor q * msPerDay)
         | _ => InvalidDate
         end;
     store_layer := ly;
     user_saves := fun _ => true |}.

Definition sample_analysis : AiAnalysis :=
  {| ai_complexityScore := n50;
     ai_urgencyFactors := [];
     ai_delayRiskFactors := [];
     ai_estimatedDuration := n30;
     ai_similarCasesCount := n0;
     ai_successProbability := n50;
     lastAnalyzed := None |}.

(** A case filed at time 0, assigned and never analysed. *)
Definition sample_case (id : ObjectId) : Case :=
  {| case_id := id;
     caseNumber := Some "CASE/2024/0001"%string;
     title := "Boundary dispute";
     description := "Dispute over a shared wall";
     caseType := "Property";
     subCategory := None;
     status := assigned;
     priority := medium;
     case_priorityScore := n50;
     filingDate := DateAt 0;
     hearingDate := None;
     deadlineDate := None;
     expectedCompletionDate := None;
     courtLevel := "District";
     estimatedValue := Num 2500000%Q;
     assignedLawyer := None;
     documents := 0;
     aiAnalysis := sample_analysis;
     delayInfo :=
       {| isDelayed := false; delayDays := 0; delayReasons := [];
          delayImpact := impact_low |};
     milestones := [];
     notes := [];
     createdAtStamp := Some 0;
     updatedAt := Some 0 |}.

Definition sample_db (l : list Case) : Mongo.Db :=
  {| Mongo.docs := l; Mongo.reachable := true |}.

Definition sample_world (l : list Case) (now : Z) : World :=
  {| db := sample_db l; clock := now; trace := [] |}.

(** *** The delay information, as the specification words it *)

(** The expected completion date has passed. *)
Definition completion_passed (now : Z) (c : Case) : Prop :=
  exists t, expectedCompletionDate c = Some (DateAt t) /\ t < now.

(** A hearing date has passed while the case still awaits its hearing. *)
Definition hearing_passed_waiting (now : Z) (c : Case) : Prop :=
  exists t, hearingDate c = Some (DateAt t) /\ t < now
            /\ status c = awaiting_hearing.

(** Whole days since the expected completion date, when it has passed. *)
Definition completion_days (now : Z) (c : Case) : Z :=
  match expectedCompletionDate c with
  | Some (DateAt t) => if t <? now then (now - t) / msPerDay else 0
  | _ => 0
  end.

(** Whole days since the hearing date, when it has passed and the case
    still awaits its hearing. *)
Definition hearing_days (now : Z) (c : Case) : Z :=
  match hearingDate c, status c with
  | Some (DateAt t), awaiting_hearing =>
      if t <? now then (now - t) / msPerDay else 0
  | _, _ => 0
  end.

(** The case of the scenario of C5: in progress, analysed one hour before
    [now] and modified half an hour before [now]. *)
Definition updated_since_analysis (now : Z) : Case :=
  set_stamps
    (set_aiAnalysis (set_status (sample_case 7%nat) in_progress)
       {| ai_complexityScore := n50;
          ai_urgencyFactors := [];
          ai_delayRiskFactors := [];
          ai_estimatedDuration := n30;
          ai_similarCasesCount := n0;
          ai_successProbability := n50;
          lastAnalyzed := Some (DateAt (now - 60 * 60 * 1000)) |})
    (Some 0) (Some (now - 30 * 60 * 1000)).

(** A case in court, of low priority and not delayed, whose hearing was a
    hundred days before [now]. *)
Definition heard_long_ago (now : Z) : Case :=
  {| case_id := 9%nat;
     caseNumber := Some "CASE/2024/0009"%string;
     title := "Old hearing";
     description := "Hearing held, judgment pending";
     caseType := "Civil";
     subCategory := None;
     status := in_court;
     priority := low;
     case_priorityScore := Num 10%Q;
     filingDate := DateAt 0;
     hearingDate := Some (DateAt (now - 100 * msPerDay));
     deadlineDate := None;
     expectedCompletionDate := None;
     courtLevel := "District";
     estimatedValue := n0;
     assignedLawyer := None;
     documents := 0;
     aiAnalysis := sample_analysis;
     delayInfo :=
       {| isDelayed := false; delayDays := 0; delayReasons := [];
          delayImpact := impact_low |};
     milestones := [];
     notes := [];
     createdAtStamp := Some 0;
     updatedAt := Some 0 |}.

(** The first two ways to be urgent. *)
Definition high_score (c : Case) : Prop :=
  Mongo.num_leb (Num 80%Q) (case_priorityScore c) = true.

Definition long_delayed (c : Case) : Prop :=
  isDelayed (delayInfo c) = true /\ 30 <= delayDays (delayInfo c).

(** The third way, as the query has it: a hearing date no later than 7 days
    after now. *)
Definition hearing_by (now : Z) (c : Case) : Prop :=
  exists h, hearingDate c = Some (DateAt h) /\ h <= now + 7 * msPerDay.

(** Batches and waits of a trace, in order. *)
Inductive Mark : Type := MBatch | MWait.

Fixpoint marks (t : list Event) : list Mark :=
  match t with
  | [] => []
  | CallProcessCaseBatch _ :: r => MBatch :: marks r
  | Wait _ :: r => MWait :: marks r
  | _ :: r => marks r
  end.

(** [k] batches with a wait between two of them and none at the end. *)
Fixpoint alternating (k : nat) : list Mark :=
  match k with
  | O => []
  | S k' =>
      match k' with
      | O => [MBatch]
      | S _ => MBatch :: MWait :: alternating k'
      end
  end.

(** What the events of one or more analyses look like. *)
Record analysis_events (numbers : list (option string)) (evs : list Event)
  : Prop := {
  ae_dispatched : dispatched evs = [];
  ae_waits : waits evs = [];
  ae_marks : marks evs = [];
  ae_attempted : attempted evs = numbers;
  ae_settled : settled_cases evs = numbers
}.

(** What holds of every configuration the machine reaches: the flag is set
    exactly when one call is suspended, and there is never a second one. *)
Definition one_run_at_most (c : Config) : Prop :=
  (isProcessing (scheduler c) = true /\ exists x, calls c = [x])
  \/ (isProcessing (scheduler c) = false /\ calls c = []).

(** No analysis of the trace ended well. *)
Fixpoint no_success (t : list Event) : bool :=
  match t with
  | [] => true
  | LogAnalyzed _ _ :: _ => false
  | _ :: r => no_success r
  end.

(** The number of cases of the store that are assigned to a lawyer and not
    in a terminal status. *)
Definition active_case_count (d : Mongo.Db) (lawyerId : ObjectId) : nat :=
  List.length
    (List.filter
       (fun c =>
          match assignedLawyer c with
          | Some l => (lawyer_id l =? lawyerId)%nat
          | None => false
          end && negb (is_terminal (status c)))
       (Mongo.docs d)).

(** A user with the count of active cases written in. *)
Definition counted (d : Mongo.Db) (u : User) : User :=
  set_activeCases u
    (Num (inject_Z (Z.of_nat (active_case_count d (user_id u))))).

(** A user after a rebalancing that went through. *)
Definition rebalanced (d : Mongo.Db) (u : User) : User :=
  if is_active_lawyer u then counted d u else u.

(** A text without a backtick. *)
Definition no_backtick (s : string) : bool :=
  forallb (fun c => negb (Ascii.eqb c "`"%char)) (list_ascii_of_string s).

Definition set_hearingDate (c : Case) (h : option Date) : Case :=
  {| case_id := case_id c; caseNumber := caseNumber c; title := title c;
     description := description c; caseType := caseType c;
     subCategory := subCategory c; status := status c;
     priority := priority c; case_priorityScore := case_priorityScore c;
     filingDate := filingDate c; hearingDate := h;
     deadlineDate := deadlineDate c;
     expectedCompletionDate := expectedCompletionDate c;
     courtLevel := courtLevel c; estimatedValue := estimatedValue c;
     assignedLawyer := assignedLawyer c; documents := documents c;
     aiAnalysis := aiAnalysis c; delayInfo := delayInfo c;
     milestones := milestones c; notes := notes c;
     createdAtStamp := createdAtStamp c; updatedAt := updatedAt c |}.

(** The settlements that carry a run through its loop: [m] of them, at time
    [now]. *)
Definition settlements (now : Z) (m : nat) : list Input :=
  repeat (Settle 0 (Ok []) now) m.

(** The labels in rising order. *)
Definition priority_rank (p : Priority) : nat :=
  match p with
  | low => 0
  | medium => 1
  | high => 2
  | urgent => 3
  | critical => 4
  end.

Definition impact_rank (i : DelayImpact) : nat :=
  match i with
  | impact_low => 0
  | impact_medium => 1
  | impact_high => 2
  | impact_critical => 3
  end.

(** *** Sample dockets *)

Definition set_assignedLawyer (c : Case) (l : option Lawyer) : Case :=
  {| case_id := case_id c; caseNumber := caseNumber c; title := title c;
     description := description c; caseType := caseType c;
     subCategory := subCategory c; status := status c;
     priority := priority c; case_priorityScore := case_priorityScore c;
     filingDate := filingDate c; hearingDate := hearingDate c;
     deadlineDate := deadlineDate c;
     expectedCompletionDate := expectedCompletionDate c;
     courtLevel := courtLevel c; estimatedValue := estimatedValue c;
     assignedLawyer := l; documents := documents c;
     aiAnalysis := aiAnalysis c; delayInfo := delayInfo c;
     milestones := milestones c; notes := notes c;
     createdAtStamp := createdAtStamp c; updatedAt := updatedAt c |}.

Definition sample_lawyer (id : ObjectId) : Lawyer :=
  {| lawyer_id := id;
     lawyer_name := "A. Rao";
     experience := Some (Num 12%Q);
     specialization := ["Property"%string] |}.

(** A case of lawyer [who] with a score, a status and a hearing date. *)
Definition sample_assigned (id who : ObjectId) (score : Q) (s : Status)
  (hearing : option Z) : Case :=
  set_hearingDate
    (set_status
       (set_priority
          (set_assignedLawyer (sample_case id) (Some (sample_lawyer who)))
          (Num score) (priority_of_score (Num score)))
       s)
    (option_map DateAt hearing).

(** Five cases of lawyer 3, one of them completed, and one of lawyer 7. *)
Definition sample_docket : list Case :=
  [sample_assigned 1%nat 3%nat 60%Q in_progress (Some 500);
   sample_assigned 2%nat 3%nat 90%Q in_progress (Some 300);
   sample_assigned 3%nat 3%nat 90%Q awaiting_hearing (Some 100);
   sample_assigned 4%nat 7%nat 99%Q in_progress (Some 50);
   sample_assigned 5%nat 3%nat 95%Q completed None;
   sample_assigned 6%nat 3%nat 90%Q assigned None].

(** A case with a score and a status, delayed by [days] days when [days] is
    positive. *)
Definition sample_delayed (id : ObjectId) (score : Q) (s : Status)
  (days : Z) : Case :=
  set_status
    (set_priority
       (set_delayInfo (sample_case id)
          {| isDelayed := 0 <? days; delayDays := days; delayReasons := [];
             delayImpact := impact_of_days days |})
       (Num score) (priority_of_score (Num score)))
    s.

Definition sample_backlog : list Case :=
  [sample_delayed 1%nat 45%Q in_progress 40;
   sample_delayed 2%nat 80%Q awaiting_hearing 200;
   sample_delayed 3%nat 70%Q completed 95;
   sample_delayed 4%nat 65%Q under_review 0].


(* ===================================================================== *)
(** * Part II.  Properties                                                *)
(* ===================================================================== *)

(** ** Numbers *)

Lemma Qle_bool_false (p q : Q) : Qle_bool p q = false -> (q < p)%Q.
Proof.
  intro H. destruct (Qlt_le_dec q p) as [L | L]; [exact L |].
  apply Qle_bool_iff in L. congruence.
Qed.

Lemma clamp_number (x : number) :
  x <> NaN -> in_0_100 (JS.Math_max n0 (JS.Math_min n100 x)).
Proof.
  intro Hx. unfold in_0_100, n0, n100.
  destruct x as [| q | |]; [congruence | | |]; cbn [JS.Math_min].
  - destruct (Qle_bool 100 q) eqn:E1; cbn [JS.Math_max JS.le].
    + split; reflexivity.
    + destruct (Qle_bool 0 q) eqn:E2; cbn [JS.le].
      * split; [exact E2 |]. apply Qle_bool_iff. apply Qle_bool_false in E1. lra.
      * split; reflexivity.
  - split; reflexivity.
  - split; reflexivity.
Qed.

Lemma max_number (lo : Q) (x : number) :
  x <> NaN -> at_least (Num lo) (JS.Math_max (Num lo) x).
Proof.
  intro Hx. unfold at_least.
  destruct x as [| q | |]; [congruence | | |]; cbn [JS.Math_max].
  - destruct (Qle_bool lo q) eqn:E; cbn [JS.le]; [exact E |].
    apply Qle_bool_iff. lra.
  - reflexivity.
  - cbn [JS.le]. apply Qle_bool_iff. lra.
Qed.

Lemma clamp_value_nan_or_range (x : number) :
  JS.Math_max n0 (JS.Math_min n100 x) = NaN
  \/ in_0_100 (JS.Math_max n0 (JS.Math_min n100 x)).
Proof.
  destruct x as [| q | |].
  - left. reflexivity.
  - right. apply clamp_number. discriminate.
  - right. apply clamp_number. discriminate.
  - right. apply clamp_number. discriminate.
Qed.

Lemma max_value_nan_or_at_least (lo : Q) (x : number) :
  JS.Math_max (Num lo) x = NaN \/ at_least (Num lo) (JS.Math_max (Num lo) x).
Proof.
  destruct x as [| q | |].
  - left. reflexivity.
  - right. apply max_number. discriminate.
  - right. apply max_number. discriminate.
  - right. apply max_number. discriminate.
Qed.

(** [v || d] for a plain [v] and a number [d] other than [NaN] turns into a
    number other than [NaN], and its conversion does not throw. *)
Lemma plain_or_else_number (v : jsval) (d : number) :
  plain v = true -> d <> NaN ->
  Coerce.numeric (Coerce.or_else v (JNum d)) <> NaN.
Proof.
  intros Hp Hd. destruct v as [[| b | n | s | l | o] |]; simpl in *;
    try discriminate; try exact Hd.
  - destruct b; simpl; [discriminate | exact Hd].
  - destruct n as [| q | |]; simpl in *; try discriminate.
    destruct (Qeq_bool q 0); simpl; [exact Hd | discriminate].
Qed.

Lemma plain_does_not_throw (v : jsval) :
  plain v = true -> Coerce.throws_on v = false.
Proof.
  destruct v as [[| b | n | s | l | o] |]; simpl; try reflexivity;
    discriminate.
Qed.

(** ** The parser of the Scoring Client *)

(** The default replaces only values whose conversion cannot throw. *)
Lemma ToNumber_or_else (v : jsval) (d : number) :
  Coerce.ToNumber (Coerce.or_else v (JNum d))
  = if Coerce.throws_on v then None
    else Some (Coerce.numeric (Coerce.or_else v (JNum d))).
Proof.
  unfold Coerce.ToNumber.
  assert (E : Coerce.throwing (Coerce.or_else v (JNum d))
              = Coerce.throws_on v).
  { destruct v as [[| b | n | s | l | o] |]; try reflexivity.
    - destruct b; reflexivity.
    - unfold Coerce.or_else. destruct (Coerce.truthy (Some (JNum n)));
        reflexivity.
    - unfold Coerce.or_else. destruct (Coerce.truthy (Some (JStr s)));
        reflexivity. }
  rewrite E. reflexivity.
Qed.

Lemma get_read (a : json) (k : string) :
  a <> JNull -> Props.get a k = Some (Props.read a k).
Proof. destruct a; try congruence; reflexivity. Qed.

(** The [try] block on a value other than [null]: it throws exactly when
    the conversion of one of the numeric fields does. *)
Lemma normalize_cases (a : json) :
  a <> JNull ->
  normalize a
  = if existsb (fun k => Coerce.throws_on (Props.read a k)) numeric_fields
    then None else Some (normalized a).
Proof.
  intro Hn. unfold normalize. rewrite !get_read by exact Hn.
  cbn [bind]. unfold clamp_0_100, at_least_of.
  rewrite !ToNumber_or_else. unfold numeric_fields, normalized.
  cbn [existsb].
  destruct (Coerce.throws_on (Props.read a "priorityScore")); [reflexivity |].
  destruct (Coerce.throws_on (Props.read a "complexityScore"));
    [reflexivity |].
  destruct (Coerce.throws_on (Props.read a "estimatedDuration"));
    [reflexivity |].
  destruct (Coerce.throws_on (Props.read a "successProbability"));
    [reflexivity |].
  destruct (Coerce.throws_on (Props.read a "similarCasesCount"));
    reflexivity.
Qed.

Lemma no_throw_iff (a : json) :
  existsb (fun k => Coerce.throws_on (Props.read a k)) numeric_fields = false
  <-> (forall k, In k numeric_fields ->
       Coerce.throws_on (Props.read a k) = false).
Proof.
  split.
  - intros H k Hk.
    destruct (Coerce.throws_on (Props.read a k)) eqn:E; [| reflexivity].
    assert (X : existsb (fun k => Coerce.throws_on (Props.read a k))
                  numeric_fields = true).
    { apply existsb_exists. exists k. split; assumption. }
    congruence.
  - intro H.
    destruct (existsb _ numeric_fields) eqn:E; [| reflexivity].
    apply existsb_exists in E. destruct E as (k & Hk & T).
    rewrite (H k Hk) in T. discriminate.
Qed.

Lemma normalized_fields_nan_or_in_range (a : json) :
  let r := normalized a in
  (priorityScore r = NaN \/ in_0_100 (priorityScore r))
  /\ (complexityScore r = NaN \/ in_0_100 (complexityScore r))
  /\ (successProbability r = NaN \/ in_0_100 (successProbability r))
  /\ (estimatedDuration r = NaN \/ at_least n1 (estimatedDuration r))
  /\ (similarCasesCount r = NaN \/ at_least n0 (similarCasesCount r)).
Proof.
  cbv zeta. unfold normalized.
  cbn [priorityScore complexityScore successProbability estimatedDuration
       similarCasesCount].
  repeat split;
    first [apply clamp_value_nan_or_range | apply max_value_nan_or_at_least].
Qed.

(** C1 (as the code behaves at the failing input): a response whose
    [priorityScore] is the string "high" parses, the string is truthy and
    turns into [NaN], and [NaN] passes through [Math.min] and [Math.max]:
    the priority score of the result is [NaN], which is neither at least 0
    nor at most 100. *)
Theorem parseAIResponse_string_score_is_nan :
  let r := parseAIResponse_parsed
             (Some (JObj [("priorityScore"%string, JStr "high")])) in
  priorityScore r = NaN
  /\ JS.le n0 (priorityScore r) = false
  /\ JS.le (priorityScore r) n100 = false
  /\ ~ within_bounds r.
Proof.
  cbv zeta. split; [reflexivity |]. split; [reflexivity |].
  split; [reflexivity |].
  intros [[H _] _]. vm_compute in H. discriminate.
Qed.

(** Whatever [JSON.parse] did, each bounded field of the result is [NaN] or
    lies in its range, and the result of the [catch] block lies in all of
    them. *)
Theorem parse_fields_nan_or_in_range (parsed : throws json) :
  let r := parseAIResponse_parsed parsed in
  (priorityScore r = NaN \/ in_0_100 (priorityScore r))
  /\ (complexityScore r = NaN \/ in_0_100 (complexityScore r))
  /\ (successProbability r = NaN \/ in_0_100 (successProbability r))
  /\ (estimatedDuration r = NaN \/ at_least n1 (estimatedDuration r))
  /\ (similarCasesCount r = NaN \/ at_least n0 (similarCasesCount r)).
Proof.
  assert (D : within_bounds default_analysis).
  { repeat split; reflexivity. }
  destruct D as (D1 & D2 & D3 & D4 & D5).
  assert (Dr : let r := default_analysis in
               (priorityScore r = NaN \/ in_0_100 (priorityScore r))
               /\ (complexityScore r = NaN \/ in_0_100 (complexityScore r))
               /\ (successProbability r = NaN
                   \/ in_0_100 (successProbability r))
               /\ (estimatedDuration r = NaN
                   \/ at_least n1 (estimatedDuration r))
               /\ (similarCasesCount r = NaN
                   \/ at_least n0 (similarCasesCount r))).
  { cbv zeta. repeat split; right; assumption. }
  cbv zeta. unfold parseAIResponse_parsed.
  destruct parsed as [a |]; cbn [bind]; [| exact Dr].
  destruct a as [| b | n | s | l | props];
    try (rewrite normalize_cases by discriminate;
         destruct (existsb _ numeric_fields);
         [exact Dr | apply normalized_fields_nan_or_in_range]).
  exact Dr.
Qed.

(** When every numeric field of the parsed object is missing, [null], a
    boolean or a number, the result lies within the bounds. *)
Theorem parse_plain_fields_within_bounds (props : list (string * json)) :
  (forall k, In k numeric_fields -> plain (Props.lookup k props) = true) ->
  within_bounds (parseAIResponse_parsed (Some (JObj props))).
Proof.
  intro H.
  assert (N : forall q : Q, Num q <> NaN) by (intros q E; discriminate).
  unfold parseAIResponse_parsed. cbn [bind].
  rewrite normalize_cases by discriminate.
  assert (T : existsb (fun k => Coerce.throws_on (Props.read (JObj props) k))
                numeric_fields = false).
  { apply no_throw_iff. intros k Hk. apply plain_does_not_throw.
    apply H. exact Hk. }
  rewrite T. unfold within_bounds, normalized.
  cbn [priorityScore complexityScore successProbability estimatedDuration
       similarCasesCount Props.read].
  repeat split.
  1-6: apply clamp_number, plain_or_else_number;
       [apply H; simpl; tauto | apply N].
  - apply max_number, plain_or_else_number;
      [apply H; simpl; tauto | apply N].
  - apply max_number, plain_or_else_number;
      [apply H; simpl; tauto | apply N].
Qed.

Lemma parse_plain_fields_within_bounds_witness :
  within_bounds
    (parseAIResponse_parsed
       (Some (JObj [("priorityScore"%string, JNum (Num 250%Q));
                    ("estimatedDuration"%string, JNum (Num (-3)%Q))]))).
Proof.
  apply parse_plain_fields_within_bounds.
  intros k Hk. simpl in Hk.
  repeat (destruct Hk as [<- | Hk]; [reflexivity |]). contradiction.
Defined.

(** A score the response gives inside [0, 100] is kept at its value, except
    that a score of 0 is falsy and is replaced by 50, as long as no numeric
    field of the response makes its conversion throw; when one does, the
    block is left for the default result and the score is 50. *)
Theorem parse_score_kept_or_defaulted (props : list (string * json)) (q : Q) :
  Props.lookup "priorityScore" props = Some (JNum (Num q)) ->
  (0 <= q <= 100)%Q ->
  let r := parseAIResponse_parsed (Some (JObj props)) in
  ((forall k, In k numeric_fields ->
      Coerce.throws_on (Props.lookup k props) = false) ->
   same_number (priorityScore r) (if Qeq_bool q 0 then n50 else Num q))
  /\ ((exists k, In k numeric_fields
                 /\ Coerce.throws_on (Props.lookup k props) = true) ->
      r = default_analysis /\ priorityScore r = n50).
Proof.
  intros Hl [H0 H100]. cbv zeta.
  unfold parseAIResponse_parsed. cbn [bind].
  rewrite normalize_cases by discriminate. split.
  - intro Hno. apply (no_throw_iff (JObj props)) in Hno. rewrite Hno.
    unfold normalized. cbn [priorityScore Props.read]. rewrite Hl.
    unfold Coerce.or_else, Coerce.truthy, JS.number_truthy.
    destruct (Qeq_bool q 0) eqn:E; cbn [negb].
    + split; reflexivity.
    + unfold n100, n0, same_number. cbn [Coerce.numeric JS.Math_min].
      destruct (Qle_bool 100 q) eqn:E1; cbn [JS.Math_max].
      * change (Qle_bool 0 100) with true. cbn [JS.le].
        split; apply Qle_bool_iff; [apply Qle_bool_iff in E1; lra | lra].
      * destruct (Qle_bool 0 q) eqn:E2; cbn [JS.le].
        -- split; apply Qle_bool_iff; lra.
        -- apply Qle_bool_false in E2. lra.
  - intros (k & Hk & T).
    assert (X : existsb
                  (fun k => Coerce.throws_on (Props.read (JObj props) k))
                  numeric_fields = true).
    { apply existsb_exists. exists k. split; assumption. }
    rewrite X. split; reflexivity.
Qed.

Lemma parse_score_kept_or_defaulted_witness :
  same_number
    (priorityScore
       (parseAIResponse_parsed
          (Some (JObj [("priorityScore"%string, JNum (Num 88%Q));
                       ("complexityScore"%string, JNum (Num 0%Q))]))))
    (Num 88%Q)
  /\ priorityScore
       (parseAIResponse_parsed
          (Some (JObj [("priorityScore"%string, JNum (Num 88%Q));
                       ("complexityScore"%string,
                        JObj [("toString"%string, JNum (Num 1%Q))])])))
     = n50.
Proof.
  assert (B : (0 <= 88 <= 100)%Q) by (split; discriminate).
  split.
  - apply (proj1 (@parse_score_kept_or_defaulted
                    [("priorityScore"%string, JNum (Num 88%Q));
                     ("complexityScore"%string, JNum (Num 0%Q))] 88%Q
                    eq_refl B)).
    intros k Hk. simpl in Hk.
    repeat (destruct Hk as [<- | Hk]; [reflexivity |]). contradiction.
  - apply (proj2 (@parse_score_kept_or_defaulted
                    [("priorityScore"%string, JNum (Num 88%Q));
                     ("complexityScore"%string,
                      JObj [("toString"%string, JNum (Num 1%Q))])] 88%Q
                    eq_refl B)).
    exists "complexityScore"%string. split; [| reflexivity].
    simpl. tauto.
Defined.

(** C3 (the claim fails): a response that parses to an object without
    [priorityScore] but with [complexityScore] 80 does not give the default
    result: the priority score is 50, but the complexity score is 80 and the
    reasoning is the text of a completed analysis, which notes no
    fallback. *)
Lemma parse_missing_score_is_not_the_default :
  let a := JObj [("complexityScore"%string, JNum (Num 80%Q))] in
  let r := parseAIResponse_parsed (Some a) in
  Props.get a "priorityScore" = Some undefined
  /\ priorityScore r = n50
  /\ complexityScore r = Num 80%Q
  /\ complexityScore r <> n50
  /\ reasoning r = JStr "AI analysis completed"
  /\ r <> default_analysis.
Proof.
  cbv zeta. repeat split; try reflexivity; intro H; vm_compute in H;
    discriminate.
Qed.

(** C3 (amended): when the cleaned response does not parse, or parses to
    [null], the parser returns the default result, whose scores are 50, 50,
    30, 50 and 0 and whose reasoning is a non-empty text naming the parsing
    error.  When it parses to another value without [priorityScore], the
    priority score of the result is 50; the result is again the default
    result when the conversion of one of the other numeric fields throws
    (an object with a property named toString, or an array holding one);
    otherwise the block is not left, every other field is normalised on its
    own from the response, and the reasoning is "AI analysis completed" when
    the response has none. *)
Theorem parse_failure_and_missing_score
  (JSON_parse : string -> throws json) (aiResponse : string) :
  let parsed := JSON_parse (Fence.clean aiResponse) in
  let r := parseAIResponse JSON_parse aiResponse in
  (parsed = None \/ parsed = Some JNull ->
   r = default_analysis
   /\ priorityScore r = n50 /\ complexityScore r = n50
   /\ estimatedDuration r = n30 /\ successProbability r = n50
   /\ similarCasesCount r = n0
   /\ reasoning r = JStr "Default analysis due to parsing error")
  /\ (forall a, parsed = Some a -> a <> JNull ->
      Props.get a "priorityScore" = Some undefined ->
      priorityScore r = n50
      /\ ((exists k, In k numeric_fields
                     /\ Coerce.throws_on (Props.read a k) = true) ->
          normalize a = None /\ r = default_analysis)
      /\ ((forall k, In k numeric_fields ->
             Coerce.throws_on (Props.read a k) = false) ->
          normalize a = Some r
          /\ r = normalized a
          /\ (Props.get a "reasoning" = Some undefined ->
              reasoning r = JStr "AI analysis completed"))).
Proof.
  cbv zeta. unfold parseAIResponse. split.
  - intros [H | H]; rewrite H; repeat split; reflexivity.
  - intros a Ha Hn Hp. rewrite Ha.
    rewrite (get_read "priorityScore" Hn) in Hp. injection Hp as Hp.
    unfold parseAIResponse_parsed. cbn [bind].
    rewrite normalize_cases by exact Hn.
    destruct (existsb _ numeric_fields) eqn:E.
    + split; [reflexivity |]. split; [intros _; split; reflexivity |].
      intro Hno. apply no_throw_iff in Hno. congruence.
    + split; [| split].
      * unfold normalized. cbn [priorityScore]. rewrite Hp. reflexivity.
      * intros (k & Hk & T). exfalso.
        assert (X : existsb (fun k => Coerce.throws_on (Props.read a k))
                      numeric_fields = true).
        { apply existsb_exists. exists k. split; assumption. }
        congruence.
      * intros _. split; [reflexivity |]. split; [reflexivity |].
        intro Hr. rewrite (get_read "reasoning" Hn) in Hr.
        injection Hr as Hr. unfold normalized. cbn [reasoning].
        rewrite Hr. reflexivity.
Qed.

Lemma parse_failure_and_missing_score_witness :
  parseAIResponse (fun _ => None) "{" = default_analysis
  /\ normalize (JObj [])
     = Some (parseAIResponse (fun _ => Some (JObj [])) "{}")
  /\ parseAIResponse
       (fun _ =>
          Some (JObj [("complexityScore"%string,
                       JObj [("toString"%string, JNum (Num 1%Q))])]))
       "{}"
     = default_analysis.
Proof.
  split; [| split].
  - destruct (proj1 (parse_failure_and_missing_score (fun _ => None) "{")
                (or_introl eq_refl)) as [H _].
    exact H.
  - assert (N : JObj [] <> JNull) by discriminate.
    destruct (proj2 (parse_failure_and_missing_score
                       (fun _ => Some (JObj [])) "{}")
                (JObj []) eq_refl N eq_refl) as (_ & _ & H).
    apply H. intros k Hk. reflexivity.
  - assert (N : JObj [("complexityScore"%string,
                       JObj [("toString"%string, JNum (Num 1%Q))])]
                <> JNull) by discriminate.
    destruct (proj2 (parse_failure_and_missing_score
                       (fun _ =>
                          Some (JObj [("complexityScore"%string,
                                       JObj [("toString"%string,
                                              JNum (Num 1%Q))])]))
                       "{}")
                _ eq_refl N eq_refl) as (_ & H & _).
    apply H. exists "complexityScore"%string. split; [| reflexivity].
    simpl. tauto.
Defined.

(** ** The priority label *)

Lemma ge_num (q b : Q) : JS.ge (Num q) (Num b) = true <-> (b <= q)%Q.
Proof. unfold JS.ge, JS.le. apply Qle_bool_iff. Qed.

Lemma ge_num_false (q b : Q) : JS.ge (Num q) (Num b) = false <-> (q < b)%Q.
Proof.
  unfold JS.ge, JS.le. split.
  - apply Qle_bool_false.
  - intro H. destruct (Qle_bool b q) eqn:E; [| reflexivity].
    apply Qle_bool_iff in E. lra.
Qed.

Lemma priority_of_score_bands (q : Q) :
  ((90 <= q)%Q -> priority_of_score (Num q) = critical)
  /\ ((75 <= q < 90)%Q -> priority_of_score (Num q) = urgent)
  /\ ((60 <= q < 75)%Q -> priority_of_score (Num q) = high)
  /\ ((40 <= q < 60)%Q -> priority_of_score (Num q) = medium)
  /\ ((q < 40)%Q -> priority_of_score (Num q) = low).
Proof.
  unfold priority_of_score.
  destruct (JS.ge (Num q) (Num 90)) eqn:E90;
    [apply ge_num in E90 | apply ge_num_false in E90];
  (destruct (JS.ge (Num q) (Num 75)) eqn:E75;
    [apply ge_num in E75 | apply ge_num_false in E75]);
  (destruct (JS.ge (Num q) (Num 60)) eqn:E60;
    [apply ge_num in E60 | apply ge_num_false in E60]);
  (destruct (JS.ge (Num q) (Num 40)) eqn:E40;
    [apply ge_num in E40 | apply ge_num_false in E40]);
  repeat split; intros; try reflexivity; exfalso; lra.
Qed.

Lemma applyAnalysis_priority (env : Env) (now : Z) (caseDoc : Case)
  (analysis : AnalysisResult) :
  priority (applyAnalysis env now caseDoc analysis)
  = priority_of_score (priorityScore analysis)
  /\ case_priorityScore (applyAnalysis env now caseDoc analysis)
     = priorityScore analysis.
Proof.
  unfold applyAnalysis. cbv zeta.
  cbn [expectedCompletionDate status set_aiAnalysis set_priority].
  destruct (expectedCompletionDate caseDoc);
    destruct (Status_eqb (status caseDoc) assigned); split; reflexivity.
Qed.

(** C2: the label the update step writes depends on the priority score
    alone: [critical] from 90 on, [urgent] from 75 up to 90, [high] from 60
    up to 75, [medium] from 40 up to 60, [low] below 40; so 90 gives
    critical, 89 urgent, 60 high, 59 medium, 40 medium and 39 low. *)
Theorem priority_label_from_score (env : Env) (now : Z) (caseDoc : Case)
  (analysis : AnalysisResult) (q : Q) :
  priorityScore analysis = Num q ->
  let label := priority (applyAnalysis env now caseDoc analysis) in
  label = priority_of_score (Num q)
  /\ ((90 <= q)%Q -> label = critical)
  /\ ((75 <= q < 90)%Q -> label = urgent)
  /\ ((60 <= q < 75)%Q -> label = high)
  /\ ((40 <= q < 60)%Q -> label = medium)
  /\ ((q < 40)%Q -> label = low)
  /\ priority_of_score (Num 90%Q) = critical
  /\ priority_of_score (Num 89%Q) = urgent
  /\ priority_of_score (Num 60%Q) = high
  /\ priority_of_score (Num 59%Q) = medium
  /\ priority_of_score (Num 40%Q) = medium
  /\ priority_of_score (Num 39%Q) = low.
Proof.
  intros Hq. cbv zeta.
  destruct (applyAnalysis_priority env now caseDoc analysis) as [-> _].
  rewrite Hq.
  destruct (priority_of_score_bands q) as (B1 & B2 & B3 & B4 & B5).
  repeat split; try assumption; reflexivity.
Qed.

Lemma priority_label_from_score_witness :
  priority (applyAnalysis (sample_env Mongo.Casting) 0 (sample_case 1%nat)
              default_analysis) = medium.
Proof.
  assert (B : (40 <= 50 < 60)%Q) by (split; [discriminate | reflexivity]).
  destruct (@priority_label_from_score (sample_env Mongo.Casting) 0
              (sample_case 1%nat) default_analysis 50%Q eq_refl)
    as (_ & _ & _ & _ & H & _).
  exact (H B).
Defined.

(** ** The delay information *)

Lemma Status_eqb_eq (a b : Status) : Status_eqb a b = true <-> a = b.
Proof.
  split.
  - destruct a, b; intro H; try reflexivity; vm_compute in H; discriminate.
  - intros ->. destruct b; reflexivity.
Qed.

Lemma msPerDay_pos : 0 < msPerDay.
Proof. reflexivity. Qed.

Lemma days_nonneg (now t : Z) : t <= now -> 0 <= (now - t) / msPerDay.
Proof. intro H. apply Z.div_pos; [lia | apply msPerDay_pos]. Qed.

Lemma completion_days_nonneg (now : Z) (c : Case) : 0 <= completion_days now c.
Proof.
  unfold completion_days. destruct (expectedCompletionDate c) as [[| t] |];
    try lia.
  destruct (t <? now) eqn:E; [| lia]. apply Z.ltb_lt in E.
  apply days_nonneg. lia.
Qed.

Lemma hearing_days_nonneg (now : Z) (c : Case) : 0 <= hearing_days now c.
Proof.
  unfold hearing_days. destruct (hearingDate c) as [[| t] |]; try lia;
    destruct (status c); try lia.
  destruct (t <? now) eqn:E; [| lia]. apply Z.ltb_lt in E.
  apply days_nonneg. lia.
Qed.

Lemma impact_of_days_bands (d : Z) :
  (d <= 30 -> impact_of_days d = impact_low)
  /\ (30 < d <= 90 -> impact_of_days d = impact_medium)
  /\ (90 < d <= 180 -> impact_of_days d = impact_high)
  /\ (180 < d -> impact_of_days d = impact_critical).
Proof.
  unfold impact_of_days.
  destruct (180 <? d) eqn:E1; [apply Z.ltb_lt in E1 | apply Z.ltb_ge in E1];
  (destruct (90 <? d) eqn:E2; [apply Z.ltb_lt in E2 | apply Z.ltb_ge in E2]);
  (destruct (30 <? d) eqn:E3; [apply Z.ltb_lt in E3 | apply Z.ltb_ge in E3]);
  repeat split; intros; try reflexivity; lia.
Qed.

Lemma updateDelayInfo_days (now : Z) (this : Case) :
  delayDays (delayInfo (updateDelayInfo now this))
  = Z.max (completion_days now this) (hearing_days now this).
Proof.
  pose proof (completion_days_nonneg now this) as C.
  pose proof (hearing_days_nonneg now this) as H.
  unfold updateDelayInfo, completion_days, hearing_days in *.
  destruct (expectedCompletionDate this) as [[| e] |];
    destruct (hearingDate this) as [[| h] |];
    cbn [passed days_since andb] in *;
    try destruct (e <? now); try destruct (h <? now); cbn [andb] in *;
    try (destruct (status this); cbn in * );
    lia.
Qed.

Lemma passed_iff (now : Z) (d : Date) :
  passed now d = true <-> exists t, d = DateAt t /\ t < now.
Proof.
  destruct d as [| t]; simpl.
  - split; [discriminate | intros (t & X & _); discriminate].
  - rewrite Z.ltb_lt. split.
    + intro. exists t. auto.
    + intros (t' & X & Y). injection X as ->. exact Y.
Qed.

Lemma updateDelayInfo_flag_bool (now : Z) (this : Case) :
  isDelayed (delayInfo (updateDelayInfo now this))
  = (match expectedCompletionDate this with
     | Some d => passed now d
     | None => false
     end)
    || (match hearingDate this with
        | Some h => passed now h && Status_eqb (status this) awaiting_hearing
        | None => false
        end).
Proof.
  unfold updateDelayInfo.
  destruct (expectedCompletionDate this) as [d |];
    destruct (hearingDate this) as [h |];
    try destruct (passed now d); try destruct (passed now h);
    cbn [andb]; try destruct (Status_eqb (status this) awaiting_hearing);
    reflexivity.
Qed.

Lemma updateDelayInfo_flag (now : Z) (this : Case) :
  isDelayed (delayInfo (updateDelayInfo now this)) = true <->
  completion_passed now this \/ hearing_passed_waiting now this.
Proof.
  unfold completion_passed, hearing_passed_waiting.
  rewrite updateDelayInfo_flag_bool, orb_true_iff.
  split.
  - intros [H | H].
    + left. destruct (expectedCompletionDate this) as [d |]; [| discriminate].
      apply passed_iff in H. destruct H as (t & -> & Ht). eauto.
    + right. destruct (hearingDate this) as [h |]; [| discriminate].
      apply andb_true_iff in H. destruct H as [H1 H2].
      apply passed_iff in H1. destruct H1 as (t & -> & Ht).
      apply Status_eqb_eq in H2. eauto.
  - intros [(t & -> & Ht) | (t & -> & Ht & Hs)].
    + left. apply passed_iff. eauto.
    + right. apply andb_true_iff. split.
      * apply passed_iff. eauto.
      * apply Status_eqb_eq. exact Hs.
Qed.

Lemma updateDelayInfo_impact (now : Z) (this : Case) :
  delayImpact (delayInfo (updateDelayInfo now this))
  = impact_of_days (delayDays (delayInfo (updateDelayInfo now this))).
Proof.
  unfold updateDelayInfo.
  destruct (expectedCompletionDate this) as [d |];
    destruct (hearingDate this) as [h |];
    try destruct (passed now d); try destruct (passed now h);
    cbn [andb]; try destruct (Status_eqb (status this) awaiting_hearing);
    reflexivity.
Qed.

(** [updateDelayInfo] reads the two dates and the status, and writes the
    delay information only. *)
Lemma updateDelayInfo_frame (now : Z) (this : Case) :
  exists d, updateDelayInfo now this = set_delayInfo this d.
Proof.
  unfold updateDelayInfo.
  destruct (expectedCompletionDate this) as [d |];
    destruct (hearingDate this) as [h |];
    try destruct (passed now d); try destruct (passed now h);
    cbn [andb]; try destruct (Status_eqb (status this) awaiting_hearing);
    eexists; reflexivity.
Qed.

Lemma updateDelayInfo_caseNumber (now : Z) (this : Case) (n : option string) :
  delayInfo (updateDelayInfo now (set_caseNumber this n))
  = delayInfo (updateDelayInfo now this).
Proof.
  unfold updateDelayInfo.
  cbn [expectedCompletionDate hearingDate status set_caseNumber].
  destruct (expectedCompletionDate this) as [d |];
    destruct (hearingDate this) as [h |];
    try destruct (passed now d); try destruct (passed now h);
    cbn [andb]; try destruct (Status_eqb (status this) awaiting_hearing);
    reflexivity.
Qed.

(** ** [save] *)

Lemma replace_doc_In (doc : Case) (l l' : list Case) :
  replace_doc doc l = Some l' -> In doc l'.
Proof.
  revert l'. induction l as [| d r IH]; intros l' H; simpl in H.
  - discriminate.
  - destruct (case_id d =? case_id doc)%nat.
    + injection H as <-. left. reflexivity.
    + destruct (replace_doc doc r) as [r' |]; [| discriminate].
      injection H as <-. right. apply IH. reflexivity.
Qed.

Lemma replace_doc_length (doc : Case) (l l' : list Case) :
  replace_doc doc l = Some l' -> List.length l' = List.length l.
Proof.
  revert l'. induction l as [| d r IH]; intros l' H; simpl in H.
  - discriminate.
  - destruct (case_id d =? case_id doc)%nat.
    + injection H as <-. reflexivity.
    + destruct (replace_doc doc r) as [r' |]; [| discriminate].
      injection H as <-. simpl. f_equal. apply IH. reflexivity.
Qed.

Lemma pre_save_delayInfo (env : Env) (now : Z) (d : Mongo.Db)
  (this hooked : Case) :
  pre_save env now d this = Ok hooked ->
  delayInfo hooked = delayInfo (updateDelayInfo now this).
Proof.
  unfold pre_save. intro H.
  destruct (caseNumber this) as [s |].
  - destruct (String.eqb s EmptyString).
    + destruct (Mongo.countDocuments _ _ _); [| discriminate].
      injection H as <-. apply updateDelayInfo_caseNumber.
    + injection H as <-. reflexivity.
  - destruct (Mongo.countDocuments _ _ _); [| discriminate].
    injection H as <-. apply updateDelayInfo_caseNumber.
Qed.

(** What a [save] that goes through has done. *)
Lemma save_ok (env : Env) (now : Z) (isNew : bool) (d d' : Mongo.Db)
  (doc doc' : Case) :
  save env now isNew d doc = Ok (d', doc') ->
  Schema.validate doc = true
  /\ Mongo.reachable d = true
  /\ In doc' (Mongo.docs d')
  /\ updatedAt doc' = Some now
  /\ delayInfo doc' = delayInfo (updateDelayInfo now doc).
Proof.
  unfold save. intro H.
  destruct (Schema.validate doc); [| discriminate]. cbn [negb] in H.
  destruct (pre_save env now d doc) as [hooked |] eqn:Hh; [| discriminate].
  apply pre_save_delayInfo in Hh.
  destruct (Mongo.reachable d); [| discriminate]. cbn [negb] in H.
  destruct isNew.
  - injection H as <- <-. cbn [Mongo.docs].
    repeat split; try reflexivity; try assumption.
    apply in_or_app. right. left. reflexivity.
  - destruct (replace_doc _ _) as [l |] eqn:Hr; [| discriminate].
    injection H as <- <-. cbn [Mongo.docs].
    repeat split; try reflexivity; try assumption.
    apply replace_doc_In in Hr. exact Hr.
Qed.

(** C10: [updateDelayInfo] recomputes the delay information from the two
    dates and the current time: the case is delayed exactly when the
    expected completion date has passed or a hearing date has passed while
    the case still awaits its hearing; the delay is the larger of the two
    counts of whole days (0 when not delayed); the impact is low up to 30
    days, medium up to 90, high up to 180 and critical beyond; and every
    [save] that goes through stores the document with the delay information
    recomputed this way. *)
Theorem delay_info_recomputed_on_save (env : Env) (now : Z) (this : Case) :
  let d := delayInfo (updateDelayInfo now this) in
  (isDelayed d = true <->
   completion_passed now this \/ hearing_passed_waiting now this)
  /\ delayDays d = Z.max (completion_days now this) (hearing_days now this)
  /\ (isDelayed d = false -> delayDays d = 0)
  /\ (delayDays d <= 30 -> delayImpact d = impact_low)
  /\ (30 < delayDays d <= 90 -> delayImpact d = impact_medium)
  /\ (90 < delayDays d <= 180 -> delayImpact d = impact_high)
  /\ (180 < delayDays d -> delayImpact d = impact_critical)
  /\ (forall isNew store store' stored,
      save env now isNew store this = Ok (store', stored) ->
      In stored (Mongo.docs store') /\ delayInfo stored = d).
Proof.
  cbv zeta.
  split; [apply updateDelayInfo_flag |].
  split; [apply updateDelayInfo_days |].
  split.
  { intro F. rewrite updateDelayInfo_days.
    rewrite updateDelayInfo_flag_bool in F. apply orb_false_iff in F.
    destruct F as [F1 F2].
    unfold completion_days, hearing_days.
    destruct (expectedCompletionDate this) as [[| e] |];
      destruct (hearingDate this) as [[| h] |];
      cbn [passed andb] in *; try rewrite F1;
      try (destruct (status this); try reflexivity;
           cbn in F2; rewrite andb_true_r in F2; rewrite F2);
      reflexivity. }
  rewrite updateDelayInfo_impact.
  destruct (impact_of_days_bands
              (delayDays (delayInfo (updateDelayInfo now this))))
    as (B1 & B2 & B3 & B4).
  repeat split; try assumption.
  - apply save_ok in H. tauto.
  - apply save_ok in H. tauto.
Qed.

Lemma delay_info_recomputed_on_save_witness :
  isDelayed
    (delayInfo
       (updateDelayInfo (100 * msPerDay)
          (set_expectedCompletionDate (sample_case 1%nat) (Some (DateAt 0)))))
  = true.
Proof.
  apply (proj2 (proj1 (delay_info_recomputed_on_save
                         (sample_env Mongo.Casting) (100 * msPerDay)
                         (set_expectedCompletionDate (sample_case 1%nat)
                            (Some (DateAt 0)))))).
  left. exists 0. split; reflexivity.
Defined.

(** ** The update step *)

Lemma applyAnalysis_notes (env : Env) (now : Z) (caseDoc : Case)
  (analysis : AnalysisResult) :
  notes (applyAnalysis env now caseDoc analysis)
  = notes caseDoc ++ [analysis_note env now analysis].
Proof.
  unfold applyAnalysis. cbv zeta.
  cbn [expectedCompletionDate status set_aiAnalysis set_priority].
  destruct (expectedCompletionDate caseDoc);
    destruct (Status_eqb (status caseDoc) assigned); reflexivity.
Qed.

Lemma note_without_author_invalid (n : Note) :
  createdBy n = None -> Schema.note_valid n = false.
Proof.
  intro H. unfold Schema.note_valid. rewrite H.
  rewrite andb_false_r. reflexivity.
Qed.

Lemma validate_needs_valid_notes (doc : Case) :
  forallb Schema.note_valid (notes doc) = false ->
  Schema.validate doc = false.
Proof.
  intro H. unfold Schema.validate. rewrite H. apply andb_false_r.
Qed.

Lemma analysed_document_invalid (env : Env) (now : Z) (caseDoc : Case)
  (analysis : AnalysisResult) :
  Schema.validate (applyAnalysis env now caseDoc analysis) = false.
Proof.
  apply validate_needs_valid_notes. rewrite applyAnalysis_notes.
  rewrite forallb_app. cbn [forallb].
  rewrite note_without_author_invalid by reflexivity.
  cbn [andb]. apply andb_false_r.
Qed.

(** C4 (as the code behaves): the note the update step pushes has no
    author, while the schema requires [createdBy] for every note; [save]
    validates the document first, so for every case and every analysis the
    update step ends in a validation error and nothing is written. *)
Theorem update_is_rejected_by_validation (env : Env) (now : Z)
  (store : Mongo.Db) (caseDoc : Case) (analysis : AnalysisResult) :
  createdBy (analysis_note env now analysis) = None
  /\ Schema.note_valid (analysis_note env now analysis) = false
  /\ updateCaseWithAIAnalysis env now store caseDoc analysis
     = Err ValidationError.
Proof.
  split; [reflexivity |]. split.
  - apply note_without_author_invalid. reflexivity.
  - unfold updateCaseWithAIAnalysis, save.
    rewrite analysed_document_invalid. reflexivity.
Qed.

(** ** The store layer *)

Lemma limit_incl (n : nat) (l : list Case) (c : Case) :
  In c (Mongo.limit n l) -> In c l.
Proof.
  destruct n; simpl; [tauto |]. intro H.
  change (In c (firstn (S n) l)) in H.
  rewrite <- (firstn_skipn (S n) l). apply in_or_app. left. exact H.
Qed.

Lemma limit_length (n : nat) (l : list Case) :
  (0 < n)%nat -> (List.length (Mongo.limit n l) <= n)%nat.
Proof.
  destruct n; [lia |]. intros _. unfold Mongo.limit. apply firstn_le_length.
Qed.

Lemma limit_all (n : nat) (l : list Case) :
  (n = 0 \/ List.length l <= n)%nat -> Mongo.limit n l = l.
Proof.
  intros [-> | H]; [reflexivity |].
  destruct n; [reflexivity |]. unfold Mongo.limit. apply firstn_all2. exact H.
Qed.

Lemma insert_by_perm (leb : Case -> Case -> bool) (x : Case) (l : list Case) :
  Permutation (Mongo.insert_by leb x l) (x :: l).
Proof.
  induction l as [| y r IH]; simpl.
  - apply Permutation_refl.
  - destruct (leb x y).
    + apply Permutation_refl.
    + eapply perm_trans; [apply perm_skip, IH | apply perm_swap].
Qed.

Lemma sort_by_perm (leb : Case -> Case -> bool) (l : list Case) :
  Permutation (Mongo.sort_by leb l) l.
Proof.
  induction l as [| x r IH]; simpl.
  - apply perm_nil.
  - eapply perm_trans; [apply insert_by_perm | apply perm_skip, IH].
Qed.

Lemma sort_by_In (leb : Case -> Case -> bool) (l : list Case) (c : Case) :
  In c (Mongo.sort_by leb l) <-> In c l.
Proof.
  split; apply Permutation_in;
    [apply sort_by_perm | apply Permutation_sym, sort_by_perm].
Qed.

Lemma find_ok (ly : Mongo.layer) (f : Mongo.filter) (d : Mongo.Db)
  (l : list Case) :
  Mongo.find ly f d = Ok l ->
  l = List.filter (Mongo.matches f) (Mongo.docs d)
  /\ Mongo.reachable d = true.
Proof.
  unfold Mongo.find. intro H.
  destruct ly, (Mongo.well_typed f), (Mongo.reachable d);
    try discriminate; injection H as <-; split; reflexivity.
Qed.

Lemma find_well_typed (ly : Mongo.layer) (f : Mongo.filter) (d : Mongo.Db) :
  Mongo.well_typed f = true -> Mongo.reachable d = true ->
  Mongo.find ly f d = Ok (List.filter (Mongo.matches f) (Mongo.docs d)).
Proof.
  unfold Mongo.find. intros -> ->. destruct ly; reflexivity.
Qed.

Lemma status_not_terminal (c : Case) :
  Mongo.matches not_terminal c = negb (is_terminal (status c)).
Proof. unfold not_terminal. simpl. destruct (status c); reflexivity. Qed.

Lemma Qle_bool_inject (a b : Z) :
  Qle_bool (inject_Z a) (inject_Z b) = (a <=? b).
Proof. unfold Qle_bool, inject_Z. simpl. rewrite !Z.mul_1_r. reflexivity. Qed.

(** ** The Case Selector *)

(** The filter of the selector, read on a document. *)
Lemma analysis_filter_matches (oneDayAgo : Z) (c : Case) :
  Mongo.matches (analysis_filter oneDayAgo) c = true <->
  is_terminal (status c) = false
  /\ (lastAnalyzed (aiAnalysis c) = None
      \/ exists t, lastAnalyzed (aiAnalysis c) = Some (DateAt t)
                   /\ t < oneDayAgo).
Proof.
  unfold analysis_filter.
  change (Mongo.matches (Mongo.All ?l) c) with
    (Mongo.matches (Mongo.Or
       [Mongo.Field "aiAnalysis.lastAnalyzed" (Mongo.Exists false);
        Mongo.Field "aiAnalysis.lastAnalyzed"
          (Mongo.Lt (Mongo.BDate oneDayAgo));
        Mongo.All
          [Mongo.Field "status"
             (Mongo.In [Mongo.BStr "assigned"; Mongo.BStr "in_progress";
                        Mongo.BStr "awaiting_hearing"]);
           Mongo.Field "aiAnalysis.lastAnalyzed"
             (Mongo.Lt (Mongo.BStr "$updatedAt"))]]) c
     && (Mongo.matches not_terminal c && true)).
  rewrite status_not_terminal, andb_true_r, andb_true_iff, negb_true_iff.
  cut (Mongo.matches (Mongo.Or
       [Mongo.Field "aiAnalysis.lastAnalyzed" (Mongo.Exists false);
        Mongo.Field "aiAnalysis.lastAnalyzed"
          (Mongo.Lt (Mongo.BDate oneDayAgo));
        Mongo.All
          [Mongo.Field "status"
             (Mongo.In [Mongo.BStr "assigned"; Mongo.BStr "in_progress";
                        Mongo.BStr "awaiting_hearing"]);
           Mongo.Field "aiAnalysis.lastAnalyzed"
             (Mongo.Lt (Mongo.BStr "$updatedAt"))]]) c = true <->
       (lastAnalyzed (aiAnalysis c) = None
        \/ exists t, lastAnalyzed (aiAnalysis c) = Some (DateAt t)
                     /\ t < oneDayAgo)).
  { intros ->. tauto. }
  cbn [Mongo.matches Mongo.holds].
  change (Mongo.field c "aiAnalysis.lastAnalyzed") with
    (match lastAnalyzed (aiAnalysis c) with
     | Some d => Some (Mongo.of_date d)
     | None => None
     end).
  destruct (lastAnalyzed (aiAnalysis c)) as [[| t] |]; cbn.
  - rewrite andb_false_r. split; [discriminate |].
    intros [H | (t & H & _)]; discriminate.
  - rewrite andb_false_r, !orb_false_r.
    unfold Mongo.bson_ltb. cbn.
    destruct (Z.leb_spec t oneDayAgo) as [E1 | E1];
      destruct (Z.eqb_spec t oneDayAgo) as [E2 | E2]; cbn.
    + split; [discriminate |]. intros [H | (t' & H & L)]; [discriminate |].
      injection H as <-. lia.
    + split; [| reflexivity]. intros _. right. exists t. split; [reflexivity | lia].
    + split; [discriminate |]. intros [H | (t' & H & L)]; [discriminate |].
      injection H as <-. lia.
    + split; [discriminate |]. intros [H | (t' & H & L)]; [discriminate |].
      injection H as <-. lia.
  - split; [| reflexivity]. intros _. left. reflexivity.
Qed.

Lemma analysis_filter_ill_typed (oneDayAgo : Z) :
  Mongo.well_typed (analysis_filter oneDayAgo) = false.
Proof. reflexivity. Qed.

Lemma selector_results (ly : Mongo.layer) (now : Z) (d : Mongo.Db)
  (l : list Case) :
  getCasesForAnalysis ly now d = Ok l ->
  l = Mongo.limit 20
        (List.filter (Mongo.matches (analysis_filter (now - 24 * 60 * 60 * 1000)))
           (Mongo.docs d))
  /\ ly = Mongo.Forwarding.
Proof.
  unfold getCasesForAnalysis. cbv zeta. intro H.
  destruct ly.
  - unfold Mongo.find in H. rewrite analysis_filter_ill_typed in H.
    discriminate.
  - destruct (Mongo.find _ _ d) as [r |] eqn:F; [| discriminate].
    apply find_ok in F. destruct F as [-> _]. injection H as <-.
    split; reflexivity.
Qed.

Lemma selected_matches (ly : Mongo.layer) (now : Z) (d : Mongo.Db) (c : Case) :
  selected c (getCasesForAnalysis ly now d) ->
  In c (Mongo.docs d)
  /\ Mongo.matches (analysis_filter (now - 24 * 60 * 60 * 1000)) c = true.
Proof.
  intros (l & H & Hin). apply selector_results in H. destruct H as [-> _].
  apply limit_incl in Hin. apply filter_In in Hin. exact Hin.
Qed.

(** C5 (as the code behaves at the failing input): the third alternative of
    the filter compares [lastAnalyzed] with the text "$updatedAt", not with
    the field.  A case in progress, analysed an hour ago and modified half
    an hour ago, is therefore not selected: the casting layer rejects the
    query with a CastError, and where the operand is forwarded a date is
    never below a string. *)
Theorem case_updated_since_analysis_not_selected :
  let now := 100 * msPerDay in
  let c := updated_since_analysis now in
  is_terminal (status c) = false
  /\ status c = in_progress
  /\ lastAnalyzed (aiAnalysis c) = Some (DateAt (now - 60 * 60 * 1000))
  /\ updatedAt c = Some (now - 30 * 60 * 1000)
  /\ now - 24 * 60 * 60 * 1000 < now - 60 * 60 * 1000 < now - 30 * 60 * 1000
  /\ getCasesForAnalysis Mongo.Casting now (sample_db [c]) = Err CastError
  /\ getCasesForAnalysis Mongo.Forwarding now (sample_db [c]) = Ok []
  /\ (forall ly, ~ selected c (getCasesForAnalysis ly now (sample_db [c]))).
Proof.
  cbv zeta. repeat split; try reflexivity.
  intros ly (l & H & Hin). destruct ly; vm_compute in H.
  - discriminate.
  - injection H as <-. contradiction.
Qed.

(** C6: a case whose [lastAnalyzed] is the current time is not selected,
    whatever its status and the rest of the store. *)
Theorem just_analysed_case_not_selected (ly : Mongo.layer) (now : Z)
  (d : Mongo.Db) (c : Case) :
  lastAnalyzed (aiAnalysis c) = Some (DateAt now) ->
  ~ selected c (getCasesForAnalysis ly now d).
Proof.
  intros Hl Hs. apply selected_matches in Hs. destruct Hs as [_ Hm].
  apply analysis_filter_matches in Hm.
  destruct Hm as [_ [Hn | (t & Ht & Hlt)]]; [congruence |].
  rewrite Hl in Ht. injection Ht as <-. lia.
Qed.

Lemma just_analysed_case_not_selected_witness :
  let c :=
    set_aiAnalysis (sample_case 1%nat)
      {| ai_complexityScore := n50;
         ai_urgencyFactors := [];
         ai_delayRiskFactors := [];
         ai_estimatedDuration := n30;
         ai_similarCasesCount := n0;
         ai_successProbability := n50;
         lastAnalyzed := Some (DateAt 5000) |} in
  ~ selected c (getCasesForAnalysis Mongo.Forwarding 5000 (sample_db [c])).
Proof.
  cbv zeta. apply just_analysed_case_not_selected. reflexivity.
Defined.

(** Through the casting layer the selector fails for every store and every
    time: the query is rejected before it is sent. *)
Theorem selector_rejected_by_casting_layer (now : Z) (d : Mongo.Db) :
  getCasesForAnalysis Mongo.Casting now d = Err CastError.
Proof.
  unfold getCasesForAnalysis, Mongo.find. cbv zeta.
  rewrite analysis_filter_ill_typed. reflexivity.
Qed.

(** Where the operand is forwarded and the store can be reached, the
    selector returns the first 20, in store order, of the cases that are not
    in a terminal status and were never analysed or were last analysed more
    than 24 hours ago; a case analysed within the last 24 hours is never
    among them, modified since or not. *)
Theorem selector_with_forwarding_layer (now : Z) (d : Mongo.Db) :
  Mongo.reachable d = true ->
  exists l,
    getCasesForAnalysis Mongo.Forwarding now d = Ok l
    /\ (List.length l <= 20)%nat
    /\ l = firstn 20
             (List.filter
                (fun c =>
                   negb (is_terminal (status c))
                   && match lastAnalyzed (aiAnalysis c) with
                      | None => true
                      | Some (DateAt t) => t <? now - 24 * 60 * 60 * 1000
                      | Some InvalidDate => false
                      end)
                (Mongo.docs d))
    /\ (forall c, In c l ->
        In c (Mongo.docs d)
        /\ is_terminal (status c) = false
        /\ (lastAnalyzed (aiAnalysis c) = None
            \/ exists t, lastAnalyzed (aiAnalysis c) = Some (DateAt t)
                         /\ t < now - 24 * 60 * 60 * 1000)).
Proof.
  intro Hr. eexists. split.
  { unfold getCasesForAnalysis, Mongo.find. cbv zeta. rewrite Hr.
    reflexivity. }
  split; [apply limit_length; lia |]. split.
  - unfold Mongo.limit. f_equal. apply filter_ext. intro c.
    destruct (Mongo.matches _ c) eqn:M.
    + apply analysis_filter_matches in M. destruct M as [-> M]. cbn [negb andb].
      destruct M as [-> | (t & -> & L)]; [reflexivity |].
      symmetry. apply Z.ltb_lt. exact L.
    + destruct (is_terminal (status c)) eqn:T; [reflexivity |]. cbn [negb andb].
      destruct (lastAnalyzed (aiAnalysis c)) as [[| t] |] eqn:La;
        try reflexivity.
      * destruct (Z.ltb_spec t (now - 24 * 60 * 60 * 1000)) as [L | L];
          [| reflexivity].
        exfalso. assert (X : Mongo.matches
                    (analysis_filter (now - 24 * 60 * 60 * 1000)) c = true).
        { apply analysis_filter_matches. split; [exact T |]. right.
          exists t. split; [exact La | exact L]. }
        congruence.
      * exfalso. assert (X : Mongo.matches
                    (analysis_filter (now - 24 * 60 * 60 * 1000)) c = true).
        { apply analysis_filter_matches. split; [exact T |]. left. exact La. }
        congruence.
  - intros c Hin. apply limit_incl in Hin. apply filter_In in Hin.
    destruct Hin as [Hin M]. apply analysis_filter_matches in M. tauto.
Qed.

Lemma selector_with_forwarding_layer_witness :
  exists l,
    getCasesForAnalysis Mongo.Forwarding 5000
      (sample_db [sample_case 1%nat; sample_case 2%nat]) = Ok l
    /\ (List.length l <= 20)%nat.
Proof.
  destruct (@selector_with_forwarding_layer 5000
              (sample_db [sample_case 1%nat; sample_case 2%nat]) eq_refl)
    as (l & H & L & _).
  exists l. split; assumption.
Defined.

(** ** The urgent-cases query *)

Lemma urgent_filter_matches (now : Z) (c : Case) :
  Mongo.matches (urgent_filter now) c = true <->
  is_terminal (status c) = false
  /\ (high_score c \/ long_delayed c \/ hearing_by now c).
Proof.
  unfold urgent_filter.
  change (Mongo.matches (Mongo.All ?l) c) with
    ((Mongo.num_leb (Num 80) (case_priorityScore c)
      || ((Bool.eqb (isDelayed (delayInfo c)) true
           && (Mongo.num_leb (Num 30)
                 (Num (inject_Z (delayDays (delayInfo c)))) && true))
          || (Mongo.bson_leb (Mongo.of_opt_date (hearingDate c))
                (Mongo.BDate (now + 7 * 24 * 60 * 60 * 1000))
              || false)))
     && (Mongo.matches not_terminal c && true)).
  rewrite status_not_terminal, !andb_true_r, orb_false_r, andb_true_iff,
    negb_true_iff, !orb_true_iff, andb_true_iff.
  unfold high_score, long_delayed, hearing_by.
  assert (D : Mongo.num_leb (Num 30) (Num (inject_Z (delayDays (delayInfo c))))
              = true <-> 30 <= delayDays (delayInfo c)).
  { unfold Mongo.num_leb, JS.le. change 30%Q with (inject_Z 30).
    rewrite Qle_bool_inject. apply Z.leb_le. }
  assert (B : Bool.eqb (isDelayed (delayInfo c)) true = true
              <-> isDelayed (delayInfo c) = true).
  { destruct (isDelayed (delayInfo c)); simpl; split; congruence. }
  assert (Hh : Mongo.bson_leb (Mongo.of_opt_date (hearingDate c))
                 (Mongo.BDate (now + 7 * 24 * 60 * 60 * 1000)) = true
               <-> exists h, hearingDate c = Some (DateAt h)
                             /\ h <= now + 7 * msPerDay).
  { change (7 * 24 * 60 * 60 * 1000) with (7 * msPerDay).
    destruct (hearingDate c) as [[| h] |]; simpl.
    - split; [discriminate | intros (h & X & _); discriminate].
    - rewrite Z.leb_le. split.
      + intro L. exists h. split; [reflexivity | exact L].
      + intros (h' & X & L). injection X as <-. exact L.
    - split; [discriminate | intros (h & X & _); discriminate]. }
  rewrite D, B, Hh. tauto.
Qed.

Lemma urgent_filter_well_typed (now : Z) :
  Mongo.well_typed (urgent_filter now) = true.
Proof. reflexivity. Qed.

Lemma urgent_results (ly : Mongo.layer) (now : Z) (limit : nat)
  (d : Mongo.Db) (l : list Case) :
  getUrgentCases ly now limit d = Ok l ->
  l = Mongo.limit limit
        (Mongo.sort_by by_score_desc
           (List.filter (Mongo.matches (urgent_filter now)) (Mongo.docs d))).
Proof.
  unfold getUrgentCases. intro H.
  destruct (Mongo.find ly _ d) as [r |] eqn:F; [| discriminate].
  apply find_ok in F. destruct F as [-> _]. injection H as <-. reflexivity.
Qed.

(** C9 (the claim fails): a case in court with priority score 10, not
    delayed, whose hearing was a hundred days ago is returned by the urgent
    query, although its score is below 80, it is not delayed and its hearing
    date is not within 7 days of now. *)
Lemma urgent_query_returns_long_past_hearing :
  let now := 1000 * msPerDay in
  let c := heard_long_ago now in
  (forall ly, getUrgentCases ly now 10 (sample_db [c]) = Ok [c])
  /\ selected c (getUrgentCases Mongo.Casting now 10 (sample_db [c]))
  /\ is_terminal (status c) = false
  /\ ~ high_score c
  /\ ~ long_delayed c
  /\ ~ hearing_within_7_days_of now c.
Proof.
  cbv zeta. split; [intros []; reflexivity |].
  split; [exists [heard_long_ago (1000 * msPerDay)]; split;
          [reflexivity | left; reflexivity] |].
  split; [reflexivity |]. split; [intro H; vm_compute in H; discriminate |].
  split; [intros [H _]; discriminate |].
  intros (h & Hh & L1 & L2). injection Hh as <-.
  vm_compute in L1. apply L1. reflexivity.
Qed.

(** C9 (amended): the urgent query returns only cases of the store that are
    not in a terminal status and have a priority score of at least 80, or
    are delayed with at least 30 delay days, or have a hearing date no later
    than 7 days after now (a hearing date in the past counts); and from a
    store holding a case with score 82 and an otherwise identical case with
    score 70, neither delayed by 30 days nor with a hearing date by then, it
    returns the first and not the second. *)
Theorem urgent_query_results (ly : Mongo.layer) (now : Z) (limit : nat)
  (d : Mongo.Db) :
  (forall c, selected c (getUrgentCases ly now limit d) ->
     In c (Mongo.docs d)
     /\ is_terminal (status c) = false
     /\ (high_score c \/ long_delayed c \/ hearing_by now c))
  /\ (forall c p,
      is_terminal (status c) = false ->
      case_priorityScore c = Num 82%Q ->
      ~ long_delayed c ->
      ~ hearing_by now c ->
      let c' := set_priority c (Num 70%Q) p in
      getUrgentCases ly now 10 (sample_db [c; c']) = Ok [c]
      /\ getUrgentCases ly now 10 (sample_db [c'; c]) = Ok [c]).
Proof.
  split.
  - intros c (l & H & Hin). apply urgent_results in H. subst l.
    apply limit_incl in Hin. apply sort_by_In in Hin.
    apply filter_In in Hin. destruct Hin as [Hin M].
    apply urgent_filter_matches in M. tauto.
  - intros c p T S82 Hd Hh. cbv zeta.
    assert (M : Mongo.matches (urgent_filter now) c = true).
    { apply urgent_filter_matches. split; [exact T |]. left.
      unfold high_score. rewrite S82. reflexivity. }
    assert (M' : Mongo.matches (urgent_filter now)
                   (set_priority c (Num 70) p) = false).
    { destruct (Mongo.matches _ (set_priority c (Num 70) p)) eqn:E;
        [| reflexivity].
      apply urgent_filter_matches in E. destruct E as [_ [E | [E | E]]].
      - vm_compute in E. discriminate.
      - exfalso. apply Hd. exact E.
      - exfalso. apply Hh. exact E. }
    unfold getUrgentCases.
    rewrite !find_well_typed by reflexivity.
    cbn [sample_db Mongo.docs List.filter]. rewrite M, M'.
    split; reflexivity.
Qed.

Lemma urgent_query_results_witness :
  let c := set_priority (sample_case 1%nat) (Num 82%Q) urgent in
  getUrgentCases Mongo.Casting 0 10
    (sample_db [c; set_priority c (Num 70%Q) high]) = Ok [c].
Proof.
  cbv zeta.
  assert (T : is_terminal
                (status (set_priority (sample_case 1%nat) (Num 82%Q) urgent))
              = false) by reflexivity.
  assert (D : ~ long_delayed
                (set_priority (sample_case 1%nat) (Num 82%Q) urgent)).
  { intros [H _]. discriminate. }
  assert (H : ~ hearing_by 0
                (set_priority (sample_case 1%nat) (Num 82%Q) urgent)).
  { intros (h & X & _). discriminate. }
  exact (proj1 (proj2 (urgent_query_results Mongo.Casting 0 10
                         (sample_db []))
                  (set_priority (sample_case 1%nat) (Num 82%Q) urgent)
                  high T eq_refl D H)).
Defined.

(** ** The Batch Orchestrator *)

Lemma dispatched_app (a b : list Event) :
  dispatched (a ++ b) = dispatched a ++ dispatched b.
Proof.
  induction a as [| e r IH]; [reflexivity |].
  destruct e; simpl; rewrite IH; reflexivity.
Qed.

Lemma waits_app (a b : list Event) : waits (a ++ b) = waits a ++ waits b.
Proof.
  induction a as [| e r IH]; [reflexivity |].
  destruct e; simpl; rewrite IH; reflexivity.
Qed.

Lemma attempted_app (a b : list Event) :
  attempted (a ++ b) = attempted a ++ attempted b.
Proof.
  induction a as [| e r IH]; [reflexivity |].
  destruct e; simpl; rewrite IH; reflexivity.
Qed.

Lemma settled_cases_app (a b : list Event) :
  settled_cases (a ++ b) = settled_cases a ++ settled_cases b.
Proof.
  induction a as [| e r IH]; [reflexivity |].
  destruct e; simpl; rewrite IH; reflexivity.
Qed.

Lemma marks_app (a b : list Event) : marks (a ++ b) = marks a ++ marks b.
Proof.
  induction a as [| e r IH]; [reflexivity |].
  destruct e; simpl; rewrite IH; reflexivity.
Qed.

Lemma analysis_events_app (n1 n2 : list (option string)) (e1 e2 : list Event) :
  analysis_events n1 e1 -> analysis_events n2 e2 ->
  analysis_events (n1 ++ n2) (e1 ++ e2).
Proof.
  intros [A1 A2 A3 A4 A5] [B1 B2 B3 B4 B5]. constructor.
  - rewrite dispatched_app, A1, B1. reflexivity.
  - rewrite waits_app, A2, B2. reflexivity.
  - rewrite marks_app, A3, B3. reflexivity.
  - rewrite attempted_app, A4, B4. reflexivity.
  - rewrite settled_cases_app, A5, B5. reflexivity.
Qed.

(** One analysis logs its start and one outcome, and leaves the clock. *)
Lemma analyzeSingleCase_events (env : Env) (caseDoc : Case) (w : World) :
  exists evs,
    trace (analyzeSingleCase env caseDoc w) = trace w ++ evs
    /\ analysis_events [caseNumber caseDoc] evs
    /\ clock (analyzeSingleCase env caseDoc w) = clock w.
Proof.
  unfold analyzeSingleCase. cbv zeta.
  destruct (getAIAnalysis env _) as [aiResponse |].
  - destruct (updateCaseWithAIAnalysis _ _ _ _ _) as [[d' c'] | e].
    + exists [LogAnalyzing (caseNumber caseDoc);
              LogAnalyzed (caseNumber caseDoc)
                (priorityScore (parseContent env aiResponse))].
      split; [| split; [constructor; reflexivity | reflexivity]].
      cbn [emit with_db trace]. rewrite <- app_assoc. reflexivity.
    + exists [LogAnalyzing (caseNumber caseDoc);
              LogCaseError (caseNumber caseDoc) (PersistenceFailed e)].
      split; [| split; [constructor; reflexivity | reflexivity]].
      cbn [emit trace]. rewrite <- app_assoc. reflexivity.
  - exists [LogAnalyzing (caseNumber caseDoc);
            LogCaseError (caseNumber caseDoc) ScoringCallFailed].
    split; [| split; [constructor; reflexivity | reflexivity]].
    cbn [emit trace]. rewrite <- app_assoc. reflexivity.
Qed.

Lemma analyses_events (env : Env) (cases : list Case) (w : World) :
  exists evs,
    trace (fold_left (fun w' c => analyzeSingleCase env c w') cases w)
    = trace w ++ evs
    /\ analysis_events (map (@caseNumber) cases) evs
    /\ clock (fold_left (fun w' c => analyzeSingleCase env c w') cases w)
       = clock w.
Proof.
  revert w. induction cases as [| c r IH]; intro w; cbn [fold_left map].
  - exists []. split; [symmetry; apply app_nil_r |].
    split; [constructor; reflexivity | reflexivity].
  - destruct (analyzeSingleCase_events env c w) as (e1 & T1 & A1 & C1).
    destruct (IH (analyzeSingleCase env c w)) as (e2 & T2 & A2 & C2).
    exists (e1 ++ e2). split; [| split].
    + rewrite T2, T1, app_assoc. reflexivity.
    + apply (analysis_events_app A1 A2).
    + rewrite C2, C1. reflexivity.
Qed.

(** A batch: the call, then the analyses of its cases. *)
Lemma processCaseBatch_events (env : Env) (batch : list Case) (w : World) :
  exists evs,
    trace (processCaseBatch env batch w)
    = trace w ++ CallProcessCaseBatch batch :: evs
    /\ analysis_events (map (@caseNumber) batch) evs
    /\ clock (processCaseBatch env batch w) = clock w.
Proof.
  unfold processCaseBatch.
  destruct (analyses_events env batch (emit (CallProcessCaseBatch batch) w))
    as (evs & T & A & C).
  exists evs. split; [| split; [exact A | exact C]].
  rewrite T. cbn [emit trace]. rewrite <- app_assoc. reflexivity.
Qed.

Lemma slice_firstn (l : list Case) (i : nat) :
  slice l i (i + batchSize) = firstn batchSize (skipn i l).
Proof. unfold slice. f_equal. lia. Qed.

Lemma skipn_add (l : list Case) (i k : nat) :
  skipn (i + k) l = skipn k (skipn i l).
Proof. rewrite Nat.add_comm. symmetry. apply skipn_skipn. Qed.

Lemma alternating_S (k : nat) :
  (0 < k)%nat -> alternating (S k) = MBatch :: MWait :: alternating k.
Proof. destruct k; [lia | reflexivity]. Qed.

(** The events of the loop from index [i] on. *)
Lemma batch_loop_events (env : Env) (cases : list Case) (i : nat) (w : World) :
  exists evs,
    trace (batch_loop env cases i w) = trace w ++ evs
    /\ List.length (dispatched evs) = ((List.length cases - i + 4) / 5)%nat
    /\ List.concat (dispatched evs) = skipn i cases
    /\ Forall (fun b => (1 <= List.length b <= 5)%nat) (dispatched evs)
    /\ marks evs = alternating (List.length (dispatched evs))
    /\ waits evs = repeat 2000 (List.length (dispatched evs) - 1)
    /\ attempted evs = map (@caseNumber) (skipn i cases)
    /\ settled_cases evs = map (@caseNumber) (skipn i cases)
    /\ clock (batch_loop env cases i w)
       = clock w + 2000 * Z.of_nat (List.length (dispatched evs) - 1).
Proof.
  funelim (batch_loop env cases i w).
  - (* the next batch *)
    rename casesToAnalyze into cases.
    destruct (processCaseBatch_events env (slice cases i (i + batchSize)) w)
      as (e1 & T1 & [A1 A2 A3 A4 A5] & C1).
    destruct H as (evs2 & T2 & L2 & D2 & F2 & M2 & W2 & At2 & S2 & C2).
    rewrite slice_firstn in *.
    set (rest := skipn i cases) in *.
    assert (Hrest : List.length rest = (List.length cases - i)%nat)
      by (unfold rest; apply length_skipn).
    assert (Hsplit : rest = firstn batchSize rest
                            ++ skipn (i + batchSize) cases).
    { rewrite skipn_add. fold rest. symmetry. apply firstn_skipn. }
    assert (Hlen : List.length (firstn batchSize rest)
                   = Nat.min batchSize (List.length rest))
      by apply length_firstn.
    unfold batchSize in *.
    destruct (Nat.ltb_spec (i + 5) (List.length cases)) as [More | Last].
    + exists (CallProcessCaseBatch (firstn 5 rest)
              :: e1 ++ Wait 2000 :: evs2).
      assert (K : (0 < List.length (dispatched evs2))%nat).
      { rewrite L2. apply Nat.div_str_pos. lia. }
      cbn [dispatched marks waits attempted settled_cases].
      rewrite dispatched_app, marks_app, waits_app, attempted_app,
        settled_cases_app, A1, A2, A3, A4, A5.
      cbn [dispatched marks waits attempted settled_cases app List.length
           List.concat].
      split.
      { rewrite T2. cbn [delay trace]. rewrite T1.
        rewrite <- !app_assoc. reflexivity. }
      split.
      { rewrite L2.
        replace (List.length cases - i + 4)%nat
          with (List.length cases - (i + 5) + 4 + 1 * 5)%nat by lia.
        rewrite Nat.div_add by lia. lia. }
      split; [rewrite D2; symmetry; exact Hsplit |].
      split; [constructor; [rewrite Hlen; lia | exact F2] |].
      split; [rewrite M2; symmetry; apply alternating_S; exact K |].
      split.
      { rewrite W2. destruct (List.length (dispatched evs2)); [lia |].
        cbn. rewrite Nat.sub_0_r. reflexivity. }
      split; [rewrite At2, <- map_app; f_equal; symmetry; exact Hsplit |].
      split; [rewrite S2, <- map_app; f_equal; symmetry; exact Hsplit |].
      rewrite C2. cbn [delay clock]. rewrite C1. lia.
    + exists (CallProcessCaseBatch (firstn 5 rest) :: e1 ++ evs2).
      assert (K : List.length (dispatched evs2) = 0%nat).
      { rewrite L2. apply Nat.div_small. lia. }
      assert (Hnil : skipn (i + 5) cases = []).
      { apply skipn_all2. lia. }
      destruct (dispatched evs2) eqn:Dv; [| discriminate].
      cbn [dispatched marks waits attempted settled_cases].
      rewrite dispatched_app, marks_app, waits_app, attempted_app,
        settled_cases_app, A1, A2, A3, A4, A5, Dv.
      cbn [dispatched marks waits attempted settled_cases app List.length
           List.concat] in *.
      rewrite Hnil in *. rewrite app_nil_r in Hsplit.
      split.
      { rewrite T2, T1. rewrite <- !app_assoc. reflexivity. }
      split.
      { symmetry. replace (List.length cases - i + 4)%nat
          with ((List.length cases - i - 1) + 1 * 5)%nat by lia.
        rewrite Nat.div_add by lia. rewrite Nat.div_small by lia.
        reflexivity. }
      split; [rewrite app_nil_r; symmetry; exact Hsplit |].
      split; [constructor; [rewrite Hlen; lia | constructor] |].
      split; [rewrite M2; reflexivity |].
      split; [rewrite W2; reflexivity |].
      split; [rewrite At2, app_nil_r; f_equal; symmetry; exact Hsplit |].
      split; [rewrite S2, app_nil_r; f_equal; symmetry; exact Hsplit |].
      rewrite C2, C1. cbn. lia.
  - (* the loop is over *)
    rename casesToAnalyze into cases.
    exists []. rewrite app_nil_r.
    assert (Hnil : skipn i cases = []) by (apply skipn_all2; lia).
    rewrite Hnil. cbn.
    replace (List.length cases - i + 4)%nat with 4%nat by lia.
    repeat split; try reflexivity; try constructor. lia.
Qed.

(** C7: for every list of cases, every store and every behaviour of the
    scoring call and of the store, the loop hands the cases to
    [processCaseBatch] in ceiling(n/5) batches of at least one and at most
    five cases, in list order; it waits 2000 ms between two batches and not
    after the last; the analysis of every case is started once and ends
    once, by success or by a caught failure; so 7 cases make 2 batches with
    one wait between them. *)
Theorem batches_of_five_with_waits_between (env : Env) (cases : list Case)
  (w : World) :
  exists evs,
    trace (batch_loop env cases 0 w) = trace w ++ evs
    /\ List.length (dispatched evs) = ((List.length cases + 4) / 5)%nat
    /\ List.concat (dispatched evs) = cases
    /\ Forall (fun b => (1 <= List.length b <= 5)%nat) (dispatched evs)
    /\ marks evs = alternating (List.length (dispatched evs))
    /\ waits evs = repeat 2000 (List.length (dispatched evs) - 1)
    /\ attempted evs = map (@caseNumber) cases
    /\ settled_cases evs = map (@caseNumber) cases
    /\ (List.length cases = 7%nat ->
        List.length (dispatched evs) = 2%nat
        /\ marks evs = [MBatch; MWait; MBatch]
        /\ waits evs = [2000]).
Proof.
  destruct (batch_loop_events env cases 0 w)
    as (evs & T & L & D & F & M & W & A & S & _).
  rewrite Nat.sub_0_r in L. cbn [skipn] in D, A, S.
  exists evs. repeat split; try assumption.
  - rewrite L, H. reflexivity.
  - rewrite M, L, H. reflexivity.
  - rewrite W, L, H. reflexivity.
Qed.

Lemma batches_of_five_with_waits_between_witness :
  exists evs,
    trace (batch_loop (sample_env Mongo.Forwarding)
             (map sample_case (seq 0 7)) 0
             (sample_world (map sample_case (seq 0 7)) 0)) = evs
    /\ List.length (dispatched evs) = 2%nat
    /\ waits evs = [2000].
Proof.
  destruct (batches_of_five_with_waits_between
              (sample_env Mongo.Forwarding) (map sample_case (seq 0 7))
              (sample_world (map sample_case (seq 0 7)) 0))
    as (evs & T & _ & _ & _ & _ & _ & _ & _ & H).
  destruct (H eq_refl) as (L & _ & W).
  exists evs. split; [exact T |]. split; assumption.
Defined.

(** ** The hourly run *)

Lemma run_skipped (env : Env) (s : Scheduler) (w : World) :
  isProcessing s = true ->
  runSchedulerAnalysis env s w = (s, emit LogSkipping w).
Proof. unfold runSchedulerAnalysis. intros ->. reflexivity. Qed.

Lemma run_releases (env : Env) (s : Scheduler) (w : World) :
  isProcessing s = false ->
  isProcessing (fst (runSchedulerAnalysis env s w)) = false.
Proof.
  unfold runSchedulerAnalysis. intros ->. cbv zeta.
  destruct (getCasesForAnalysis _ _ _) as [l |]; [| reflexivity].
  destruct (List.length l =? 0)%nat; reflexivity.
Qed.

Lemma run_completed (env : Env) (s : Scheduler) (w : World) :
  lastRunTime (fst (runSchedulerAnalysis env s w)) <> lastRunTime s ->
  isProcessing s = false
  /\ exists cases evs,
       getCasesForAnalysis (store_layer env) (clock w) (db w) = Ok cases
       /\ cases <> []
       /\ trace (snd (runSchedulerAnalysis env s w))
          = trace w
            ++ [LogRunning; LogAnalyzingCount (List.length cases)]
            ++ evs ++ [LogCompleted]
       /\ List.concat (dispatched evs) = cases
       /\ List.length (dispatched evs) = ((List.length cases + 4) / 5)%nat.
Proof.
  unfold runSchedulerAnalysis. intro H.
  destruct (isProcessing s) eqn:P; [cbn in H; congruence |].
  split; [reflexivity |]. cbv zeta in *.
  cbn [emit clock db] in *.
  destruct (getCasesForAnalysis _ _ _) as [l |]; [| cbn in H; congruence].
  destruct (List.length l =? 0)%nat eqn:E; [cbn in H; congruence |].
  apply Nat.eqb_neq in E.
  destruct (batch_loop_events env l 0
              (emit (LogAnalyzingCount (List.length l)) (emit LogRunning w)))
    as (evs & T & L & D & _).
  rewrite Nat.sub_0_r in L. cbn [skipn] in D.
  exists l, evs. split; [reflexivity |].
  split; [intros ->; apply E; reflexivity |].
  split; [| split; assumption].
  cbn [snd emit trace]. rewrite T. cbn [emit trace].
  rewrite <- !app_assoc. reflexivity.
Qed.

Lemma step_keeps_one_run (c : Config) (inp : Input) :
  one_run_at_most c -> one_run_at_most (step c inp).
Proof.
  intros [[P (x & Hx)] | [P Hn]]; destruct inp as [| k sel now];
    unfold step; rewrite ?P.
  - left. split; [exact P | exists x; exact Hx].
  - rewrite Hx. destruct k as [| k].
    + cbn [nth_error]. destruct x as [| cs i | cs i].
      * destruct sel as [cs | e].
        -- destruct (List.length cs =? 0)%nat.
           ++ right. split; reflexivity.
           ++ unfold enter_loop. rewrite Hx.
              destruct (0 <? List.length cs)%nat.
              ** left. split; [exact P | eexists; reflexivity].
              ** right. split; reflexivity.
        -- right. split; reflexivity.
      * destruct (i + batchSize <? List.length cs)%nat.
        -- left. split; [exact P | eexists; reflexivity].
        -- unfold enter_loop. rewrite Hx.
           destruct (i + batchSize <? List.length cs)%nat.
           ++ left. split; [exact P | eexists; reflexivity].
           ++ right. split; reflexivity.
      * unfold enter_loop. rewrite Hx.
        destruct (i + batchSize <? List.length cs)%nat.
        -- left. split; [exact P | eexists; reflexivity].
        -- right. split; reflexivity.
    + cbn [nth_error]. destruct k; cbn [nth_error];
        left; (split; [exact P | exists x; exact Hx]).
  - left. split; [reflexivity |]. rewrite Hn. eexists. reflexivity.
  - rewrite Hn. destruct k; cbn [nth_error];
      right; (split; [exact P | exact Hn]).
Qed.

Lemma reachable_one_run (inputs : list Input) (c : Config) :
  one_run_at_most c -> one_run_at_most (run_inputs c inputs).
Proof.
  revert c. induction inputs as [| inp r IH]; intros c H; cbn.
  - exact H.
  - apply IH, step_keeps_one_run, H.
Qed.

(** C8: a call of the hourly run while the flag is set does nothing but
    log: no selection, no batch, flag and last run time untouched; a call
    that finds the flag clear leaves it clear when it ends, whether the
    selection failed, found nothing or all batches were processed; the last
    run time changes only when the selection gave cases and all of them
    went through the loop; and however timer ticks and settlements
    interleave, never more than one call is suspended, the flag is set
    exactly while one is, and a tick in that state changes nothing. *)
Theorem hourly_run_state_machine (env : Env) (s : Scheduler) (w : World)
  (inputs : list Input) :
  (isProcessing s = true ->
   runSchedulerAnalysis env s w = (s, emit LogSkipping w))
  /\ (isProcessing s = false ->
      isProcessing (fst (runSchedulerAnalysis env s w)) = false)
  /\ (forall e,
      isProcessing s = false ->
      getCasesForAnalysis (store_layer env) (clock w) (db w) = Err e ->
      fst (runSchedulerAnalysis env s w)
      = {| isProcessing := false; lastRunTime := lastRunTime s |})
  /\ (lastRunTime (fst (runSchedulerAnalysis env s w)) <> lastRunTime s ->
      exists cases evs,
        getCasesForAnalysis (store_layer env) (clock w) (db w) = Ok cases
        /\ cases <> []
        /\ trace (snd (runSchedulerAnalysis env s w))
           = trace w
             ++ [LogRunning; LogAnalyzingCount (List.length cases)]
             ++ evs ++ [LogCompleted]
        /\ List.concat (dispatched evs) = cases
        /\ List.length (dispatched evs)
           = ((List.length cases + 4) / 5)%nat)
  /\ (let c := run_inputs idle inputs in
      (List.length (calls c) <= 1)%nat
      /\ (isProcessing (scheduler c) = true <->
          List.length (calls c) = 1%nat)
      /\ (isProcessing (scheduler c) = true -> step c Trigger = c)).
Proof.
  split; [apply run_skipped |]. split; [apply run_releases |].
  split.
  { intros e P E. unfold runSchedulerAnalysis. rewrite P. cbv zeta.
    cbn [emit clock db]. rewrite E. reflexivity. }
  split; [intro H; apply run_completed in H; tauto |].
  cbv zeta.
  assert (I : one_run_at_most (run_inputs idle inputs)).
  { apply reachable_one_run. right. split; reflexivity. }
  destruct I as [[P (x & Hx)] | [P Hn]].
  - rewrite Hx, P. cbn. repeat split; try lia.
    unfold step. rewrite P. reflexivity.
  - rewrite Hn, P. cbn. repeat split; try lia; try discriminate.
Qed.

Lemma hourly_run_state_machine_witness :
  runSchedulerAnalysis (sample_env Mongo.Casting)
    {| isProcessing := true; lastRunTime := None |}
    (sample_world [sample_case 1%nat] 0)
  = ({| isProcessing := true; lastRunTime := None |},
     emit LogSkipping (sample_world [sample_case 1%nat] 0))
  /\ isProcessing
       (fst (runSchedulerAnalysis (sample_env Mongo.Casting)
               {| isProcessing := false; lastRunTime := None |}
               (sample_world [sample_case 1%nat] 0))) = false.
Proof.
  split.
  - exact (proj1 (hourly_run_state_machine (sample_env Mongo.Casting)
                    {| isProcessing := true; lastRunTime := None |}
                    (sample_world [sample_case 1%nat] 0) []) eq_refl).
  - exact (proj1 (proj2 (hourly_run_state_machine (sample_env Mongo.Casting)
                    {| isProcessing := false; lastRunTime := None |}
                    (sample_world [sample_case 1%nat] 0) [])) eq_refl).
Defined.

(** ** Sorted results *)

Section Sorting.

Variable leb : Case -> Case -> bool.
Hypothesis leb_total : forall a b, leb a b = true \/ leb b a = true.
Hypothesis leb_trans :
  forall a b c, leb a b = true -> leb b c = true -> leb a c = true.

Let before (a b : Case) : Prop := leb a b = true.

Lemma insert_by_sorted (x : Case) (l : list Case) :
  StronglySorted before l -> StronglySorted before (Mongo.insert_by leb x l).
Proof.
  induction l as [| y r IH]; intro S; simpl.
  - constructor; constructor.
  - inversion S as [| y' r' Sr Fy]; subst.
    destruct (leb x y) eqn:E.
    + constructor; [exact S |]. constructor; [exact E |].
      eapply Forall_impl; [| exact Fy].
      intros z Hz. unfold before in *. eapply leb_trans; eassumption.
    + constructor; [apply IH, Sr |].
      assert (Hyx : before y x).
      { destruct (leb_total x y) as [H | H]; [congruence | exact H]. }
      eapply Permutation_Forall;
        [apply Permutation_sym, insert_by_perm |].
      constructor; assumption.
Qed.

Lemma sort_by_sorted (l : list Case) :
  StronglySorted before (Mongo.sort_by leb l).
Proof.
  induction l as [| x r IH]; simpl.
  - constructor.
  - apply insert_by_sorted, IH.
Qed.

Lemma firstn_sorted (n : nat) (l : list Case) :
  StronglySorted before l -> StronglySorted before (firstn n l).
Proof.
  revert n. induction l as [| x r IH]; intros n S.
  - rewrite firstn_nil. constructor.
  - destruct n; [constructor |]. cbn [firstn].
    inversion S as [| x' r' Sr Fx]; subst.
    constructor; [apply IH, Sr |].
    apply Forall_forall. intros z Hz.
    rewrite Forall_forall in Fx. apply Fx.
    rewrite <- (firstn_skipn n r). apply in_or_app. left. exact Hz.
Qed.

Lemma limit_sorted (n : nat) (l : list Case) :
  StronglySorted before l -> StronglySorted before (Mongo.limit n l).
Proof.
  destruct n; [tauto |]. apply firstn_sorted.
Qed.

End Sorting.

Lemma num_leb_total (a b : number) :
  Mongo.num_leb a b = true \/ Mongo.num_leb b a = true.
Proof.
  destruct a as [| p | |], b as [| q | |]; cbn; auto.
  destruct (Qle_bool p q) eqn:E; [auto |].
  right. apply Qle_bool_iff. apply Qle_bool_false in E. lra.
Qed.

Lemma num_leb_trans (a b c : number) :
  Mongo.num_leb a b = true -> Mongo.num_leb b c = true ->
  Mongo.num_leb a c = true.
Proof.
  destruct a as [| p | |], b as [| q | |], c as [| r | |]; cbn;
    try discriminate; auto.
  intros H1 H2. apply Qle_bool_iff in H1, H2. apply Qle_bool_iff. lra.
Qed.

Lemma by_score_desc_total (a b : Case) :
  by_score_desc a b = true \/ by_score_desc b a = true.
Proof. unfold by_score_desc. apply num_leb_total. Qed.

Lemma by_score_desc_trans (a b c : Case) :
  by_score_desc a b = true -> by_score_desc b c = true ->
  by_score_desc a c = true.
Proof.
  unfold by_score_desc. intros H1 H2. eapply num_leb_trans; eassumption.
Qed.

(** The urgent query gives at most [limit] cases (a limit of 0 is none),
    highest score first, each of them in the store; when no more than
    [limit] cases qualify it gives all of them. *)
Theorem urgent_query_sorted_and_limited (ly : Mongo.layer) (now : Z)
  (limit : nat) (d : Mongo.Db) (l : list Case) :
  getUrgentCases ly now limit d = Ok l ->
  StronglySorted
    (fun a b =>
       Mongo.num_leb (case_priorityScore b) (case_priorityScore a) = true) l
  /\ ((0 < limit)%nat -> (List.length l <= limit)%nat)
  /\ ((limit = 0
       \/ List.length (List.filter (Mongo.matches (urgent_filter now))
                         (Mongo.docs d)) <= limit)%nat ->
      Permutation l
        (List.filter (Mongo.matches (urgent_filter now)) (Mongo.docs d))).
Proof.
  intro H. apply urgent_results in H. subst l. split; [| split].
  - apply (@limit_sorted by_score_desc).
    apply sort_by_sorted; [apply by_score_desc_total | apply by_score_desc_trans].
  - apply limit_length.
  - intro Hl. rewrite limit_all; [apply sort_by_perm |].
    destruct Hl as [-> | Hl]; [left; reflexivity | right].
    rewrite (Permutation_length (sort_by_perm by_score_desc _)). exact Hl.
Qed.

Lemma urgent_query_sorted_and_limited_witness :
  exists l,
    getUrgentCases Mongo.Casting 0 10
      (sample_db [set_priority (sample_case 1%nat) (Num 82%Q) urgent;
                  set_priority (sample_case 2%nat) (Num 95%Q) critical]) = Ok l
    /\ (List.length l <= 10)%nat.
Proof.
  eexists. split; [reflexivity |].
  refine (proj1 (proj2 (@urgent_query_sorted_and_limited Mongo.Casting 0 10
            (sample_db [set_priority (sample_case 1%nat) (Num 82%Q) urgent;
                        set_priority (sample_case 2%nat) (Num 95%Q) critical])
            _ eq_refl)) _).
  lia.
Defined.

Lemma hearing_leb_total (a b : option Date) :
  hearing_leb a b = true \/ hearing_leb b a = true.
Proof.
  unfold hearing_leb.
  destruct a as [[| x] |], b as [[| y] |]; cbn; auto.
  destruct (Z.leb_spec x y); [auto |]. right. apply Z.leb_le. lia.
Qed.

Lemma hearing_leb_trans (a b c : option Date) :
  hearing_leb a b = true -> hearing_leb b c = true -> hearing_leb a c = true.
Proof.
  unfold hearing_leb.
  destruct a as [[| x] |], b as [[| y] |], c as [[| z] |]; cbn;
    try discriminate; auto.
  intros H1 H2. apply Z.leb_le in H1, H2. apply Z.leb_le. lia.
Qed.

Lemma by_score_then_hearing_total (a b : Case) :
  by_score_then_hearing a b = true \/ by_score_then_hearing b a = true.
Proof.
  unfold by_score_then_hearing.
  destruct (by_score_desc a b) eqn:E1; destruct (by_score_desc b a) eqn:E2;
    cbn [negb]; auto.
  - apply hearing_leb_total.
  - destruct (by_score_desc_total a b); congruence.
Qed.

Lemma by_score_then_hearing_trans (a b c : Case) :
  by_score_then_hearing a b = true -> by_score_then_hearing b c = true ->
  by_score_then_hearing a c = true.
Proof.
  unfold by_score_then_hearing.
  destruct (by_score_desc a b) eqn:Eab; cbn [negb]; [| discriminate].
  destruct (by_score_desc b c) eqn:Ebc; cbn [negb]; [| intros; discriminate].
  assert (Eac : by_score_desc a c = true)
    by (eapply by_score_desc_trans; eassumption).
  rewrite Eac. cbn [negb].
  destruct (by_score_desc b a) eqn:Eba; destruct (by_score_desc c b) eqn:Ecb;
    destruct (by_score_desc c a) eqn:Eca; cbn [negb]; intros H1 H2;
    first
      [ reflexivity
      | eapply hearing_leb_trans; eassumption
      | exfalso;
        assert (by_score_desc c a = true)
          by (apply (@by_score_desc_trans c b a); assumption); congruence
      | exfalso;
        assert (by_score_desc c b = true)
          by (apply (@by_score_desc_trans c a b); assumption); congruence
      | exfalso;
        assert (by_score_desc b a = true)
          by (apply (@by_score_desc_trans b c a); assumption); congruence ].
Qed.

(** ** The queries for a lawyer and the statics of the model *)

Lemma lawyer_filter_matches (lawyerId : ObjectId) (c : Case) :
  Mongo.matches (lawyer_filter lawyerId) c = true <->
  (exists l, assignedLawyer c = Some l /\ lawyer_id l = lawyerId)
  /\ is_terminal (status c) = false.
Proof.
  unfold lawyer_filter.
  change (Mongo.matches (Mongo.All ?fs) c) with
    (Mongo.bson_eqb
       (Mongo.value_or_null
          (match assignedLawyer c with
           | Some l => Some (Mongo.BId (lawyer_id l))
           | None => Some Mongo.BNull
           end)) (Mongo.BId lawyerId)
     && (Mongo.matches not_terminal c && true)).
  rewrite status_not_terminal, andb_true_r, andb_true_iff, negb_true_iff.
  destruct (assignedLawyer c) as [l |]; cbn.
  - rewrite Nat.eqb_eq. split.
    + intros [H T]. split; [exists l; auto | exact T].
    + intros [(l' & X & Y) T]. injection X as <-. auto.
  - split; [intros [H _]; discriminate |].
    intros [(l' & X & _) _]. discriminate.
Qed.

Lemma by_score_then_hearing_reads (a b : Case) :
  by_score_then_hearing a b = true ->
  Mongo.num_leb (case_priorityScore b) (case_priorityScore a) = true
  /\ (Mongo.num_leb (case_priorityScore a) (case_priorityScore b) = true ->
      hearing_leb (hearingDate a) (hearingDate b) = true).
Proof.
  unfold by_score_then_hearing, by_score_desc.
  destruct (Mongo.num_leb (case_priorityScore b) (case_priorityScore a));
    cbn [negb]; [| discriminate].
  destruct (Mongo.num_leb (case_priorityScore a) (case_priorityScore b));
    cbn [negb]; intro H; split; auto; discriminate.
Qed.

Lemma strongly_sorted_impl (R R' : Case -> Case -> Prop) (l : list Case) :
  (forall a b, R a b -> R' a b) ->
  StronglySorted R l -> StronglySorted R' l.
Proof.
  intros HR S. induction S as [| a l S IH F]; constructor.
  - exact IH.
  - eapply Forall_impl; [| exact F]. intros b. apply HR.
Qed.

(** The cases of a lawyer: only non-terminal cases of the store assigned to
    this lawyer, at most [limit] of them (a limit of 0 is none), higher
    score before lower and, at equal score, earlier hearing before later,
    with the cases without a hearing date first; all of them when no more
    than [limit] qualify. *)
Theorem prioritized_cases_of_lawyer (ly : Mongo.layer) (lawyerId : ObjectId)
  (limit : nat) (d : Mongo.Db) (l : list Case) :
  getPrioritizedCasesForLawyer ly lawyerId limit d = Ok l ->
  (forall c, In c l ->
     In c (Mongo.docs d)
     /\ (exists who, assignedLawyer c = Some who /\ lawyer_id who = lawyerId)
     /\ is_terminal (status c) = false)
  /\ StronglySorted
       (fun a b =>
          Mongo.num_leb (case_priorityScore b) (case_priorityScore a) = true
          /\ (Mongo.num_leb (case_priorityScore a) (case_priorityScore b)
              = true ->
              hearing_leb (hearingDate a) (hearingDate b) = true)) l
  /\ ((0 < limit)%nat -> (List.length l <= limit)%nat)
  /\ ((limit = 0
       \/ List.length (List.filter (Mongo.matches (lawyer_filter lawyerId))
                         (Mongo.docs d)) <= limit)%nat ->
      Permutation l
        (List.filter (Mongo.matches (lawyer_filter lawyerId))
           (Mongo.docs d))).
Proof.
  unfold getPrioritizedCasesForLawyer. intro H.
  destruct (Mongo.find ly _ d) as [r |] eqn:F; [| discriminate].
  apply find_ok in F. destruct F as [-> _]. injection H as <-.
  split; [| split; [| split]].
  - intros c Hin. apply limit_incl in Hin. apply sort_by_In in Hin.
    apply filter_In in Hin. destruct Hin as [Hin M].
    apply lawyer_filter_matches in M. tauto.
  - apply (@strongly_sorted_impl
             (fun a b => by_score_then_hearing a b = true)).
    + intros a b Hab. apply by_score_then_hearing_reads. exact Hab.
    + apply (@limit_sorted by_score_then_hearing).
      apply sort_by_sorted;
        [apply by_score_then_hearing_total | apply by_score_then_hearing_trans].
  - apply limit_length.
  - intro Hl. rewrite limit_all; [apply sort_by_perm |].
    destruct Hl as [-> | Hl]; [left; reflexivity | right].
    rewrite (Permutation_length (sort_by_perm by_score_then_hearing _)).
    exact Hl.
Qed.

Lemma prioritized_cases_of_lawyer_witness :
  let l := [sample_assigned 6%nat 3%nat 90%Q assigned None;
            sample_assigned 3%nat 3%nat 90%Q awaiting_hearing (Some 100);
            sample_assigned 2%nat 3%nat 90%Q in_progress (Some 300);
            sample_assigned 1%nat 3%nat 60%Q in_progress (Some 500)] in
  getPrioritizedCasesForLawyer Mongo.Casting 3%nat 20
    (sample_db sample_docket) = Ok l
  /\ (forall c, In c l ->
        In c sample_docket
        /\ (exists who, assignedLawyer c = Some who /\ lawyer_id who = 3%nat)
        /\ is_terminal (status c) = false)
  /\ (List.length l <= 20)%nat
  /\ Permutation l
       (List.filter (Mongo.matches (lawyer_filter 3%nat)) sample_docket).
Proof.
  cbv zeta.
  assert (L : (0 < 20)%nat) by lia.
  assert (F : (20 = 0
               \/ List.length
                    (List.filter (Mongo.matches (lawyer_filter 3%nat))
                       (Mongo.docs (sample_db sample_docket))) <= 20)%nat).
  { right. vm_compute. lia. }
  destruct (@prioritized_cases_of_lawyer Mongo.Casting 3%nat 20
              (sample_db sample_docket) _ eq_refl) as (H1 & _ & H3 & H4).
  split; [reflexivity |]. split; [exact H1 |].
  split; [exact (H3 L) | exact (H4 F)].
Defined.

(** ** More on the delay information *)

Lemma completion_days_mono (now now' : Z) (c : Case) :
  now <= now' -> completion_days now c <= completion_days now' c.
Proof.
  intro H. unfold completion_days.
  destruct (expectedCompletionDate c) as [[| t] |]; try lia.
  destruct (Z.ltb_spec t now); destruct (Z.ltb_spec t now'); try lia.
  - apply Z.div_le_mono; [apply msPerDay_pos | lia].
  - apply days_nonneg. lia.
Qed.

Lemma hearing_days_mono (now now' : Z) (c : Case) :
  now <= now' -> hearing_days now c <= hearing_days now' c.
Proof.
  intro H. unfold hearing_days.
  destruct (hearingDate c) as [[| t] |]; try lia;
    destruct (status c); try lia.
  destruct (Z.ltb_spec t now); destruct (Z.ltb_spec t now'); try lia.
  - apply Z.div_le_mono; [apply msPerDay_pos | lia].
  - apply days_nonneg. lia.
Qed.

(** Recomputing the delay information twice at the same time changes
    nothing more; the delay days are never negative; and as time goes on
    (with dates and status unchanged) a delayed case stays delayed and its
    delay days do not shrink. *)
Theorem delay_info_stable_and_growing (now now' : Z) (c : Case) :
  now <= now' ->
  updateDelayInfo now (updateDelayInfo now c) = updateDelayInfo now c
  /\ 0 <= delayDays (delayInfo (updateDelayInfo now c))
  /\ delayDays (delayInfo (updateDelayInfo now c))
     <= delayDays (delayInfo (updateDelayInfo now' c))
  /\ (isDelayed (delayInfo (updateDelayInfo now c)) = true ->
      isDelayed (delayInfo (updateDelayInfo now' c)) = true).
Proof.
  intro H. split; [| split; [| split]].
  - unfold updateDelayInfo.
    destruct (expectedCompletionDate c) as [d |] eqn:He;
      destruct (hearingDate c) as [h |] eqn:Hh;
      try destruct (passed now d) eqn:Pd; try destruct (passed now h) eqn:Ph;
      cbn [andb];
      try destruct (Status_eqb (status c) awaiting_hearing) eqn:Es;
      cbn [expectedCompletionDate hearingDate status set_delayInfo delayInfo
           delayReasons];
      rewrite ?He, ?Hh, ?Pd, ?Ph; cbn [andb]; rewrite ?Es; reflexivity.
  - rewrite updateDelayInfo_days.
    pose proof (completion_days_nonneg now c). lia.
  - rewrite !updateDelayInfo_days.
    pose proof (completion_days_mono c H).
    pose proof (hearing_days_mono c H). lia.
  - rewrite !updateDelayInfo_flag.
    unfold completion_passed, hearing_passed_waiting.
    intros [(t & X & L) | (t & X & L & S)].
    + left. exists t. split; [exact X | lia].
    + right. exists t. split; [exact X | split; [lia | exact S]].
Qed.

Lemma delay_info_stable_and_growing_witness :
  delayDays
    (delayInfo
       (updateDelayInfo (10 * msPerDay)
          (set_expectedCompletionDate (sample_case 1%nat) (Some (DateAt 0)))))
  <= delayDays
       (delayInfo
          (updateDelayInfo (40 * msPerDay)
             (set_expectedCompletionDate (sample_case 1%nat)
                (Some (DateAt 0))))).
Proof.
  assert (H : 10 * msPerDay <= 40 * msPerDay) by (vm_compute; discriminate).
  exact (proj1 (proj2 (proj2 (@delay_info_stable_and_growing
           (10 * msPerDay) (40 * msPerDay)
           (set_expectedCompletionDate (sample_case 1%nat) (Some (DateAt 0)))
           H)))).
Defined.

(** ** More on [save] *)

Lemma replace_doc_others (doc : Case) (l l' : list Case) (other : Case) :
  replace_doc doc l = Some l' ->
  case_id other <> case_id doc ->
  (In other l <-> In other l').
Proof.
  revert l'. induction l as [| d r IH]; intros l' H Hne; simpl in H.
  - discriminate.
  - destruct (case_id d =? case_id doc)%nat eqn:E.
    + injection H as <-. apply Nat.eqb_eq in E. simpl. split.
      * intros [<- | Hin]; [congruence | right; exact Hin].
      * intros [<- | Hin]; [congruence | right; exact Hin].
    + destruct (replace_doc doc r) as [r' |]; [| discriminate].
      injection H as <-. simpl. rewrite (IH r' eq_refl Hne). tauto.
Qed.

Lemma pre_save_id (env : Env) (now : Z) (d : Mongo.Db) (this hooked : Case) :
  pre_save env now d this = Ok hooked -> case_id hooked = case_id this.
Proof.
  unfold pre_save. intro H.
  assert (U : forall x, case_id (updateDelayInfo now x) = case_id x).
  { intro x. destruct (updateDelayInfo_frame now x) as (di & ->). reflexivity. }
  destruct (caseNumber this) as [s |].
  - destruct (String.eqb s EmptyString).
    + destruct (Mongo.countDocuments _ _ _); [| discriminate].
      injection H as <-. rewrite U. reflexivity.
    + injection H as <-. apply U.
  - destruct (Mongo.countDocuments _ _ _); [| discriminate].
    injection H as <-. rewrite U. reflexivity.
Qed.

(** A [save] of a loaded document that goes through replaces the stored
    document of the same [_id] and nothing else: the store keeps its size,
    every document with another [_id] stays, and the saved document carries
    the time of the save in [updatedAt]; a [save] that fails leaves no new
    store at all. *)
Theorem save_replaces_one_document (env : Env) (now : Z) (d d' : Mongo.Db)
  (doc doc' : Case) :
  save env now false d doc = Ok (d', doc') ->
  List.length (Mongo.docs d') = List.length (Mongo.docs d)
  /\ In doc' (Mongo.docs d')
  /\ case_id doc' = case_id doc
  /\ updatedAt doc' = Some now
  /\ (forall other, case_id other <> case_id doc ->
      (In other (Mongo.docs d) <-> In other (Mongo.docs d'))).
Proof.
  unfold save. intro H.
  destruct (Schema.validate doc); [| discriminate]. cbn [negb] in H.
  destruct (pre_save env now d doc) as [hooked |] eqn:Hh; [| discriminate].
  apply pre_save_id in Hh.
  destruct (Mongo.reachable d); [| discriminate]. cbn [negb] in H.
  destruct (replace_doc _ _) as [l |] eqn:Hr; [| discriminate].
  injection H as <- <-. cbn [Mongo.docs].
  split; [eapply replace_doc_length; exact Hr |].
  split; [eapply replace_doc_In; exact Hr |].
  split; [exact Hh |]. split; [reflexivity |].
  intros other Hne. eapply replace_doc_others; [exact Hr |].
  cbn. rewrite Hh. exact Hne.
Qed.

Lemma save_replaces_one_document_witness :
  exists d' doc',
    save (sample_env Mongo.Casting) 50 false
      (sample_db [sample_case 1%nat; sample_case 2%nat]) (sample_case 2%nat)
    = Ok (d', doc')
    /\ List.length (Mongo.docs d') = 2%nat.
Proof.
  eexists. eexists. split; [vm_compute; reflexivity |].
  exact (proj1 (@save_replaces_one_document (sample_env Mongo.Casting) 50
                  (sample_db [sample_case 1%nat; sample_case 2%nat]) _
                  (sample_case 2%nat) _ eq_refl)).
Defined.

(** A document without a case number never reaches the hook that would
    number it: [caseNumber] is required, validation comes first, and [save]
    ends in a validation error without touching the store. *)
Theorem save_without_case_number_is_rejected (env : Env) (now : Z)
  (isNew : bool) (d : Mongo.Db) (doc : Case) :
  caseNumber doc = None \/ caseNumber doc = Some EmptyString ->
  save env now isNew d doc = Err ValidationError.
Proof.
  intros [H | H]; unfold save, Schema.validate; rewrite H; reflexivity.
Qed.

Lemma save_without_case_number_is_rejected_witness :
  save (sample_env Mongo.Casting) 50 true (sample_db [])
    (set_caseNumber (sample_case 1%nat) None)
  = Err ValidationError.
Proof.
  apply save_without_case_number_is_rejected. left. reflexivity.
Defined.

Lemma chars_app (a b : string) :
  list_ascii_of_string (a ++ b)
  = list_ascii_of_string a ++ list_ascii_of_string b.
Proof.
  induction a as [| c r IH]; [reflexivity |]. simpl. rewrite IH. reflexivity.
Qed.

Lemma uint_chars_ok (u : Decimal.uint) :
  forallb Schema.caseNumber_char
    (list_ascii_of_string (NilEmpty.string_of_uint u)) = true.
Proof. induction u; simpl; try rewrite IHu; reflexivity. Qed.

Lemma digits_of_nat_ok (n : nat) :
  forallb Schema.caseNumber_char (list_ascii_of_string (digits_of_nat n))
  = true.
Proof.
  unfold digits_of_nat, NilZero.string_of_uint.
  destruct (Nat.to_uint n) eqn:E; try apply uint_chars_ok. reflexivity.
Qed.

Lemma digits_of_Z_ok (z : Z) :
  forallb Schema.caseNumber_char (list_ascii_of_string (digits_of_Z z)) = true.
Proof.
  unfold digits_of_Z. destruct (z <? 0).
  - rewrite chars_app, forallb_app, digits_of_nat_ok. reflexivity.
  - apply digits_of_nat_ok.
Qed.

Lemma repeat_char_ok (n : nat) :
  forallb Schema.caseNumber_char
    (list_ascii_of_string (repeat_char "0"%char n)) = true.
Proof. induction n; simpl; [| rewrite IHn]; reflexivity. Qed.

Lemma repeat_char_length (c : ascii) (n : nat) :
  String.length (repeat_char c n) = n.
Proof. induction n; simpl; [| rewrite IHn]; reflexivity. Qed.

Lemma string_length_app (a b : string) :
  String.length (a ++ b) = (String.length a + String.length b)%nat.
Proof.
  induction a as [| c r IH]; [reflexivity |]. simpl. rewrite IH. reflexivity.
Qed.

Lemma padStart0_length (n : nat) (s : string) :
  String.length (padStart0 n s) = Nat.max n (String.length s).
Proof.
  unfold padStart0. rewrite string_length_app, repeat_char_length. lia.
Qed.

(** Called on a document without a case number, with the store in reach,
    the hook numbers it "CASE/", the year, "/" and one more than the number
    of cases created in that year, padded with zeros to four digits at
    least; the number it makes passes the format validator of the schema. *)
Theorem hook_generates_well_formed_case_number (env : Env) (now : Z)
  (d : Mongo.Db) (this : Case) :
  caseNumber this = None ->
  Mongo.reachable d = true ->
  let count :=
    List.length
      (List.filter
         (Mongo.matches (created_in_year env (getFullYear env now)))
         (Mongo.docs d)) in
  let serial := padStart0 4 (digits_of_nat (count + 1)) in
  let number :=
    ("CASE/" ++ digits_of_Z (getFullYear env now) ++ "/" ++ serial)%string in
  exists hooked,
    pre_save env now d this = Ok hooked
    /\ caseNumber hooked = Some number
    /\ Schema.caseNumber_format number = true
    /\ (4 <= String.length serial)%nat
    /\ delayInfo hooked = delayInfo (updateDelayInfo now this).
Proof.
  intros Hn Hr. cbv zeta. unfold pre_save. rewrite Hn.
  unfold Mongo.countDocuments.
  rewrite find_well_typed by (reflexivity || exact Hr).
  eexists. split; [reflexivity |]. split.
  { destruct (updateDelayInfo_frame now
               (set_caseNumber this
                  (Some ("CASE/" ++ digits_of_Z (getFullYear env now) ++ "/"
                         ++ padStart0 4
                              (digits_of_nat
                                 (List.length
                                    (List.filter
                                       (Mongo.matches
                                          (created_in_year env
                                             (getFullYear env now)))
                                       (Mongo.docs d)) + 1)))%string)))
      as (di & ->). reflexivity. }
  split.
  { unfold Schema.caseNumber_format. apply andb_true_iff. split.
    - reflexivity.
    - rewrite !chars_app, !forallb_app, digits_of_Z_ok.
      unfold padStart0. rewrite chars_app, forallb_app, repeat_char_ok,
        digits_of_nat_ok. reflexivity. }
  split; [rewrite padStart0_length; lia |].
  apply updateDelayInfo_caseNumber.
Qed.

Lemma hook_generates_well_formed_case_number_witness :
  exists hooked,
    pre_save (sample_env Mongo.Casting) 0 (sample_db [sample_case 1%nat])
      (set_caseNumber (sample_case 2%nat) None) = Ok hooked
    /\ caseNumber hooked = Some "CASE/1970/0002"%string.
Proof.
  destruct (@hook_generates_well_formed_case_number
              (sample_env Mongo.Casting) 0 (sample_db [sample_case 1%nat])
              (set_caseNumber (sample_case 2%nat) None) eq_refl eq_refl)
    as (hooked & H & N & _).
  exists hooked. split; [exact H | exact N].
Defined.

(** ** What the scheduler leaves in the store *)

Lemma analyzeSingleCase_unfolded (env : Env) (caseDoc : Case) (w : World) :
  analyzeSingleCase env caseDoc w
  = emit (LogCaseError (caseNumber caseDoc)
            (match getAIAnalysis env
                     (prepareCaseDataForAI (clock w) caseDoc) with
             | Some _ => PersistenceFailed ValidationError
             | None => ScoringCallFailed
             end))
      (emit (LogAnalyzing (caseNumber caseDoc)) w).
Proof.
  unfold analyzeSingleCase. cbv zeta. cbn [emit clock db].
  destruct (getAIAnalysis env _); [| reflexivity].
  unfold updateCaseWithAIAnalysis, save.
  rewrite analysed_document_invalid. reflexivity.
Qed.

Lemma no_success_app (a b : list Event) :
  no_success (a ++ b) = no_success a && no_success b.
Proof.
  induction a as [| e r IH]; [reflexivity |].
  destruct e; simpl; try exact IH; reflexivity.
Qed.

Lemma analyses_keep_store (env : Env) (cases : list Case) (w : World) :
  db (fold_left (fun w' c => analyzeSingleCase env c w') cases w) = db w
  /\ (no_success (trace w) = true ->
      no_success
        (trace (fold_left (fun w' c => analyzeSingleCase env c w') cases w))
      = true).
Proof.
  revert w. induction cases as [| c r IH]; intro w; cbn [fold_left].
  - split; [reflexivity | tauto].
  - destruct (IH (analyzeSingleCase env c w)) as [D N].
    rewrite analyzeSingleCase_unfolded in *. split; [exact D |].
    intro H. apply N. cbn [emit trace].
    rewrite !no_success_app, H. reflexivity.
Qed.

Lemma processCaseBatch_keeps_store (env : Env) (batch : list Case) (w : World) :
  db (processCaseBatch env batch w) = db w
  /\ (no_success (trace w) = true ->
      no_success (trace (processCaseBatch env batch w)) = true).
Proof.
  unfold processCaseBatch.
  destruct (analyses_keep_store env batch (emit (CallProcessCaseBatch batch) w))
    as [D N].
  split; [exact D |]. intro H. apply N. cbn [emit trace].
  rewrite no_success_app, H. reflexivity.
Qed.

Lemma batch_loop_keeps_store (env : Env) (cases : list Case) (i : nat)
  (w : World) :
  db (batch_loop env cases i w) = db w
  /\ (no_success (trace w) = true ->
      no_success (trace (batch_loop env cases i w)) = true).
Proof.
  funelim (batch_loop env cases i w).
  - destruct H as [D N].
    destruct (processCaseBatch_keeps_store env
                (slice casesToAnalyze i (i + batchSize)) w) as [D1 N1].
    destruct (i + batchSize <? List.length casesToAnalyze)%nat.
    + split.
      * rewrite D. cbn [delay db]. exact D1.
      * intro Hw. apply N. cbn [delay trace].
        rewrite no_success_app, (N1 Hw). reflexivity.
    + split; [rewrite D; exact D1 | intro Hw; apply N, N1, Hw].
  - split; [reflexivity | tauto].
Qed.

(** Because every update is rejected by validation, the scheduler never
    changes the store: neither a single analysis, nor a whole hourly run,
    nor the analysis on demand, which hands back the stored case as it was;
    and no analysis is ever logged as done. *)
Theorem scheduler_never_changes_the_store (env : Env) (s : Scheduler)
  (w : World) (caseDoc : Case) (caseId : ObjectId) :
  db (analyzeSingleCase env caseDoc w) = db w
  /\ db (snd (runSchedulerAnalysis env s w)) = db w
  /\ (no_success (trace w) = true ->
      no_success (trace (snd (runSchedulerAnalysis env s w))) = true)
  /\ db (snd (analyzeCaseManually env caseId w)) = db w
  /\ (forall found,
      findById caseId (db w) = Ok (Some found) ->
      fst (analyzeCaseManually env caseId w) = Ok (Some found)).
Proof.
  split; [rewrite analyzeSingleCase_unfolded; reflexivity |].
  assert (R : db (snd (runSchedulerAnalysis env s w)) = db w
              /\ (no_success (trace w) = true ->
                  no_success (trace (snd (runSchedulerAnalysis env s w)))
                  = true)).
  { unfold runSchedulerAnalysis. destruct (isProcessing s).
    - split; [reflexivity |]. intro H. cbn [snd emit trace].
      rewrite no_success_app, H. reflexivity.
    - cbv zeta. destruct (getCasesForAnalysis _ _ _) as [l |].
      + destruct (List.length l =? 0)%nat.
        * split; [reflexivity |]. intro H. cbn [snd emit trace].
          rewrite !no_success_app, H. reflexivity.
        * destruct (batch_loop_keeps_store env l 0
                      (emit (LogAnalyzingCount (List.length l))
                         (emit LogRunning w))) as [D N].
          split; [exact D |]. intro H. cbn [snd emit trace].
          rewrite no_success_app, N; [reflexivity |].
          cbn [emit trace]. rewrite !no_success_app, H. reflexivity.
      + split; [reflexivity |]. intro H. cbn [snd emit trace].
        rewrite !no_success_app, H. reflexivity. }
  destruct R as [R1 R2]. split; [exact R1 |]. split; [exact R2 |].
  unfold analyzeCaseManually.
  destruct (findById caseId (db w)) as [[found |] | e] eqn:F.
  - cbv zeta.
    assert (D : db (analyzeSingleCase env found w) = db w)
      by (rewrite analyzeSingleCase_unfolded; reflexivity).
    rewrite D, F. cbn [snd fst].
    split; [exact D |]. intros f Hf. injection Hf as <-. reflexivity.
  - split; [reflexivity | discriminate].
  - split; [reflexivity | discriminate].
Qed.

(** The analysis on demand of an id that is not in the store fails with
    "Case not found"; the [catch] block logs that error, once, and nothing
    else happens: the store is as it was and no analysis was started.  With
    the store out of reach it fails with the store's error, logged in the
    same way. *)
Theorem manual_analysis_of_unknown_case (env : Env) (caseId : ObjectId)
  (w : World) :
  (Mongo.reachable (db w) = true ->
   (forall c, In c (Mongo.docs (db w)) -> case_id c <> caseId) ->
   analyzeCaseManually env caseId w
   = (Err CaseNotFound,
      {| db := db w; clock := clock w;
         trace := trace w ++ [LogManualError CaseNotFound] |})
   /\ attempted (trace (snd (analyzeCaseManually env caseId w)))
      = attempted (trace w))
  /\ (Mongo.reachable (db w) = false ->
      analyzeCaseManually env caseId w
      = (Err StoreError,
         {| db := db w; clock := clock w;
            trace := trace w ++ [LogManualError StoreError] |})).
Proof.
  unfold analyzeCaseManually, findById. split.
  - intros -> H.
    destruct (List.find _ _) as [c |] eqn:F.
    + apply find_some in F. destruct F as [Hin E]. apply Nat.eqb_eq in E.
      exfalso. exact (H c Hin E).
    + split; [reflexivity |]. cbn [snd emit trace].
      rewrite attempted_app. cbn [attempted]. apply app_nil_r.
  - intros ->. reflexivity.
Qed.

Lemma manual_analysis_of_unknown_case_witness :
  analyzeCaseManually (sample_env Mongo.Casting) 5%nat
    (sample_world [sample_case 1%nat] 0)
  = (Err CaseNotFound,
     {| db := sample_db [sample_case 1%nat]; clock := 0;
        trace := [LogManualError CaseNotFound] |}).
Proof.
  refine (proj1 (proj1 (manual_analysis_of_unknown_case
                          (sample_env Mongo.Casting) 5%nat
                          (sample_world [sample_case 1%nat] 0)) _ _)).
  - reflexivity.
  - intros c [<- | []]. discriminate.
Defined.

(** ** The Workload Rebalancer *)

Lemma lawyer_filter_count (ly : Mongo.layer) (d : Mongo.Db) (id : ObjectId) :
  Mongo.reachable d = true ->
  Mongo.countDocuments ly (lawyer_filter id) d = Ok (active_case_count d id).
Proof.
  intro Hr. unfold Mongo.countDocuments.
  rewrite find_well_typed by (reflexivity || exact Hr).
  unfold active_case_count. f_equal. f_equal. apply filter_ext. intro c.
  destruct (Mongo.matches (lawyer_filter id) c) eqn:M.
  - apply lawyer_filter_matches in M. destruct M as [(l & -> & <-) ->].
    rewrite Nat.eqb_refl. reflexivity.
  - destruct (assignedLawyer c) as [l |] eqn:A; [| reflexivity].
    destruct (lawyer_id l =? id)%nat eqn:E; [| reflexivity].
    destruct (is_terminal (status c)) eqn:T; [reflexivity |].
    exfalso. apply Nat.eqb_eq in E.
    assert (X : Mongo.matches (lawyer_filter id) c = true).
    { apply lawyer_filter_matches. split; [exists l; auto | exact T]. }
    congruence.
Qed.

Lemma replace_user_map (u : User) (l : list User) :
  NoDup (map user_id l) ->
  replace_user u l
  = map (fun v => if (user_id v =? user_id u)%nat then u else v) l.
Proof.
  induction l as [| v r IH]; intro N; [reflexivity |].
  simpl. inversion N as [| x xs Hx Nr]; subst.
  destruct (user_id v =? user_id u)%nat eqn:E.
  - f_equal. apply Nat.eqb_eq in E.
    rewrite <- (map_id r) at 1. apply map_ext_in. intros w Hw.
    destruct (user_id w =? user_id u)%nat eqn:E2; [| reflexivity].
    apply Nat.eqb_eq in E2. exfalso. apply Hx. rewrite E, <- E2.
    apply in_map. exact Hw.
  - f_equal. apply IH. exact Nr.
Qed.

Lemma rebalance_loop_all (env : Env) (d : Mongo.Db) (lawyers users : list User) :
  Mongo.reachable d = true ->
  (forall u, user_saves env u = true) ->
  NoDup (map user_id users) ->
  NoDup (map user_id lawyers) ->
  (forall l, In l lawyers -> In l users) ->
  rebalance_loop env d lawyers users
  = (map (fun u =>
            if existsb (fun l => (user_id l =? user_id u)%nat) lawyers
            then counted d u else u) users, None).
Proof.
  intros Hr Hs. revert users.
  induction lawyers as [| lw rest IH]; intros users Nu Nl Hin.
  - cbn. rewrite map_id. reflexivity.
  - cbn [rebalance_loop]. rewrite lawyer_filter_count by exact Hr.
    rewrite Hs. fold (counted d lw).
    inversion Nl as [| x xs Hx Nr]; subst.
    rewrite replace_user_map by exact Nu.
    rewrite IH.
    + f_equal. rewrite map_map. apply map_ext_in. intros u Hu.
      change (user_id (counted d lw)) with (user_id lw).
      cbn [existsb].
      destruct (user_id u =? user_id lw)%nat eqn:E.
      * apply Nat.eqb_eq in E.
        assert (Hul : u = lw).
        { assert (Hlw : In lw users) by (apply Hin; left; reflexivity).
          clear - Nu Hu Hlw E. induction users as [| v r IHr]; [contradiction |].
          simpl in Nu. inversion Nu as [| y ys Hy Nr']; subst.
          destruct Hu as [<- | Hu]; destruct Hlw as [<- | Hlw]; auto.
          - exfalso. apply Hy. rewrite E. apply in_map. exact Hlw.
          - exfalso. apply Hy. rewrite <- E. apply in_map. exact Hu. }
        subst u. rewrite Nat.eqb_refl. cbn [orb].
        change (user_id (counted d lw)) with (user_id lw).
        destruct (existsb _ rest) eqn:Ex; [| reflexivity].
        exfalso. apply existsb_exists in Ex. destruct Ex as (l' & Hl' & El').
        apply Nat.eqb_eq in El'. apply Hx. rewrite <- El'.
        apply in_map. exact Hl'.
      * rewrite Nat.eqb_sym, E. cbn [orb]. reflexivity.
    + rewrite map_map. cbn.
      erewrite map_ext; [exact Nu |].
      intro u. cbn. destruct (user_id u =? user_id lw)%nat eqn:E;
        [apply Nat.eqb_eq in E; symmetry; exact E | reflexivity].
    + exact Nr.
    + intros l Hl. apply in_map_iff. exists l. split.
      * change (user_id (counted d lw)) with (user_id lw).
        destruct (user_id l =? user_id lw)%nat eqn:E; [| reflexivity].
        exfalso. apply Nat.eqb_eq in E. apply Hx. rewrite <- E.
        apply in_map. exact Hl.
      * apply Hin. right. exact Hl.
Qed.

Lemma nodup_map_filter (p : User -> bool) (l : list User) :
  NoDup (map user_id l) -> NoDup (map user_id (List.filter p l)).
Proof.
  induction l as [| u r IH]; intro N; [constructor |].
  simpl in N. inversion N as [| x xs Hx Nr]; subst. simpl.
  destruct (p u); [| apply IH, Nr].
  simpl. constructor; [| apply IH, Nr].
  intro H. apply Hx. apply in_map_iff in H.
  destruct H as (v & E & Hv). apply filter_In in Hv.
  rewrite <- E. apply in_map. tauto.
Qed.

(** When the store is in reach, every save goes through and no two users
    share an id, the rebalancer ends without error and has written to every
    active lawyer the number of non-terminal cases assigned to that lawyer;
    every other user is as before. *)
Theorem rebalance_writes_live_counts (env : Env) (d : Mongo.Db)
  (users : list User) :
  Mongo.reachable d = true ->
  (forall u, user_saves env u = true) ->
  NoDup (map user_id users) ->
  rebalanceLawyerWorkloads env d users = (map (rebalanced d) users, None).
Proof.
  intros Hr Hs Nu. unfold rebalanceLawyerWorkloads. rewrite Hr. cbn [negb].
  rewrite rebalance_loop_all; try assumption.
  - f_equal. apply map_ext_in. intros u Hu. unfold rebalanced.
    destruct (is_active_lawyer u) eqn:A.
    + assert (X : existsb (fun l => (user_id l =? user_id u)%nat)
                    (List.filter is_active_lawyer users) = true).
      { apply existsb_exists. exists u. split.
        - apply filter_In. split; assumption.
        - apply Nat.eqb_refl. }
      rewrite X. reflexivity.
    + destruct (existsb _ _) eqn:X; [| reflexivity].
      exfalso. apply existsb_exists in X. destruct X as (l & Hl & E).
      apply filter_In in Hl. destruct Hl as [Hl Al].
      apply Nat.eqb_eq in E.
      assert (Hul : l = u).
      { clear - Nu Hu Hl E. induction users as [| v r IHr]; [contradiction |].
        simpl in Nu. inversion Nu as [| y ys Hy Nr']; subst.
        destruct Hu as [<- | Hu]; destruct Hl as [<- | Hl]; auto.
        - exfalso. apply Hy. rewrite <- E. apply in_map. exact Hl.
        - exfalso. apply Hy. rewrite E. apply in_map. exact Hu. }
      subst l. congruence.
  - apply nodup_map_filter. exact Nu.
  - intros l Hl. apply filter_In in Hl. tauto.
Qed.

Lemma rebalance_writes_live_counts_witness :
  rebalanceLawyerWorkloads (sample_env Mongo.Casting)
    (sample_db [sample_case 1%nat])
    [{| user_id := 4%nat; role := "lawyer"; isActive := true;
        activeCases := Num 9%Q |}]
  = ([{| user_id := 4%nat; role := "lawyer"; isActive := true;
         activeCases := Num 0%Q |}], None).
Proof.
  apply (@rebalance_writes_live_counts (sample_env Mongo.Casting)
           (sample_db [sample_case 1%nat])
           [{| user_id := 4%nat; role := "lawyer"; isActive := true;
               activeCases := Num 9%Q |}]).
  - reflexivity.
  - intro u. reflexivity.
  - constructor; [intros [] | constructor].
Defined.

(** The loop has no handler of its own: when the save of the first active
    lawyer fails, the rebalancer ends with that error and no user has been
    changed, the lawyers after the first included. *)
Theorem rebalance_stops_at_first_failure (env : Env) (d : Mongo.Db)
  (users : list User) (first : User) (others : list User) :
  Mongo.reachable d = true ->
  List.filter is_active_lawyer users = first :: others ->
  user_saves env (counted d first) = false ->
  rebalanceLawyerWorkloads env d users = (users, Some ValidationError).
Proof.
  intros Hr Hf Hs. unfold rebalanceLawyerWorkloads. rewrite Hr, Hf.
  cbn [negb rebalance_loop]. rewrite lawyer_filter_count by exact Hr.
  fold (counted d first). rewrite Hs. reflexivity.
Qed.

Lemma rebalance_stops_at_first_failure_witness :
  let users :=
    [{| user_id := 4%nat; role := "lawyer"; isActive := true;
        activeCases := Num 9%Q |};
     {| user_id := 5%nat; role := "lawyer"; isActive := true;
        activeCases := Num 7%Q |}] in
  rebalanceLawyerWorkloads
    {| JSON_parse := fun _ => None;
       NumberToString := sample_print;
       toLocaleString := sample_print;
       completion := fun _ => None;
       getFullYear := fun _ => 1970;
       startOfYear := fun _ => 0;
       completionDate := fun _ _ => InvalidDate;
       store_layer := Mongo.Casting;
       user_saves := fun _ => false |}
    (sample_db []) users
  = (users, Some ValidationError).
Proof.
  cbv zeta.
  eapply rebalance_stops_at_first_failure; reflexivity.
Defined.

(** ** Code fences *)

Lemma plain_char_no_prefix (c : ascii) (l : list ascii) :
  Ascii.eqb c "`"%char = false ->
  Fence.is_prefix Fence.backticks_json (c :: l) = false
  /\ Fence.is_prefix Fence.backticks (c :: l) = false.
Proof.
  intro H.
  destruct c as [[] [] [] [] [] [] [] []];
    first [discriminate H | split; reflexivity].
Qed.

Lemma strip_plain (b rest : list ascii) :
  forallb (fun c => negb (Ascii.eqb c "`"%char)) b = true ->
  Fence.is_prefix Fence.backticks rest = false ->
  Fence.strip 0 (b ++ rest) = b ++ Fence.strip 0 rest.
Proof.
  induction b as [| c r IH]; intros Hp Hr; [reflexivity |].
  cbn [forallb] in Hp. apply andb_true_iff in Hp.
  destruct Hp as [Hc Hp]. apply negb_true_iff in Hc.
  cbn [app Fence.strip].
  destruct (@plain_char_no_prefix c (r ++ rest) Hc) as [E1 E3].
  assert (E2 : Fence.is_prefix (Fence.newline :: Fence.backticks)
                 (c :: r ++ rest) = false).
  { cbn [Fence.is_prefix].
    destruct (Ascii.eqb Fence.newline c); [| reflexivity]. cbn [andb].
    destruct r as [| c' r'].
    - exact Hr.
    - cbn [forallb] in Hp. apply andb_true_iff in Hp.
      destruct Hp as [Hc' _]. apply negb_true_iff in Hc'.
      apply (@plain_char_no_prefix c' (r' ++ rest) Hc'). }
  rewrite E1, E2, E3. f_equal. apply IH; assumption.
Qed.

Lemma strip_fenced (b : list ascii) :
  forallb (fun c => negb (Ascii.eqb c "`"%char)) b = true ->
  Fence.strip 0
    (Fence.backticks_json ++ Fence.newline :: b
     ++ Fence.newline :: Fence.backticks) = b.
Proof.
  intro Hp.
  change (Fence.strip 0 (Fence.backticks_json ++ Fence.newline :: b
                         ++ Fence.newline :: Fence.backticks))
    with (Fence.strip 0 (b ++ Fence.newline :: Fence.backticks)).
  rewrite strip_plain by (exact Hp || reflexivity).
  cbn. apply app_nil_r.
Qed.

(** A response wrapped in a json code fence is read as the text inside the
    fence: when that text holds no backtick, cleaning the fenced response
    gives the trimmed text, as cleaning the bare text does, and the parser
    returns the same result for both. *)
Theorem fenced_response_is_unwrapped (JSON_parse : string -> throws json)
  (body : string) :
  no_backtick body = true ->
  let fenced := ("```json" ++ nl ++ body ++ nl ++ "```")%string in
  Fence.clean fenced
  = string_of_list_ascii (StrNum.trim_list (list_ascii_of_string body))
  /\ Fence.clean fenced = Fence.clean body
  /\ parseAIResponse JSON_parse fenced = parseAIResponse JSON_parse body.
Proof.
  intro Hp. cbv zeta. unfold no_backtick in Hp.
  assert (E1 : Fence.clean ("```json" ++ nl ++ body ++ nl ++ "```")
               = string_of_list_ascii
                   (StrNum.trim_list (list_ascii_of_string body))).
  { unfold Fence.clean. rewrite !chars_app.
    change (list_ascii_of_string "```json") with Fence.backticks_json.
    change (list_ascii_of_string nl) with [Fence.newline].
    change (list_ascii_of_string "```") with Fence.backticks.
    cbn [app].
    rewrite strip_fenced by exact Hp. reflexivity. }
  assert (E2 : Fence.clean body
               = string_of_list_ascii
                   (StrNum.trim_list (list_ascii_of_string body))).
  { unfold Fence.clean.
    rewrite <- (app_nil_r (list_ascii_of_string body)) at 1.
    rewrite strip_plain by (exact Hp || reflexivity).
    cbn [Fence.strip]. rewrite app_nil_r. reflexivity. }
  split; [exact E1 |]. split; [congruence |].
  unfold parseAIResponse. rewrite E1, E2. reflexivity.
Qed.

Lemma fenced_response_is_unwrapped_witness :
  Fence.clean ("```json" ++ nl ++ "{}" ++ nl ++ "```")%string = "{}"%string.
Proof.
  exact (proj1 (@fenced_response_is_unwrapped (fun _ => None) "{}" eq_refl)).
Defined.

(** ** The case summary and the prompt *)

(** The summary of a case: its age is the number of whole days since it was
    filed, the completed milestones are no more than the milestones, and a
    case without lawyer counts 0 years of experience and no
    specialization. *)
Theorem case_summary_counts (now : Z) (caseDoc : Case) (filed k : Z) :
  filingDate caseDoc = DateAt filed ->
  filed + k * msPerDay <= now < filed + (k + 1) * msPerDay ->
  let caseData := prepareCaseDataForAI now caseDoc in
  cd_caseAge caseData = Num (inject_Z k)
  /\ (cd_completedMilestones caseData <= cd_milestonesCount caseData)%nat
  /\ (assignedLawyer caseDoc = None ->
      cd_lawyerExperience caseData = n0
      /\ cd_lawyerSpecialization caseData = []).
Proof.
  intros Hf Hk. cbv zeta. unfold prepareCaseDataForAI.
  cbn [cd_caseAge cd_completedMilestones cd_milestonesCount
       cd_lawyerExperience cd_lawyerSpecialization].
  split; [| split].
  - rewrite Hf. cbn [days_between]. do 2 f_equal.
    symmetry. apply (Z.div_unique_pos _ _ k (now - filed - k * msPerDay));
      pose proof msPerDay_pos; lia.
  - apply filter_length_le.
  - intros ->. split; reflexivity.
Qed.

Lemma case_summary_counts_witness :
  cd_caseAge (prepareCaseDataForAI (40 * msPerDay + 5) (sample_case 1%nat))
  = Num (inject_Z 40).
Proof.
  assert (H : 0 + 40 * msPerDay <= 40 * msPerDay + 5
              < 0 + (40 + 1) * msPerDay)
    by (split; [discriminate | reflexivity]).
  exact (proj1 (@case_summary_counts (40 * msPerDay + 5) (sample_case 1%nat)
                  0 40 eq_refl H)).
Defined.

(** A hearing less than a day ahead counts 0 days, and 0 is falsy: the
    prompt then reads "Not scheduled", and is the very prompt of the same
    case without any hearing date. *)
Theorem hearing_within_a_day_reads_not_scheduled (env : Env) (now : Z)
  (caseDoc : Case) (h : Z) :
  hearingDate caseDoc = Some (DateAt h) ->
  now <= h < now + msPerDay ->
  cd_daysUntilHearing (prepareCaseDataForAI now caseDoc) = Some (Num 0%Q)
  /\ buildAnalysisPrompt env (prepareCaseDataForAI now caseDoc)
     = buildAnalysisPrompt env
         (prepareCaseDataForAI now (set_hearingDate caseDoc None)).
Proof.
  intros Hh Hn.
  assert (D : cd_daysUntilHearing (prepareCaseDataForAI now caseDoc)
              = Some (Num 0%Q)).
  { unfold prepareCaseDataForAI. cbn [cd_daysUntilHearing]. rewrite Hh.
    cbn [days_between]. rewrite Z.div_small by lia. reflexivity. }
  split; [exact D |].
  unfold buildAnalysisPrompt. rewrite D.
  reflexivity.
Qed.

Lemma hearing_within_a_day_reads_not_scheduled_witness :
  cd_daysUntilHearing
    (prepareCaseDataForAI 1000
       (set_hearingDate (sample_case 1%nat) (Some (DateAt 5000))))
  = Some (Num 0%Q).
Proof.
  assert (H : 1000 <= 5000 < 1000 + msPerDay)
    by (split; [discriminate | reflexivity]).
  exact (proj1 (@hearing_within_a_day_reads_not_scheduled
                  (sample_env Mongo.Casting) 1000
                  (set_hearingDate (sample_case 1%nat) (Some (DateAt 5000)))
                  5000 eq_refl H)).
Defined.

(** ** The machine carries every run to its end *)

Lemma loop_runs_out (s : Scheduler) (cases : list Case) (now : Z) (m i : nat) :
  isProcessing s = true ->
  (i < List.length cases)%nat ->
  ((List.length cases - i + 4) / 5 = S m)%nat ->
  run_inputs {| scheduler := s; calls := [AtBatch cases i] |}
    (settlements now (2 * m + 1))
  = {| scheduler := {| isProcessing := false; lastRunTime := Some now |};
       calls := [] |}.
Proof.
  intro P. revert i. induction m as [| m IH]; intros i Hi Hk.
  - assert (Hlast : (List.length cases <= i + 5)%nat).
    { destruct (Nat.le_gt_cases (List.length cases) (i + 5)) as [L | L];
        [exact L |].
      exfalso.
      assert (X : (2 <= (List.length cases - i + 4) / 5)%nat).
      { apply Nat.div_le_lower_bound; lia. }
      lia. }
    cbn [Nat.mul Nat.add settlements repeat run_inputs fold_left step
         nth_error calls].
    unfold batchSize, enter_loop.
    destruct (Nat.ltb_spec (i + 5) (List.length cases)); [lia |].
    reflexivity.
  - assert (Hmore : (i + 5 < List.length cases)%nat).
    { destruct (Nat.le_gt_cases (List.length cases) (i + 5)) as [L | L];
        [| exact L].
      exfalso.
      assert (X : ((List.length cases - i + 4) / 5 < 2)%nat).
      { apply Nat.Div0.div_lt_upper_bound; lia. }
      lia. }
    replace (2 * S m + 1)%nat with (S (S (2 * m + 1))) by lia.
    cbn [settlements repeat run_inputs fold_left].
    cbn [step nth_error calls]. unfold batchSize.
    destruct (Nat.ltb_spec (i + 5) (List.length cases)); [| lia].
    cbn [step nth_error calls replace_nth scheduler].
    unfold enter_loop, batchSize.
    destruct (Nat.ltb_spec (i + 5) (List.length cases)); [| lia].
    cbn [calls replace_nth scheduler].
    apply (IH (i + 5)%nat); [exact Hmore |].
    replace (List.length cases - i + 4)%nat
      with (List.length cases - (i + 5) + 4 + 1 * 5)%nat in Hk by lia.
    rewrite Nat.div_add in Hk by lia. lia.
Qed.

(** From the idle scheduler, a tick of the timer, the selection of [n > 0]
    cases and then one settlement for each of the ceiling(n/5) batches and
    for each wait between them bring the machine back to idle, with the
    time of the last settlement as the last run time; after the tick alone
    the flag is set and one call is suspended. *)
Theorem machine_completes_a_run (cases : list Case) (t0 now : Z) :
  cases <> [] ->
  let batches := ((List.length cases + 4) / 5)%nat in
  step idle Trigger
  = {| scheduler := {| isProcessing := true; lastRunTime := None |};
       calls := [AtSelection] |}
  /\ run_inputs idle
       (Trigger :: Settle 0 (Ok cases) t0
        :: settlements now (2 * batches - 1))
     = {| scheduler := {| isProcessing := false; lastRunTime := Some now |};
          calls := [] |}.
Proof.
  intro Hne. cbv zeta. split; [reflexivity |].
  assert (Hlen : (0 < List.length cases)%nat).
  { destruct cases; [congruence | simpl; lia]. }
  destruct ((List.length cases + 4) / 5)%nat as [| m] eqn:K.
  { exfalso.
    assert (X : (1 <= (List.length cases + 4) / 5)%nat).
    { apply Nat.div_le_lower_bound; lia. }
    lia. }
  replace (2 * S m - 1)%nat with (2 * m + 1)%nat by lia.
  cbn [run_inputs fold_left step idle scheduler isProcessing calls app
       nth_error lastRunTime].
  destruct (Nat.eqb_spec (List.length cases) 0); [lia |].
  unfold enter_loop. cbn [calls replace_nth scheduler].
  destruct (Nat.ltb_spec 0 (List.length cases)); [| lia].
  apply loop_runs_out; [reflexivity | exact Hlen |].
  rewrite Nat.sub_0_r. exact K.
Qed.

Lemma machine_completes_a_run_witness :
  run_inputs idle
    (Trigger :: Settle 0 (Ok (map sample_case (seq 0 7))) 10
     :: settlements 99 3)
  = {| scheduler := {| isProcessing := false; lastRunTime := Some 99 |};
       calls := [] |}.
Proof.
  assert (N : map sample_case (seq 0 7) <> []) by discriminate.
  exact (proj2 (@machine_completes_a_run (map sample_case (seq 0 7)) 10 99 N)).
Defined.

(** ** The hourly run through the casting layer *)

(** Through the casting layer every hourly run that starts is aborted by
    the selection: it logs the CastError, hands no case to any batch, waits
    for nothing, leaves the store and the last run time as they were, and
    clears the flag. *)
Theorem hourly_run_aborts_in_selection (env : Env) (s : Scheduler)
  (w : World) :
  store_layer env = Mongo.Casting ->
  isProcessing s = false ->
  runSchedulerAnalysis env s w
  = ({| isProcessing := false; lastRunTime := lastRunTime s |},
     {| db := db w; clock := clock w;
        trace := trace w ++ [LogRunning; LogRunError CastError] |}).
Proof.
  intros Hl Hp. unfold runSchedulerAnalysis. rewrite Hp, Hl. cbv zeta.
  unfold getCasesForAnalysis, Mongo.find. cbv zeta.
  rewrite analysis_filter_ill_typed.
  unfold release, emit. cbn [db clock trace lastRunTime].
  rewrite <- app_assoc. reflexivity.
Qed.

Lemma hourly_run_aborts_in_selection_witness :
  fst (runSchedulerAnalysis (sample_env Mongo.Casting)
         {| isProcessing := false; lastRunTime := Some 7 |}
         (sample_world [sample_case 1%nat] 100))
  = {| isProcessing := false; lastRunTime := Some 7 |}.
Proof.
  rewrite (@hourly_run_aborts_in_selection (sample_env Mongo.Casting)
             {| isProcessing := false; lastRunTime := Some 7 |}
             (sample_world [sample_case 1%nat] 100) eq_refl eq_refl).
  reflexivity.
Defined.

(** ** Labels rise with what they are derived from *)

Lemma priority_rank_reads (q : Q) :
  priority_rank (priority_of_score (Num q))
  = ((if Qle_bool 90 q then 1 else 0)
     + (if Qle_bool 75 q then 1 else 0)
     + (if Qle_bool 60 q then 1 else 0)
     + (if Qle_bool 40 q then 1 else 0))%nat.
Proof.
  unfold priority_of_score, JS.ge, JS.le.
  destruct (Qle_bool 90 q) eqn:E90; destruct (Qle_bool 75 q) eqn:E75;
    destruct (Qle_bool 60 q) eqn:E60; destruct (Qle_bool 40 q) eqn:E40;
    try reflexivity; exfalso;
    repeat match goal with
           | H : Qle_bool _ _ = true |- _ => apply Qle_bool_iff in H
           | H : Qle_bool _ _ = false |- _ => apply Qle_bool_false in H
           end; lra.
Qed.

Lemma threshold_mono (b p q : Q) :
  (p <= q)%Q ->
  ((if Qle_bool b p then 1 else 0) <= (if Qle_bool b q then 1 else 0))%nat.
Proof.
  intro H. destruct (Qle_bool b p) eqn:E1; destruct (Qle_bool b q) eqn:E2;
    try lia.
  apply Qle_bool_iff in E1. apply Qle_bool_false in E2. lra.
Qed.

(** A higher score never gives a lower priority label, and more delay days
    never give a lower delay impact. *)
Theorem labels_are_monotone (p q : Q) (d e : Z) :
  (p <= q)%Q -> d <= e ->
  (priority_rank (priority_of_score (Num p))
   <= priority_rank (priority_of_score (Num q)))%nat
  /\ (impact_rank (impact_of_days d) <= impact_rank (impact_of_days e))%nat.
Proof.
  intros Hq Hd. split.
  - rewrite !priority_rank_reads.
    pose proof (threshold_mono 90 Hq). pose proof (threshold_mono 75 Hq).
    pose proof (threshold_mono 60 Hq). pose proof (threshold_mono 40 Hq).
    lia.
  - unfold impact_of_days.
    destruct (Z.ltb_spec 180 d); destruct (Z.ltb_spec 180 e);
      destruct (Z.ltb_spec 90 d); destruct (Z.ltb_spec 90 e);
      destruct (Z.ltb_spec 30 d); destruct (Z.ltb_spec 30 e);
      cbn; lia.
Qed.

Lemma labels_are_monotone_witness :
  (priority_rank (priority_of_score (Num 59%Q))
   <= priority_rank (priority_of_score (Num 60%Q)))%nat.
Proof.
  assert (Hq : (59 <= 60)%Q) by discriminate.
  assert (Hd : 30 <= 31) by discriminate.
  exact (proj1 (@labels_are_monotone 59%Q 60%Q 30 31 Hq Hd)).
Defined.

(** ** The statics of the model *)

Lemma by_delay_desc_total (a b : Case) :
  by_delay_desc a b = true \/ by_delay_desc b a = true.
Proof.
  unfold by_delay_desc.
  destruct (Z.leb_spec (delayDays (delayInfo b)) (delayDays (delayInfo a)));
    [auto |]. right. apply Z.leb_le. lia.
Qed.

Lemma by_delay_desc_trans (a b c : Case) :
  by_delay_desc a b = true -> by_delay_desc b c = true ->
  by_delay_desc a c = true.
Proof.
  unfold by_delay_desc. intros H1 H2.
  apply Z.leb_le in H1, H2. apply Z.leb_le. lia.
Qed.

(** [getDelayedCases] returns the delayed cases of the store that are not
    in a terminal status, all of them, longest delay first;
    [getCasesByPriority] returns the cases that are not in a terminal
    status and whose score is at least the given one, all of them, highest
    score first. *)
Theorem statics_return_all_in_order (ly : Mongo.layer) (minScore : Q)
  (d : Mongo.Db) :
  Mongo.reachable d = true ->
  (exists l,
     getDelayedCases ly d = Ok l
     /\ Permutation l
          (List.filter
             (fun c => isDelayed (delayInfo c)
                       && negb (is_terminal (status c)))
             (Mongo.docs d))
     /\ StronglySorted
          (fun a b => delayDays (delayInfo b) <= delayDays (delayInfo a)) l)
  /\ (exists l,
        getCasesByPriority ly (Num minScore) d = Ok l
        /\ Permutation l
             (List.filter
                (fun c => Mongo.num_leb (Num minScore) (case_priorityScore c)
                          && negb (is_terminal (status c)))
                (Mongo.docs d))
        /\ StronglySorted
             (fun a b =>
                Mongo.num_leb (case_priorityScore b) (case_priorityScore a)
                = true) l).
Proof.
  intro Hr. split.
  - eexists. split; [| split].
    + unfold getDelayedCases.
      rewrite find_well_typed by (reflexivity || exact Hr). reflexivity.
    + eapply perm_trans; [apply sort_by_perm |].
      erewrite filter_ext; [apply Permutation_refl |].
      intro c. cbn [Mongo.matches Mongo.holds].
      rewrite status_not_terminal, andb_true_r.
      change (Mongo.field c "delayInfo.isDelayed")
        with (Some (Mongo.BBool (isDelayed (delayInfo c)))).
      cbn. destruct (isDelayed (delayInfo c)); reflexivity.
    + apply (@strongly_sorted_impl (fun a b => by_delay_desc a b = true)).
      * intros a b H. apply Z.leb_le. exact H.
      * apply sort_by_sorted;
          [apply by_delay_desc_total | apply by_delay_desc_trans].
  - eexists. split; [| split].
    + unfold getCasesByPriority.
      rewrite find_well_typed by (reflexivity || exact Hr). reflexivity.
    + eapply perm_trans; [apply sort_by_perm |].
      erewrite filter_ext; [apply Permutation_refl |].
      intro c. cbn [Mongo.matches Mongo.holds].
      rewrite status_not_terminal, andb_true_r. reflexivity.
    + apply sort_by_sorted;
        [apply by_score_desc_total | apply by_score_desc_trans].
Qed.

Lemma statics_return_all_in_order_witness :
  (getDelayedCases Mongo.Casting (sample_db sample_backlog)
   = Ok [sample_delayed 2%nat 80%Q awaiting_hearing 200;
         sample_delayed 1%nat 45%Q in_progress 40]
   /\ getCasesByPriority Mongo.Casting (Num 60%Q) (sample_db sample_backlog)
      = Ok [sample_delayed 2%nat 80%Q awaiting_hearing 200;
            sample_delayed 4%nat 65%Q under_review 0])
  /\ (exists l,
        getDelayedCases Mongo.Casting (sample_db sample_backlog) = Ok l
        /\ Permutation l
             (List.filter
                (fun c => isDelayed (delayInfo c)
                          && negb (is_terminal (status c)))
                sample_backlog)
        /\ StronglySorted
             (fun a b => delayDays (delayInfo b) <= delayDays (delayInfo a))
             l)
  /\ (exists l,
        getCasesByPriority Mongo.Casting (Num 60%Q) (sample_db sample_backlog)
        = Ok l
        /\ Permutation l
             (List.filter
                (fun c => Mongo.num_leb (Num 60%Q) (case_priorityScore c)
                          && negb (is_terminal (status c)))
                sample_backlog)
        /\ StronglySorted
             (fun a b =>
                Mongo.num_leb (case_priorityScore b) (case_priorityScore a)
                = true) l).
Proof.
  split; [split; reflexivity |].
  exact (@statics_return_all_in_order Mongo.Casting 60%Q
           (sample_db sample_backlog) eq_refl).
Defined.
